(** * dnm-clock-poc: the mission clock kernel and the broadcast timer store

    A shallow embedding of the two time-keeping units of the repository:

    - the clock kernel, [CLOCK_WORKER_SCRIPT] (a dedicated worker that owns
      the clock state and paints an [HH:MM:SS] string on an offscreen
      canvas), and
    - the store of the [useBroadcastMatchTimer] hook (a main-thread cache
      that recomputes the same anchor-based formula on every [TICK] of the
      timer worker and notifies its listeners).

    Around them, for the properties that follow the claims: the timer
    worker itself, [TIMER_WORKER_SCRIPT]; the [MissionClock] component,
    as far as the messages it posts to the kernel go; and the
    main-thread [NaiveClock], its formatter and the methods of its handle.

    Modelling conventions.  JavaScript numbers are taken to be exact
    integers ([Z]): seconds are whole seconds and [performance.now()] is a
    whole number of milliseconds.  Every call of [performance.now()] in the
    source is a parameter of the function that makes it, so a handler that
    reads the clock twice takes two readings.  Side effects (painting,
    posting a message, notifying a listener, logging) are returned as a
    list of events next to the new state. *)

From Stdlib Require Import ZArith QArith Qminmax Qround List String Ascii Bool
  Sorted Lia.
Import ListNotations.

Local Open Scope Z_scope.

(* ------------------------------------------------------------------ *)
(** * The fragment of JavaScript the two scripts use *)
(* ------------------------------------------------------------------ *)

Module JS.

(** The decimal digit [d] (for [0 <= d <= 9]) as a character. *)
Definition digitChar (d : Z) : ascii := ascii_of_nat (48 + Z.to_nat d).

(** Decimal digits of a non-negative integer, least significant first,
    pushed in front of [acc].  [fuel] bounds the number of digits after
    the first one. *)
Fixpoint digitsFrom (fuel : nat) (n : Z) (acc : string) : string :=
  let acc' := String (digitChar (n mod 10)) acc in
  match fuel with
  | O => acc'
  | S fuel' => if n / 10 =? 0 then acc' else digitsFrom fuel' (n / 10) acc'
  end.

(** A number below [2 ^ (k + 1)] has at most [k + 1] decimal digits, so
    [Z.log2 n] is fuel enough. *)
Definition digitsOf (n : Z) : string :=
  digitsFrom (Z.to_nat (Z.log2 n)) n EmptyString.

(** [Number.prototype.toString()] on an integer. *)
Definition toString (n : Z) : string :=
  if n <? 0 then String "-"%char (digitsOf (- n)) else digitsOf n.

Fixpoint repeatChar (k : nat) (c : ascii) : string :=
  match k with
  | O => EmptyString
  | S k' => String c (repeatChar k' c)
  end.

(** [String.prototype.padStart(targetLength, padString)] with a pad string
    of one character: the string is returned as it is when it is already
    [targetLength] long or longer, it is never cut. *)
Definition padStart (targetLength : nat) (fill : ascii) (s : string) : string :=
  (repeatChar (targetLength - String.length s) fill ++ s)%string.

(** A template literal prints an absent array element as [undefined]. *)
Definition interpolate (o : option string) : string :=
  match o with
  | Some s => s
  | None => "undefined"%string
  end.

(** [xs[i]] for an integer [i]: [undefined] outside the array. *)
Definition index {A : Type} (xs : list A) (i : Z) : option A :=
  if i <? 0 then None else nth_error xs (Z.to_nat i).

(** The value a digit string denotes, used to validate [toString]. *)
Definition digitValue (c : ascii) : Z := Z.of_nat (nat_of_ascii c) - 48.

Fixpoint valueFrom (acc : Z) (s : string) : Z :=
  match s with
  | EmptyString => acc
  | String c s' => valueFrom (10 * acc + digitValue c) s'
  end.

Definition valueOf (s : string) : Z :=
  match s with
  | String "-"%char s' => - valueFrom 0 s'
  | _ => valueFrom 0 s
  end.

End JS.

(* ------------------------------------------------------------------ *)
(** * Formatting *)
(* ------------------------------------------------------------------ *)

(** [formatTime] of [useBroadcastMatchTimer.ts].  [/] followed by
    [Math.floor] is floor division, [%] is the remainder that takes the
    sign of the dividend. *)
Definition formatTime (totalSeconds : Z) : string :=
  let h := totalSeconds / 3600 in
  let m := Z.rem totalSeconds 3600 / 60 in
  let s := Z.rem totalSeconds 60 in
  (JS.padStart 2 "0" (JS.toString h) ++ ":" ++
   JS.padStart 2 "0" (JS.toString m) ++ ":" ++
   JS.padStart 2 "0" (JS.toString s))%string.

(** The three fields of a formatted string, for statements about widths. *)
Definition formatTime_hours (totalSeconds : Z) : string :=
  JS.padStart 2 "0" (JS.toString (totalSeconds / 3600)).
Definition formatTime_minutes (totalSeconds : Z) : string :=
  JS.padStart 2 "0" (JS.toString (Z.rem totalSeconds 3600 / 60)).
Definition formatTime_seconds (totalSeconds : Z) : string :=
  JS.padStart 2 "0" (JS.toString (Z.rem totalSeconds 60)).

(* ------------------------------------------------------------------ *)
(** * The clock kernel: [CLOCK_WORKER_SCRIPT] *)
(* ------------------------------------------------------------------ *)

Module Kernel.

(** ** Data *)

Record ClockStyleConfig := mkConfig {
  backgroundColor : string;
  textColor : string;
  fontFamily : string;
  glowEffect : bool;
  showDot : bool
}.

(** The [OffscreenCanvas] handed over by [INIT]: the size of its backing
    bitmap and whether [getContext('2d')] yields a context. *)
Record offscreen := mkOffscreen {
  bitmapWidth : Z;
  bitmapHeight : Z;
  has2d : bool
}.

(** The [state] object of the script.  [config] is optional because
    [UPDATE_CONFIG] stores its payload unchecked, also when it is
    [undefined]. *)
Record state := mkState {
  baseTimeMs : Z;
  startTimeMs : Z;
  isRunning : bool;
  lastRenderedSecond : Z;
  width : Z;
  height : Z;
  dpr : Q;
  config : option ClockStyleConfig
}.

(** The globals of the script, and the host's queue of animation frame
    callbacks ([rafNext] is the next handle [requestAnimationFrame]
    returns, [rafPending] the handles still waiting for their frame). *)
Record kernel := mkKernel {
  canvas : option offscreen;
  ctx : bool;
  animationFrameId : option nat;
  st : state;
  rafNext : nat;
  rafPending : list nat
}.

(** What the canvas context is asked to do. *)
Inductive drawOp :=
| ClearRect (w h : Z)
| FillRect (fillStyle : string) (w h : Z)
| FillText (text : string) (fillStyle : string) (fontSize shadowBlur : Q)
| FillDot (radius shadowBlur : Q).

Inductive effect :=
| PaintCall (displaySeconds : Z)   (* [paint] was entered *)
| Draw (op : drawOp)
| Uncaught.                        (* a TypeError left the handler *)

Inductive result (A : Type) :=
| Returned (a : A)
| Thrown.
Arguments Returned {A} a.
Arguments Thrown {A}.

Definition DEFAULT_CONFIG : ClockStyleConfig :=
  {| backgroundColor := "#0f172a";
     textColor := "#22c55e";
     fontFamily := "'Courier New', monospace";
     glowEffect := true;
     showDot := true |}.

Definition initialState : state :=
  {| baseTimeMs := 0;
     startTimeMs := 0;
     isRunning := false;
     lastRenderedSecond := -1;
     width := 0;
     height := 0;
     dpr := 1%Q;
     config := Some DEFAULT_CONFIG |}.

(** The script right after it is loaded. *)
Definition initial : kernel :=
  {| canvas := None;
     ctx := false;
     animationFrameId := None;
     st := initialState;
     rafNext := 1%nat;
     rafPending := [] |}.

(** The four fields the clock arithmetic depends on. *)
Definition clockOf (k : kernel) : Z * Z * bool * Z :=
  (baseTimeMs (st k), startTimeMs (st k), isRunning (st k),
   lastRenderedSecond (st k)).

(** Invariant I1 of the specification, on the kernel's fields. *)
Definition totalMs (now : Z) (k : kernel) : Z :=
  if isRunning (st k)
  then baseTimeMs (st k) + (now - startTimeMs (st k))
  else baseTimeMs (st k).

(** ** Field updates *)

Definition withState (f : state -> state) (k : kernel) : kernel :=
  {| canvas := canvas k; ctx := ctx k;
     animationFrameId := animationFrameId k;
     st := f (st k);
     rafNext := rafNext k; rafPending := rafPending k |}.

Definition setBaseTimeMs (v : Z) (s : state) : state :=
  {| baseTimeMs := v; startTimeMs := startTimeMs s;
     isRunning := isRunning s; lastRenderedSecond := lastRenderedSecond s;
     width := width s; height := height s; dpr := dpr s;
     config := config s |}.

Definition setStartTimeMs (v : Z) (s : state) : state :=
  {| baseTimeMs := baseTimeMs s; startTimeMs := v;
     isRunning := isRunning s; lastRenderedSecond := lastRenderedSecond s;
     width := width s; height := height s; dpr := dpr s;
     config := config s |}.

Definition setIsRunning (v : bool) (s : state) : state :=
  {| baseTimeMs := baseTimeMs s; startTimeMs := startTimeMs s;
     isRunning := v; lastRenderedSecond := lastRenderedSecond s;
     width := width s; height := height s; dpr := dpr s;
     config := config s |}.

Definition setLastRenderedSecond (v : Z) (s : state) : state :=
  {| baseTimeMs := baseTimeMs s; startTimeMs := startTimeMs s;
     isRunning := isRunning s; lastRenderedSecond := v;
     width := width s; height := height s; dpr := dpr s;
     config := config s |}.

Definition setGeometry (w h : Z) (r : Q) (s : state) : state :=
  {| baseTimeMs := baseTimeMs s; startTimeMs := startTimeMs s;
     isRunning := isRunning s; lastRenderedSecond := lastRenderedSecond s;
     width := w; height := h; dpr := r;
     config := config s |}.

Definition setConfig (c : option ClockStyleConfig) (s : state) : state :=
  {| baseTimeMs := baseTimeMs s; startTimeMs := startTimeMs s;
     isRunning := isRunning s; lastRenderedSecond := lastRenderedSecond s;
     width := width s; height := height s; dpr := dpr s;
     config := c |}.

Definition setCanvas (c : option offscreen) (has : bool) (k : kernel) : kernel :=
  {| canvas := c; ctx := has;
     animationFrameId := animationFrameId k;
     st := st k;
     rafNext := rafNext k; rafPending := rafPending k |}.

Definition resizeBitmap (w h : Z) (k : kernel) : kernel :=
  match canvas k with
  | None => k
  | Some c =>
      {| canvas := Some {| bitmapWidth := w; bitmapHeight := h;
                           has2d := has2d c |};
         ctx := ctx k;
         animationFrameId := animationFrameId k;
         st := st k;
         rafNext := rafNext k; rafPending := rafPending k |}
  end.

(** ** The handler monad: state, a log of effects, and exceptions *)

Definition M (A : Type) : Type := kernel -> result A * kernel * list effect.

Definition ret {A} (a : A) : M A := fun k => (Returned a, k, []).

Definition bind {A B} (m : M A) (f : A -> M B) : M B :=
  fun k =>
    match m k with
    | (Returned a, k1, fx1) =>
        let '(r, k2, fx2) := f a k1 in (r, k2, fx1 ++ fx2)
    | (Thrown, k1, fx1) => (Thrown, k1, fx1)
    end.

Definition throw {A} : M A := fun k => (Thrown, k, []).
Definition emit (e : effect) : M unit := fun k => (Returned tt, k, [e]).
Definition gets {A} (f : kernel -> A) : M A := fun k => (Returned (f k), k, []).
Definition modify (f : kernel -> kernel) : M unit :=
  fun k => (Returned tt, f k, []).

Notation "x <- m ;; f" := (bind m (fun x => f))
  (at level 61, m at next level, right associativity).
Notation "m ;;; f" := (bind m (fun _ => f))
  (at level 61, right associativity).

(** [when c m]: [if (c) m]. *)
Definition when (c : bool) (m : M unit) : M unit := if c then m else ret tt.

(** [payload.field] throws a TypeError when [payload] is [undefined]. *)
Definition field {P A} (payload : option P) (f : P -> A) : M A :=
  match payload with
  | Some p => ret (f p)
  | None => throw
  end.

(** ** The host's animation frames *)

Definition requestAnimationFrame : M nat :=
  fun k =>
    let id := rafNext k in
    (Returned id,
     {| canvas := canvas k; ctx := ctx k;
        animationFrameId := animationFrameId k;
        st := st k;
        rafNext := S id; rafPending := rafPending k ++ [id] |},
     []).

Definition cancelAnimationFrame (id : nat) : M unit :=
  modify (fun k =>
    {| canvas := canvas k; ctx := ctx k;
       animationFrameId := animationFrameId k;
       st := st k;
       rafNext := rafNext k;
       rafPending := filter (fun j => negb (Nat.eqb j id)) (rafPending k) |}).

Definition setAnimationFrameId (id : nat) : M unit :=
  modify (fun k =>
    {| canvas := canvas k; ctx := ctx k;
       animationFrameId := Some id;
       st := st k;
       rafNext := rafNext k; rafPending := rafPending k |}).

(** ** Messages *)

Record initPayload := mkInitPayload {
  init_canvas : offscreen;
  init_config : ClockStyleConfig;
  initialSeconds : Z
}.

Record resizePayload := mkResizePayload {
  resize_width : Z;
  resize_height : Z;
  resize_dpr : Q
}.

Record setTimePayload := mkSetTimePayload { seconds : Z }.

Record adjustTimePayload := mkAdjustTimePayload { deltaSeconds : Z }.

(** [e.data]: a type tag and a payload.  The payload of a tag that has one
    is either the object its handler reads or missing ([None]: the
    [undefined] of a message posted without a payload, or [null]); [START]
    and [PAUSE] never look at it.  [Other t] is a message with the tag [t]
    and no payload, for any string [t]; when [t] is none of the seven
    [case] labels the payload is never looked at either. *)
Inductive message :=
| INIT (payload : option initPayload)
| RESIZE (payload : option resizePayload)
| UPDATE_CONFIG (payload : option ClockStyleConfig)
| START
| PAUSE
| SET_TIME (payload : option setTimePayload)
| ADJUST_TIME (payload : option adjustTimePayload)
| Other (type : string).


Definition typeOf (m : message) : string :=
  match m with
  | INIT _ => "INIT"
  | RESIZE _ => "RESIZE"
  | UPDATE_CONFIG _ => "UPDATE_CONFIG"
  | START => "START"
  | PAUSE => "PAUSE"
  | SET_TIME _ => "SET_TIME"
  | ADJUST_TIME _ => "ADJUST_TIME"
  | Other t => t
  end%string.

(** [switch (type)]: a tag that is one of the seven [case] labels selects
    that label's branch, any other tag selects none. *)
Definition switchOn (m : message) : message :=
  match m with
  | Other t =>
      if String.eqb t "INIT" then INIT None
      else if String.eqb t "RESIZE" then RESIZE None
      else if String.eqb t "UPDATE_CONFIG" then UPDATE_CONFIG None
      else if String.eqb t "START" then START
      else if String.eqb t "PAUSE" then PAUSE
      else if String.eqb t "SET_TIME" then SET_TIME None
      else if String.eqb t "ADJUST_TIME" then ADJUST_TIME None
      else Other t
  | _ => m
  end.

(** ** [paint] *)

(** The lookup table of the two-digit strings [00] to [59]. *)
Definition DIGITS : list string :=
  map (fun i => JS.padStart 2 "0" (JS.toString (Z.of_nat i))) (seq 0 60).

(** The three table lookups of [paint]. *)
Definition hoursIndex (displaySeconds : Z) : Z :=
  Z.rem (Z.abs displaySeconds / 3600) 60.
Definition minutesIndex (displaySeconds : Z) : Z :=
  Z.rem (Z.abs displaySeconds) 3600 / 60.
Definition secondsIndex (displaySeconds : Z) : Z :=
  Z.rem (Z.abs displaySeconds) 60.

(** Step 4 of [paint], the composition of the time string. *)
Definition timeText (displaySeconds : Z) : string :=
  let h := JS.index DIGITS (hoursIndex displaySeconds) in
  let m := JS.index DIGITS (minutesIndex displaySeconds) in
  let s := JS.index DIGITS (secondsIndex displaySeconds) in
  let prefix := if displaySeconds <? 0 then "-"%string else EmptyString in
  (prefix ++ JS.interpolate h ++ ":" ++ JS.interpolate m ++ ":" ++
   JS.interpolate s)%string.

Definition paint (displaySeconds : Z) : M unit :=
  emit (PaintCall displaySeconds) ;;;
  k <- gets (fun k => k) ;;
  let s := st k in
  if negb (ctx k) || (width s =? 0) || (height s =? 0) then ret tt
  else
    emit (Draw (ClearRect (width s) (height s))) ;;;
    cfg <- field (config s) (fun c => c) ;;
    emit (Draw (FillRect (backgroundColor cfg) (width s) (height s))) ;;;
    let fontSize :=
      Qmin (inject_Z (width s) / (13 # 2)) (inject_Z (height s) / (3 # 2)) in
    let absSeconds := Z.abs displaySeconds in
    emit (Draw (FillText (timeText displaySeconds) (textColor cfg) fontSize
                  (if glowEffect cfg then (20 * dpr s)%Q else 0%Q))) ;;;
    when (showDot cfg && (Z.rem absSeconds 2 =? 0))
      (emit (Draw (FillDot (fontSize / 12)
                     (if glowEffect cfg then (10 * dpr s)%Q else 0%Q)))).

(** ** [loop] *)

Definition loop (now : Z) : M unit :=
  s <- gets st ;;
  if negb (isRunning s) then ret tt
  else
    let elapsedMs := now - startTimeMs s in
    let totalMs := baseTimeMs s + elapsedMs in
    let currentSecond := totalMs / 1000 in
    when (negb (currentSecond =? lastRenderedSecond s))
      (modify (withState (setLastRenderedSecond currentSecond)) ;;;
       paint currentSecond) ;;;
    id <- requestAnimationFrame ;;
    setAnimationFrameId id.

(** ** [self.onmessage] *)

Definition onmessage (now : Z) (m : message) : M unit :=
  match switchOn m with
  | INIT payload =>
      p <- field payload (fun p => p) ;;
      modify (setCanvas (Some (init_canvas p)) (has2d (init_canvas p))) ;;;
      modify (withState (setConfig (Some (init_config p)))) ;;;
      modify (withState (setBaseTimeMs (initialSeconds p * 1000))) ;;;
      modify (withState (setLastRenderedSecond (initialSeconds p))) ;;;
      paint (initialSeconds p)
  | RESIZE payload =>
      p <- field payload (fun p => p) ;;
      modify (resizeBitmap (resize_width p) (resize_height p)) ;;;
      modify (withState
                (setGeometry (resize_width p) (resize_height p) (resize_dpr p))) ;;;
      s <- gets st ;;
      when (0 <=? lastRenderedSecond s) (paint (lastRenderedSecond s))
  | UPDATE_CONFIG payload =>
      modify (withState (setConfig payload)) ;;;
      s <- gets st ;;
      when (0 <=? lastRenderedSecond s) (paint (lastRenderedSecond s))
  | START =>
      s <- gets st ;;
      if isRunning s then ret tt
      else
        modify (withState (setIsRunning true)) ;;;
        modify (withState (setStartTimeMs now)) ;;;
        id <- requestAnimationFrame ;;
        setAnimationFrameId id
  | PAUSE =>
      s <- gets st ;;
      if negb (isRunning s) then ret tt
      else
        modify (withState (setIsRunning false)) ;;;
        id <- gets animationFrameId ;;
        match id with
        | Some i => cancelAnimationFrame i
        | None => ret tt
        end ;;;
        s <- gets st ;;
        modify (withState (setBaseTimeMs (baseTimeMs s + (now - startTimeMs s))))
  | SET_TIME payload =>
      p <- field payload (fun p => p) ;;
      modify (withState (setBaseTimeMs (seconds p * 1000))) ;;;
      s <- gets st ;;
      when (isRunning s) (modify (withState (setStartTimeMs now))) ;;;
      modify (withState (setLastRenderedSecond (seconds p))) ;;;
      paint (seconds p)
  | ADJUST_TIME payload =>
      p <- field payload (fun p => p) ;;
      s <- gets st ;;
      modify (withState (setBaseTimeMs (baseTimeMs s + deltaSeconds p * 1000))) ;;;
      s <- gets st ;;
      let currentTotalMs :=
        if isRunning s then baseTimeMs s + (now - startTimeMs s)
        else baseTimeMs s in
      let newSecond := currentTotalMs / 1000 in
      modify (withState (setLastRenderedSecond newSecond)) ;;;
      paint newSecond
  | Other _ => ret tt
  end.

(** ** Running the kernel *)

(** One callback of the host into the script.  An exception that leaves
    the callback is reported ([Uncaught]); the state keeps whatever was
    assigned before the throw. *)
Definition handle (m : M unit) (k : kernel) : kernel * list effect :=
  match m k with
  | (Returned _, k', fx) => (k', fx)
  | (Thrown, k', fx) => (k', fx ++ [Uncaught])
  end.

(** An animation frame: every callback requested before the frame runs
    once; what they request goes to the next frame. *)
Definition animationFrame (now : Z) (k : kernel) : kernel * list effect :=
  fold_left
    (fun acc (_ : nat) =>
       let '(k1, fx1) := acc in
       let '(k2, fx2) := handle (loop now) k1 in
       (k2, fx1 ++ fx2))
    (rafPending k)
    ({| canvas := canvas k; ctx := ctx k;
        animationFrameId := animationFrameId k;
        st := st k;
        rafNext := rafNext k; rafPending := [] |}, []).

Inductive event :=
| Message (now : Z) (m : message)
| AnimationFrame (now : Z).

Definition step (e : event) (k : kernel) : kernel * list effect :=
  match e with
  | Message now m => handle (onmessage now m) k
  | AnimationFrame now => animationFrame now k
  end.

Fixpoint run (es : list event) (k : kernel) : kernel * list effect :=
  match es with
  | [] => (k, [])
  | e :: es' =>
      let '(k1, fx1) := step e k in
      let '(k2, fx2) := run es' k1 in
      (k2, fx1 ++ fx2)
  end.

(** Successive invocations of [loop], one per reading of the clock. *)
Fixpoint loops (nows : list Z) (k : kernel) : kernel * list effect :=
  match nows with
  | [] => (k, [])
  | now :: nows' =>
      let '(k1, fx1) := handle (loop now) k in
      let '(k2, fx2) := loops nows' k1 in
      (k2, fx1 ++ fx2)
  end.

(** Whether [paint] gets to draw: it has a context, a surface that is not
    empty, and a configuration to read the colours from. *)
Definition canDraw (k : kernel) : bool :=
  ctx k && negb (width (st k) =? 0) && negb (height (st k) =? 0)
  && match config (st k) with Some _ => true | None => false end.

(** The calls of [paint] in a log, and what reached the canvas as text. *)
Definition paintCalls (fx : list effect) : list Z :=
  flat_map (fun e => match e with PaintCall s => [s] | _ => [] end) fx.

Definition paintedTexts (fx : list effect) : list string :=
  flat_map (fun e => match e with
                     | Draw (FillText t _ _ _) => [t]
                     | _ => []
                     end) fx.

End Kernel.

(* ------------------------------------------------------------------ *)
(** * The store of [useBroadcastMatchTimer] *)
(* ------------------------------------------------------------------ *)

Module Store.

(** ** Data *)

(** [TimerState], the snapshot handed to React. *)
Module Snapshot.

Record t := mk {
  displayTime : string;
  totalSeconds : Z;
  isRunning : bool
}.

End Snapshot.

(** The [Worker] object the hook creates from a blob URL. *)
Inductive Worker := WorkerOf (url : string).

(** [store.current].  Listeners are told apart by a number; the [Set]
    keeps them in insertion order, without duplicates.  A listener is an
    opaque callback: calling it is recorded as an effect, and it is taken
    not to call back into the store while it runs. *)
Record store := mkStore {
  baseDurationMs : Z;
  startTimeMs : Z;
  isRunning : bool;
  snapshot : Snapshot.t;
  worker : option Worker;
  listeners : list nat
}.

Inductive effect :=
| SnapshotReplaced (s : Snapshot.t)  (* [store.current.snapshot = newState] *)
| Notify (listener : nat)            (* [listener()] *)
| PostMessage (type : string)        (* [worker.postMessage({ type })] *)
| ConsoleError (message : string)
| Terminate
| RevokeObjectURL (url : string).

(** [useRef({...})] with the hook's argument. *)
Definition create (initialSeconds : Z) : store :=
  {| baseDurationMs := initialSeconds * 1000;
     startTimeMs := 0;
     isRunning := false;
     snapshot := {| Snapshot.displayTime := formatTime initialSeconds;
                    Snapshot.totalSeconds := initialSeconds;
                    Snapshot.isRunning := false |};
     worker := None;
     listeners := [] |}.

(** Invariant I1 of the specification, on the store's fields. *)
Definition totalMs (now : Z) (s : store) : Z :=
  if isRunning s
  then baseDurationMs s + (now - startTimeMs s)
  else baseDurationMs s.

(** ** Field updates *)

Definition setBaseDurationMs (v : Z) (s : store) : store :=
  {| baseDurationMs := v; startTimeMs := startTimeMs s;
     isRunning := isRunning s; snapshot := snapshot s;
     worker := worker s; listeners := listeners s |}.

Definition setStartTimeMs (v : Z) (s : store) : store :=
  {| baseDurationMs := baseDurationMs s; startTimeMs := v;
     isRunning := isRunning s; snapshot := snapshot s;
     worker := worker s; listeners := listeners s |}.

Definition setIsRunning (v : bool) (s : store) : store :=
  {| baseDurationMs := baseDurationMs s; startTimeMs := startTimeMs s;
     isRunning := v; snapshot := snapshot s;
     worker := worker s; listeners := listeners s |}.

Definition setSnapshot (v : Snapshot.t) (s : store) : store :=
  {| baseDurationMs := baseDurationMs s; startTimeMs := startTimeMs s;
     isRunning := isRunning s; snapshot := v;
     worker := worker s; listeners := listeners s |}.

Definition setWorker (v : option Worker) (s : store) : store :=
  {| baseDurationMs := baseDurationMs s; startTimeMs := startTimeMs s;
     isRunning := isRunning s; snapshot := snapshot s;
     worker := v; listeners := listeners s |}.

Definition setListeners (v : list nat) (s : store) : store :=
  {| baseDurationMs := baseDurationMs s; startTimeMs := startTimeMs s;
     isRunning := isRunning s; snapshot := snapshot s;
     worker := worker s; listeners := v |}.

(** ** Internal logic *)

(** [calculateState]; [now] is read only while running. *)
Definition calculateState (now : Z) (s : store) : Snapshot.t :=
  let currentTotalMs :=
    if isRunning s then baseDurationMs s + (now - startTimeMs s)
    else baseDurationMs s in
  let totalSeconds := Z.max 0 (currentTotalMs / 1000) in
  {| Snapshot.totalSeconds := totalSeconds;
     Snapshot.displayTime := formatTime totalSeconds;
     Snapshot.isRunning := isRunning s |}.

(** The condition of [emitChange]: [!==] on the seconds or on the flags. *)
Definition visiblyDiffers (newState oldState : Snapshot.t) : bool :=
  negb (Snapshot.totalSeconds newState =? Snapshot.totalSeconds oldState)
  || negb (Bool.eqb (Snapshot.isRunning newState) (Snapshot.isRunning oldState)).

Definition emitChange (now : Z) (s : store) : store * list effect :=
  let newState := calculateState now s in
  let oldState := snapshot s in
  if visiblyDiffers newState oldState
  then (setSnapshot newState s,
        SnapshotReplaced newState :: map Notify (listeners s))
  else (s, []).

(** ** External store integration *)

Definition subscribe (listener : nat) (s : store) : store :=
  if existsb (Nat.eqb listener) (listeners s) then s
  else setListeners (listeners s ++ [listener]) s.

Definition unsubscribe (listener : nat) (s : store) : store :=
  setListeners (filter (fun l => negb (Nat.eqb l listener)) (listeners s)) s.

Definition getSnapshot (s : store) : Snapshot.t := snapshot s.

(** ** Worker lifecycle *)

(** What the host does with the three calls inside the [try]. *)
Inductive host :=
| BlobThrows
| CreateObjectURLThrows
| WorkerThrows (url : string)
| WorkerConstructs (url : string).

(** The effect that creates the worker; the second component is the
    [workerUrl] the cleanup closes over. *)
Definition mount (h : host) (s : store) : store * option string * list effect :=
  match h with
  | WorkerConstructs url => (setWorker (Some (WorkerOf url)) s, Some url, [])
  | WorkerThrows url =>
      (s, Some url, [ConsoleError "Clock Worker Init Failed:"])
  | CreateObjectURLThrows | BlobThrows =>
      (s, None, [ConsoleError "Clock Worker Init Failed:"])
  end.

(** The cleanup.  [if (workerUrl)]: [null] and the empty string are
    falsy, every other string is revoked.  The worker reference is left in
    the store. *)
Definition unmount (workerUrl : option string) (s : store) : list effect :=
  (match worker s with Some _ => [Terminate] | None => [] end) ++
  (match workerUrl with
   | Some (String c url) => [RevokeObjectURL (String c url)]
   | Some EmptyString | None => []
   end).

(** [worker.onmessage]. *)
Definition onWorkerMessage (type : string) (now : Z) (s : store)
  : store * list effect :=
  if String.eqb type "TICK" then emitChange now s else (s, []).

(** [s.worker?.postMessage({ type })]. *)
Definition postMessage (type : string) (s : store) : list effect :=
  match worker s with
  | Some _ => [PostMessage type]
  | None => []
  end.

(** ** Public actions *)

(** [start]: [now] anchors the start time, [emitNow] is the reading
    [calculateState] takes inside [emitChange]. *)
Definition start (now emitNow : Z) (s : store) : store * list effect :=
  if isRunning s then (s, [])
  else
    let s1 := setStartTimeMs now (setIsRunning true s) in
    let fx1 := postMessage "START" s1 in
    let '(s2, fx2) := emitChange emitNow s1 in
    (s2, fx1 ++ fx2).

(** [pause]: the store is stopped when [emitChange] runs, so the clock is
    read once. *)
Definition pause (now : Z) (s : store) : store * list effect :=
  if negb (isRunning s) then (s, [])
  else
    let s1 := setBaseDurationMs (baseDurationMs s + (now - startTimeMs s)) s in
    let s2 := setIsRunning false s1 in
    let fx1 := postMessage "STOP" s2 in
    let '(s3, fx2) := emitChange now s2 in
    (s3, fx1 ++ fx2).

Definition setTime (seconds : Z) (now emitNow : Z) (s : store)
  : store * list effect :=
  let s1 := setBaseDurationMs (seconds * 1000) s in
  let s2 := if isRunning s1 then setStartTimeMs now s1 else s1 in
  emitChange emitNow s2.

(** ** Running the store *)

Inductive event :=
| Start (now emitNow : Z)
| Pause (now : Z)
| SetTime (seconds : Z) (now emitNow : Z)
| Tick (now : Z)
| Subscribe (listener : nat)
| Unsubscribe (listener : nat).

Definition step (e : event) (s : store) : store * list effect :=
  match e with
  | Start now emitNow => start now emitNow s
  | Pause now => pause now s
  | SetTime seconds now emitNow => setTime seconds now emitNow s
  | Tick now => onWorkerMessage "TICK" now s
  | Subscribe l => (subscribe l s, [])
  | Unsubscribe l => (unsubscribe l s, [])
  end.

Fixpoint run (es : list event) (s : store) : store * list effect :=
  match es with
  | [] => (s, [])
  | e :: es' =>
      let '(s1, fx1) := step e s in
      let '(s2, fx2) := run es' s1 in
      (s2, fx1 ++ fx2)
  end.

(** The snapshot and the store agree on the running flag. *)
Definition synced (s : store) : Prop :=
  Snapshot.isRunning (snapshot s) = isRunning s.

(** The replacements of the snapshot and the listener calls in a log. *)
Definition replacements (fx : list effect) : list Snapshot.t :=
  flat_map (fun e => match e with SnapshotReplaced s => [s] | _ => [] end) fx.

Definition notifications (fx : list effect) : list nat :=
  flat_map (fun e => match e with Notify l => [l] | _ => [] end) fx.

Definition posted (fx : list effect) : list string :=
  flat_map (fun e => match e with PostMessage t => [t] | _ => [] end) fx.

End Store.

(* ------------------------------------------------------------------ *)
(** * Sample states *)
(* ------------------------------------------------------------------ *)

(** The kernel after [INIT] with a canvas and zero seconds, and a
    [RESIZE] to 800 by 200 pixels. *)
Definition kernelReady : Kernel.kernel :=
  fst (Kernel.run
         [Kernel.Message 0
            (Kernel.INIT
               (Some {| Kernel.init_canvas :=
                          {| Kernel.bitmapWidth := 300;
                             Kernel.bitmapHeight := 150;
                             Kernel.has2d := true |};
                        Kernel.init_config := Kernel.DEFAULT_CONFIG;
                        Kernel.initialSeconds := 0 |}));
          Kernel.Message 1
            (Kernel.RESIZE
               (Some {| Kernel.resize_width := 800;
                        Kernel.resize_height := 200;
                        Kernel.resize_dpr := 1%Q |}))]
         Kernel.initial).

(** The same kernel, running since [t = 100]. *)
Definition kernelRunning : Kernel.kernel :=
  fst (Kernel.run [Kernel.Message 100 Kernel.START] kernelReady).

(** A store for zero seconds with its worker and one listener. *)
Definition storeReady : Store.store :=
  Store.subscribe 1
    (fst (fst (Store.mount (Store.WorkerConstructs "blob:timer")
                 (Store.create 0)))).

(** The same store, running since [t = 100]. *)
Definition storeRunning : Store.store :=
  fst (Store.start 100 100 storeReady).

(** Four animation frames, and four ticks, within the second that follows
    the first one. *)
Definition frameTimes : list Z := [1100; 1116; 1133; 1900].
Definition tickTimes : list Z := [1100; 1150; 1200; 2050].

(* ------------------------------------------------------------------ *)
(** * Vocabulary for runs of the kernel *)
(* ------------------------------------------------------------------ *)

Module KernelRun.

Import Kernel.

(** The kernel after [animationFrameId = requestAnimationFrame(loop)]. *)
Definition scheduled (k : kernel) : kernel :=
  {| canvas := canvas k; ctx := ctx k;
     animationFrameId := Some (rafNext k);
     st := st k;
     rafNext := S (rafNext k);
     rafPending := rafPending k ++ [rafNext k] |}.

(** The kernel after [cancelAnimationFrame(id)]. *)
Definition cancelled (id : nat) (k : kernel) : kernel :=
  {| canvas := canvas k; ctx := ctx k;
     animationFrameId := animationFrameId k;
     st := st k;
     rafNext := rafNext k;
     rafPending := filter (fun j => negb (Nat.eqb j id)) (rafPending k) |}.

(** The kernel at the start of an animation frame: the callbacks that were
    waiting are taken off the queue. *)
Definition dequeued (k : kernel) : kernel :=
  {| canvas := canvas k; ctx := ctx k;
     animationFrameId := animationFrameId k;
     st := st k;
     rafNext := rafNext k; rafPending := [] |}.

(** The whole second [loop] computes at [now]. *)
Definition secondAt (now : Z) (k : kernel) : Z :=
  (baseTimeMs (st k) + (now - startTimeMs (st k))) / 1000.

(** A message whose handler finds the payload it reads. *)
Definition hasPayload (m : message) : bool :=
  match switchOn m with
  | INIT None | RESIZE None | UPDATE_CONFIG None
  | SET_TIME None | ADJUST_TIME None => false
  | _ => true
  end.

Definition wellFormed (e : event) : bool :=
  match e with
  | Message _ m => hasPayload m
  | AnimationFrame _ => true
  end.

(** A message that hands over a canvas. *)
Definition carriesCanvas (e : event) : bool :=
  match e with
  | Message _ m =>
      match switchOn m with
      | INIT (Some _) => true
      | _ => false
      end
  | AnimationFrame _ => false
  end.

(** The animation frame queue holds at most the one callback the script
    remembers, and only while the clock runs. *)
Definition frameQueueOk (k : kernel) : Prop :=
  match rafPending k with
  | [] => True
  | [id] => animationFrameId k = Some id /\ isRunning (st k) = true
  | _ => False
  end.

(** A clock that runs with a configuration has its next frame requested. *)
Definition loopAlive (k : kernel) : Prop :=
  config (st k) <> None
  /\ (isRunning (st k) = true -> exists id, rafPending k = [id]).

(** What [handle] makes of the outcome of a callback. *)
Definition settle (out : result unit * kernel * list effect)
  : kernel * list effect :=
  match out with
  | (Returned _, k', fx) => (k', fx)
  | (Thrown, k', fx) => (k', fx ++ [Uncaught])
  end.

(** The effects that reach the canvas. *)
Definition isDraw (e : effect) : bool :=
  match e with
  | Draw _ => true
  | _ => false
  end.

(** How often the alive indicator was drawn. *)
Definition dots (fx : list effect) : nat :=
  List.length
    (filter (fun e => match e with Draw (FillDot _ _) => true | _ => false end)
       fx).

Definition uncaught (fx : list effect) : nat :=
  List.length (filter (fun e => match e with Uncaught => true | _ => false end) fx).

End KernelRun.

(* ------------------------------------------------------------------ *)
(** * Vocabulary for runs of the store *)
(* ------------------------------------------------------------------ *)

Module StoreRun.

Import Store.

(** The store of a hook whose effect has created the worker. *)
Definition mounted (initialSeconds : Z) (url : string) : store :=
  fst (fst (mount (WorkerConstructs url) (create initialSeconds))).

(** An event that adds the listener [l]. *)
Definition subscribes (l : nat) (e : event) : bool :=
  match e with
  | Subscribe l' => Nat.eqb l' l
  | _ => false
  end.

(** A list of message types that takes turns between START and STOP,
    beginning with the one that changes [running]. *)
Fixpoint alternating (running : bool) (types : list string) : bool :=
  match types with
  | [] => true
  | t :: ts =>
      if running then String.eqb t "STOP" && alternating false ts
      else String.eqb t "START" && alternating true ts
  end.

End StoreRun.

(* ------------------------------------------------------------------ *)
(** * The tick worker: [TIMER_WORKER_SCRIPT] *)
(* ------------------------------------------------------------------ *)

Module TimerWorker.

Definition TICK_RATE_MS : Z := 50.

(** The script's [intervalId] and the host's table of intervals.
    [setInterval] returns a handle the host has not handed out before;
    handles are integers greater than zero. *)
Record worker := mkWorker {
  intervalId : option nat;   (* [null] or a handle *)
  active : list nat;         (* the intervals that are set *)
  lastHandle : nat           (* the last handle handed out *)
}.

(** The script as loaded. *)
Definition initial : worker :=
  {| intervalId := None; active := []; lastHandle := 0 |}.

Inductive effect :=
| PostMessage (type : string).   (* [self.postMessage({ type })] *)

(** [if (intervalId)]: [null] and [0] are falsy. *)
Definition truthy (id : option nat) : bool :=
  match id with
  | Some (S _) => true
  | _ => false
  end.

Definition setIntervalId (v : option nat) (w : worker) : worker :=
  {| intervalId := v; active := active w; lastHandle := lastHandle w |}.

Definition clearInterval (id : option nat) (w : worker) : worker :=
  match id with
  | Some i =>
      {| intervalId := intervalId w;
         active := filter (fun j => negb (Nat.eqb j i)) (active w);
         lastHandle := lastHandle w |}
  | None => w
  end.

Definition setInterval (w : worker) : nat * worker :=
  let id := S (lastHandle w) in
  (id, {| intervalId := intervalId w;
          active := active w ++ [id];
          lastHandle := id |}).

(** [self.onmessage], on the [type] of the message's data. *)
Definition onmessage (type : string) (w : worker) : worker :=
  if String.eqb type "START" then
    let w1 :=
      if truthy (intervalId w) then clearInterval (intervalId w) w else w in
    let '(id, w2) := setInterval w1 in
    setIntervalId (Some id) w2
  else if String.eqb type "STOP" then
    let w1 :=
      if truthy (intervalId w) then clearInterval (intervalId w) w else w in
    setIntervalId None w1
  else w.

Definition run (types : list string) (w : worker) : worker :=
  fold_left (fun w' type => onmessage type w') types w.

(** [TICK_RATE_MS] go by: every interval that is set calls back once. *)
Definition elapse (w : worker) : list effect :=
  map (fun _ => PostMessage "TICK") (active w).

(** The interval table holds the interval the script remembers and no
    other, and the handle it remembers is one the host handed out. *)
Definition tidy (w : worker) : Prop :=
  match intervalId w with
  | Some id => active w = [id] /\ (1 <= id <= lastHandle w)%nat
  | None => active w = []
  end.

(** Whether the last START or STOP of [types] is a START; [before] when
    there is neither. *)
Definition started (before : bool) (types : list string) : bool :=
  fold_left
    (fun b type =>
       if String.eqb type "START" then true
       else if String.eqb type "STOP" then false
       else b)
    types before.

End TimerWorker.

(* ------------------------------------------------------------------ *)
(** * The main-thread clock: [NaiveClock] *)
(* ------------------------------------------------------------------ *)

(** The methods that the controller of [MissionClock], the handle of
    [NaiveClock] and the [actions] of [App] have in common. *)
Inductive method :=
| start
| pause
| setTime (s : Z)
| adjustTime (delta : Z).

Module NaiveClock.

Definition formatTime (totalSeconds : Z) : string :=
  let absSeconds := Z.abs totalSeconds in
  let h := absSeconds / 3600 in
  let m := Z.rem absSeconds 3600 / 60 in
  let s := Z.rem absSeconds 60 in
  let prefix := if totalSeconds <? 0 then "-"%string else EmptyString in
  (prefix ++ JS.padStart 2 "0" (JS.toString h) ++ ":" ++
   JS.padStart 2 "0" (JS.toString m) ++ ":" ++
   JS.padStart 2 "0" (JS.toString s))%string.

(** [state.current]. *)
Record ref := mkRef {
  startTime : Z;
  baseTime : Z
}.

(** What a method asks React for. *)
Inductive request :=
| SetIsRunning (v : bool)
| SetDisplayTime (text : string).

(** The handle.  Its methods close over the [isRunning] of the render
    that made them; [now] is the reading of [Date.now()]. *)
Definition handle (isRunning : bool) (now : Z) (c : method) (r : ref)
  : ref * list request :=
  match c with
  | start =>
      if isRunning then (r, [])
      else ({| startTime := now; baseTime := baseTime r |},
            [SetIsRunning true])
  | pause =>
      if negb isRunning then (r, [])
      else ({| startTime := startTime r;
               baseTime := baseTime r + (now - startTime r) |},
            [SetIsRunning false])
  | setTime seconds =>
      let r1 := {| startTime := startTime r; baseTime := seconds * 1000 |} in
      let r2 :=
        if isRunning then {| startTime := now; baseTime := baseTime r1 |}
        else r1 in
      (r2, [SetDisplayTime (formatTime seconds)])
  | adjustTime delta =>
      let r1 := {| startTime := startTime r;
                   baseTime := baseTime r + delta * 1000 |} in
      let diff := if isRunning then now - startTime r1 else 0 in
      let totalMs := baseTime r1 + diff in
      let totalSec := totalMs / 1000 in
      (r1, [SetDisplayTime (formatTime totalSec)])
  end.

(** The callback of the interval that is set while the clock runs. *)
Definition tick (now : Z) (r : ref) : list request :=
  let diff := now - startTime r in
  let totalMs := baseTime r + diff in
  let totalSec := totalMs / 1000 in
  [SetDisplayTime (formatTime totalSec)].

Definition displayed (reqs : list request) : list string :=
  flat_map (fun q => match q with SetDisplayTime t => [t] | _ => [] end) reqs.

Definition flags (reqs : list request) : list bool :=
  flat_map (fun q => match q with SetIsRunning v => [v] | _ => [] end) reqs.

End NaiveClock.

(* ------------------------------------------------------------------ *)
(** * The component around the kernel: [MissionClock] *)
(* ------------------------------------------------------------------ *)

Module MissionClock.

(** [Partial<ClockStyleConfig>]: a key is absent or has a value. *)
Record PartialConfig := mkPartialConfig {
  backgroundColor : option string;
  textColor : option string;
  fontFamily : option string;
  glowEffect : option bool;
  showDot : option bool
}.

Definition DEFAULT_CONFIG : Kernel.ClockStyleConfig :=
  {| Kernel.backgroundColor := "#0f172a";
     Kernel.textColor := "#22c55e";
     Kernel.fontFamily := "'Courier New', monospace";
     Kernel.glowEffect := true;
     Kernel.showDot := true |}.

Definition orDefault {A : Type} (given : option A) (default : A) : A :=
  match given with
  | Some v => v
  | None => default
  end.

(** [{ ...DEFAULT_CONFIG, ...config }]. *)
Definition activeConfig (config : PartialConfig) : Kernel.ClockStyleConfig :=
  {| Kernel.backgroundColor :=
       orDefault (backgroundColor config)
         (Kernel.backgroundColor DEFAULT_CONFIG);
     Kernel.textColor :=
       orDefault (textColor config) (Kernel.textColor DEFAULT_CONFIG);
     Kernel.fontFamily :=
       orDefault (fontFamily config) (Kernel.fontFamily DEFAULT_CONFIG);
     Kernel.glowEffect :=
       orDefault (glowEffect config) (Kernel.glowEffect DEFAULT_CONFIG);
     Kernel.showDot :=
       orDefault (showDot config) (Kernel.showDot DEFAULT_CONFIG) |}.

(** [Math.round]. *)
Definition round (x : Q) : Z := Qfloor (x + (1 # 2)).

(** What happens to a mounted component. *)
Inductive event :=
| Resized (width height devicePixelRatio : Q)   (* one entry of the observer *)
| ConfigChanged (config : PartialConfig)        (* a render with a new [config] *)
| Called (c : method).                          (* a method of the controller *)

(** The two messages of the mount: INIT from the first effect, then
    UPDATE_CONFIG from the second, which finds the worker in place. *)
Definition mountMessages (canvas : Kernel.offscreen) (config : PartialConfig)
    (initialSeconds : Z) : list Kernel.message :=
  [Kernel.INIT
     (Some {| Kernel.init_canvas := canvas;
              Kernel.init_config := activeConfig config;
              Kernel.initialSeconds := initialSeconds |});
   Kernel.UPDATE_CONFIG (Some (activeConfig config))].

(** The message each event posts. *)
Definition post (e : event) : Kernel.message :=
  match e with
  | Resized width height devicePixelRatio =>
      let dpr :=
        if Qeq_bool devicePixelRatio 0 then 1%Q else devicePixelRatio in
      Kernel.RESIZE
        (Some {| Kernel.resize_width := round (width * dpr);
                 Kernel.resize_height := round (height * dpr);
                 Kernel.resize_dpr := dpr |})
  | ConfigChanged config => Kernel.UPDATE_CONFIG (Some (activeConfig config))
  | Called start => Kernel.START
  | Called pause => Kernel.PAUSE
  | Called (setTime s) => Kernel.SET_TIME (Some {| Kernel.seconds := s |})
  | Called (adjustTime delta) =>
      Kernel.ADJUST_TIME (Some {| Kernel.deltaSeconds := delta |})
  end.

(** What reaches the kernel: a posted message, or an animation frame of
    the worker, each at its time. *)
Inductive arrival :=
| Posted (now : Z) (e : event)
| Frame (now : Z).

Definition deliver (a : arrival) : Kernel.event :=
  match a with
  | Posted now e => Kernel.Message now (post e)
  | Frame now => Kernel.AnimationFrame now
  end.

(** The kernel's events over the life of a component. *)
Definition session (canvas : Kernel.offscreen) (config : PartialConfig)
    (initialSeconds : Z) (mountedAt : Z) (arrivals : list arrival)
  : list Kernel.event :=
  map (Kernel.Message mountedAt) (mountMessages canvas config initialSeconds)
  ++ map deliver arrivals.

End MissionClock.

(* ------------------------------------------------------------------ *)
(** * More sample inputs *)
(* ------------------------------------------------------------------ *)

(** Animation frames that span a few seconds, some of them twice. *)
Definition framesOverSeconds : list Z := [600; 1116; 1133; 2116; 2500; 3300].

(** Messages for a kernel that was never initialised. *)
Definition eventsWithoutInit : list Kernel.event :=
  [Kernel.Message 1
     (Kernel.RESIZE
        (Some {| Kernel.resize_width := 800;
                 Kernel.resize_height := 200;
                 Kernel.resize_dpr := 1%Q |}));
   Kernel.Message 100 Kernel.START;
   Kernel.AnimationFrame 1100;
   Kernel.Message 1200
     (Kernel.SET_TIME (Some {| Kernel.seconds := 90 |}));
   Kernel.AnimationFrame 2300].

(** A session of well-formed messages and frames. *)
Definition eventsWellFormed : list Kernel.event :=
  [Kernel.Message 100 Kernel.START;
   Kernel.AnimationFrame 116;
   Kernel.AnimationFrame 1116;
   Kernel.Message 1200
     (Kernel.ADJUST_TIME (Some {| Kernel.deltaSeconds := -10 |}));
   Kernel.Message 1300 (Kernel.UPDATE_CONFIG (Some Kernel.DEFAULT_CONFIG));
   Kernel.AnimationFrame 2116;
   Kernel.Message 2500 Kernel.PAUSE;
   Kernel.AnimationFrame 2516;
   Kernel.Message 3000 Kernel.START].

(** The running sample kernel after an UPDATE_CONFIG message without
    payload. *)
Definition kernelWithoutConfig : Kernel.kernel :=
  fst (Kernel.run [Kernel.Message 200 (Kernel.UPDATE_CONFIG None)]
         kernelRunning).

(** A session of the store in which listener 1 is never added. *)
Definition eventsWithoutListener1 : list Store.event :=
  [Store.Start 100 100;
   Store.Tick 1100;
   Store.Subscribe 2;
   Store.SetTime 90 1200 1200;
   Store.Tick 2250;
   Store.Pause 2300].

(* ------------------------------------------------------------------ *)
(** * Facts about the JavaScript fragment *)
(* ------------------------------------------------------------------ *)

Section JSFacts.

Import JS.

Lemma length_append (s1 s2 : string) :
  String.length (s1 ++ s2) = (String.length s1 + String.length s2)%nat.
Proof.
  induction s1 as [|c s1 IH]; simpl; [reflexivity|].
  now rewrite IH.
Qed.

Lemma length_repeatChar (k : nat) (c : ascii) :
  String.length (repeatChar k c) = k.
Proof. induction k; simpl; congruence. Qed.

Lemma length_padStart (target : nat) (c : ascii) (s : string) :
  String.length (padStart target c s) = Nat.max target (String.length s).
Proof.
  unfold padStart. rewrite length_append, length_repeatChar. lia.
Qed.

(** A string that is long enough is returned as it is. *)
Lemma padStart_long (target : nat) (c : ascii) (s : string) :
  (target <= String.length s)%nat -> padStart target c s = s.
Proof.
  intros H. unfold padStart.
  replace (target - String.length s)%nat with 0%nat by lia.
  reflexivity.
Qed.

Lemma digitsFrom_longer (fuel : nat) :
  forall n acc, (String.length acc < String.length (digitsFrom fuel n acc))%nat.
Proof.
  induction fuel as [|fuel IH]; intros n acc; simpl.
  - lia.
  - destruct (n / 10 =? 0); simpl; [lia|].
    specialize (IH (n / 10) (String (digitChar (n mod 10)) acc)).
    simpl in IH. lia.
Qed.

Lemma digitsOf_below_10 (n : Z) :
  0 <= n < 10 -> digitsOf n = String (digitChar n) EmptyString.
Proof.
  intros H. unfold digitsOf.
  assert (Hq : n / 10 = 0) by (apply Z.div_small; lia).
  assert (Hm : n mod 10 = n) by (apply Z.mod_small; lia).
  destruct (Z.to_nat (Z.log2 n)); simpl; rewrite ?Hq, Hm; reflexivity.
Qed.

Lemma digitsOf_below_100 (n : Z) :
  10 <= n < 100 ->
  digitsOf n =
  String (digitChar (n / 10)) (String (digitChar (n mod 10)) EmptyString).
Proof.
  intros H. unfold digitsOf.
  assert (Hlog : 3 <= Z.log2 n).
  { change 3 with (Z.log2 8). apply Z.log2_le_mono. lia. }
  destruct (Z.to_nat (Z.log2 n)) as [|fuel] eqn:E; [lia|].
  assert (Hq : 1 <= n / 10 < 10).
  { split; [apply Z.div_le_lower_bound | apply Z.div_lt_upper_bound]; lia. }
  cbn [digitsFrom].
  destruct (Z.eqb_spec (n / 10) 0) as [E0|_]; [lia|].
  assert (Hq2 : n / 10 / 10 = 0) by (apply Z.div_small; lia).
  assert (Hm2 : (n / 10) mod 10 = n / 10) by (apply Z.mod_small; lia).
  destruct fuel; cbn [digitsFrom]; rewrite ?Hq2, Hm2; reflexivity.
Qed.

Lemma digitsOf_from_100 (n : Z) :
  100 <= n -> (3 <= String.length (digitsOf n))%nat.
Proof.
  intros H. unfold digitsOf.
  assert (Hlog : 6 <= Z.log2 n).
  { change 6 with (Z.log2 64). apply Z.log2_le_mono. lia. }
  destruct (Z.to_nat (Z.log2 n)) as [|[|fuel]] eqn:E; [lia|lia|].
  assert (Hq : 10 <= n / 10) by (apply Z.div_le_lower_bound; lia).
  assert (Hq2 : 1 <= n / 10 / 10) by (apply Z.div_le_lower_bound; lia).
  cbn [digitsFrom].
  destruct (Z.eqb_spec (n / 10) 0) as [E0|_]; [lia|].
  destruct (Z.eqb_spec (n / 10 / 10) 0) as [E0|_]; [lia|].
  match goal with
  | |- (_ <= String.length (digitsFrom ?f ?m ?acc))%nat =>
      pose proof (digitsFrom_longer f m acc) as L; simpl in L; lia
  end.
Qed.

(** The width of a zero-padded non-negative number. *)
Lemma pad2_width_below_100 (n : Z) :
  0 <= n < 100 -> String.length (padStart 2 "0" (toString n)) = 2%nat.
Proof.
  intros H. rewrite length_padStart. unfold toString.
  destruct (Z.ltb_spec n 0) as [?|_]; [lia|].
  destruct (Z.lt_ge_cases n 10).
  - rewrite digitsOf_below_10 by lia. reflexivity.
  - rewrite digitsOf_below_100 by lia. reflexivity.
Qed.

Lemma pad2_width_from_100 (n : Z) :
  100 <= n ->
  (3 <= String.length (padStart 2 "0" (toString n)))%nat /\
  padStart 2 "0" (toString n) = toString n.
Proof.
  intros H. unfold toString.
  destruct (Z.ltb_spec n 0) as [?|_]; [lia|].
  pose proof (digitsOf_from_100 n H) as L.
  rewrite padStart_long by lia. split; [exact L | reflexivity].
Qed.

End JSFacts.

(* ------------------------------------------------------------------ *)
(** * [toString] prints the number it is given *)
(* ------------------------------------------------------------------ *)

(** Settles a goal about a digit [d], known to lie in [0..9], by running
    it on each of the ten digits. *)
Ltac by_digit d :=
  let k := fresh "k" in
  let E := fresh "E" in
  remember (Z.to_nat d) as k eqn:E;
  assert (d = Z.of_nat k) by lia; subst d; clear E;
  do 10 (destruct k as [|k]; [intros; (reflexivity || assumption)|]);
  exfalso; lia.

Section ToStringSound.

Import JS.

Lemma digitValue_digitChar (d : Z) : 0 <= d < 10 -> digitValue (digitChar d) = d.
Proof.
  intros H. by_digit d.
Qed.

(** [digitsFrom] puts in front of [acc] a digit string whose value is [n],
    as soon as the fuel covers the size of [n]. *)
Lemma digitsFrom_value (fuel : nat) :
  forall n acc a,
    0 <= n < 2 ^ (Z.of_nat fuel + 1) ->
    valueFrom a (digitsFrom fuel n acc) =
    valueFrom (a * 10 ^ Z.of_nat
                 (String.length (digitsFrom fuel n acc) - String.length acc)
               + n) acc.
Proof.
  induction fuel as [|fuel IH]; intros n acc a H.
  - change (2 ^ (Z.of_nat 0 + 1)) with 2 in H.
    cbn [digitsFrom]. cbn [String.length valueFrom].
    replace (S (String.length acc) - String.length acc)%nat with 1%nat by lia.
    rewrite Z.mod_small by lia.
    rewrite digitValue_digitChar by lia.
    f_equal. change (10 ^ Z.of_nat 1) with 10. lia.
  - cbn [digitsFrom].
    destruct (Z.eqb_spec (n / 10) 0) as [E|E].
    + cbn [String.length valueFrom].
      replace (S (String.length acc) - String.length acc)%nat with 1%nat by lia.
      assert (n < 10).
      { destruct (Z.lt_ge_cases n 10) as [?|G]; [assumption|].
        assert (1 <= n / 10) by (apply Z.div_le_lower_bound; lia). lia. }
      rewrite Z.mod_small by lia.
      rewrite digitValue_digitChar by lia.
      f_equal. change (10 ^ Z.of_nat 1) with 10. lia.
    + set (acc' := String (digitChar (n mod 10)) acc).
      assert (Hn : 0 <= n / 10 < 2 ^ (Z.of_nat fuel + 1)).
      { split; [apply Z.div_pos; lia|].
        apply Z.div_lt_upper_bound; [lia|].
        replace (Z.of_nat (S fuel) + 1) with (Z.succ (Z.of_nat fuel + 1)) in H by lia.
        rewrite Z.pow_succ_r in H by lia. lia. }
      rewrite (IH (n / 10) acc' a Hn).
      pose proof (digitsFrom_longer fuel (n / 10) acc') as L.
      subst acc'. cbn [String.length valueFrom] in *.
      set (len := String.length
                    (digitsFrom fuel (n / 10) (String (digitChar (n mod 10)) acc))) in *.
      replace (len - String.length acc)%nat
        with (S (len - S (String.length acc)))%nat by lia.
      rewrite Nat2Z.inj_succ, Z.pow_succ_r by lia.
      rewrite digitValue_digitChar by (apply Z.mod_pos_bound; lia).
      f_equal.
      pose proof (Z.div_mod n 10 ltac:(lia)) as D. lia.
Qed.

Lemma digitsOf_value (n : Z) : 0 <= n -> valueFrom 0 (digitsOf n) = n.
Proof.
  intros H. unfold digitsOf.
  rewrite digitsFrom_value.
  - reflexivity.
  - rewrite Z2Nat.id by apply Z.log2_nonneg.
    destruct (Z.eq_dec n 0) as [->|Hn]; [cbn; lia|].
    pose proof (Z.log2_spec n ltac:(lia)) as Hlog.
    replace (Z.log2 n + 1) with (Z.succ (Z.log2 n)) by lia. lia.
Qed.

(** The first character of a digit string is never the sign. *)
Lemma digitsFrom_head (fuel : nat) :
  forall n acc, 0 <= n ->
    exists d s, 0 <= d < 10 /\ digitsFrom fuel n acc = String (digitChar d) s.
Proof.
  induction fuel as [|fuel IH]; intros n acc H; cbn [digitsFrom].
  - exists (n mod 10), acc. split; [apply Z.mod_pos_bound; lia | reflexivity].
  - destruct (n / 10 =? 0).
    + exists (n mod 10), acc. split; [apply Z.mod_pos_bound; lia | reflexivity].
    + apply IH. apply Z.div_pos; lia.
Qed.

Lemma valueOf_digitsOf (n : Z) : 0 <= n -> valueOf (digitsOf n) = n.
Proof.
  intros H.
  destruct (digitsFrom_head (Z.to_nat (Z.log2 n)) n EmptyString H)
    as (d & s & Hd & E).
  pose proof (digitsOf_value n H) as V. unfold digitsOf in *.
  rewrite E in *. unfold valueOf.
  revert V. by_digit d.
Qed.

(** Reading back what [toString] prints gives the number. *)
Lemma valueOf_toString (n : Z) : valueOf (toString n) = n.
Proof.
  unfold toString. destruct (Z.ltb_spec n 0) as [Hneg|Hpos].
  - unfold valueOf. rewrite digitsOf_value by lia. lia.
  - apply valueOf_digitsOf. assumption.
Qed.

End ToStringSound.

(* ------------------------------------------------------------------ *)
(** * The kernel's lookup table and time string *)
(* ------------------------------------------------------------------ *)

(** Unfolding of the handler monad, and the case analysis [paint] makes. *)
Ltac kernel_unfold :=
  cbv beta iota zeta delta
    [Kernel.loop Kernel.onmessage Kernel.switchOn Kernel.handle
     Kernel.bind Kernel.emit Kernel.gets Kernel.ret Kernel.field
     Kernel.throw Kernel.when Kernel.modify
     Kernel.requestAnimationFrame Kernel.cancelAnimationFrame
     Kernel.setAnimationFrameId fst snd];
  cbn [Kernel.canvas Kernel.ctx Kernel.animationFrameId Kernel.st
       Kernel.rafNext Kernel.rafPending
       Kernel.baseTimeMs Kernel.startTimeMs Kernel.isRunning
       Kernel.lastRenderedSecond Kernel.width Kernel.height Kernel.dpr
       Kernel.config
       Kernel.withState Kernel.setBaseTimeMs Kernel.setStartTimeMs
       Kernel.setIsRunning Kernel.setLastRenderedSecond Kernel.setGeometry
       Kernel.setConfig Kernel.setCanvas].

Ltac paint_cases k displaySeconds :=
  destruct (Kernel.ctx k); cbn [negb orb andb]; [|reflexivity];
  destruct (Kernel.width (Kernel.st k) =? 0); cbn [negb orb andb];
    [reflexivity|];
  destruct (Kernel.height (Kernel.st k) =? 0); cbn [negb orb andb];
    [reflexivity|];
  destruct (Kernel.config (Kernel.st k)) as [cfg|]; [|reflexivity];
  destruct (Kernel.showDot cfg && (Z.rem (Z.abs displaySeconds) 2 =? 0));
    reflexivity.

Section KernelText.

Import JS.

Lemma DIGITS_length : List.length Kernel.DIGITS = 60%nat.
Proof. reflexivity. Qed.

(** Entry [i] of the table is [i] printed on two digits. *)
Lemma DIGITS_index (i : Z) :
  0 <= i < 60 ->
  index Kernel.DIGITS i = Some (padStart 2 "0" (toString i)).
Proof.
  intros H. unfold index, Kernel.DIGITS.
  destruct (Z.ltb_spec i 0) as [?|_]; [lia|].
  rewrite nth_error_map.
  rewrite (nth_error_nth' _ 0%nat) by (rewrite length_seq; lia).
  rewrite seq_nth by lia. cbn [option_map Nat.add].
  now rewrite Z2Nat.id by lia.
Qed.

(** Outside [0..59] there is no entry. *)
Lemma DIGITS_index_outside (i : Z) :
  i < 0 \/ 60 <= i -> index Kernel.DIGITS i = None.
Proof.
  intros H. unfold index.
  destruct (Z.ltb_spec i 0) as [?|?]; [reflexivity|].
  apply nth_error_None. rewrite DIGITS_length. lia.
Qed.

Lemma hoursIndex_spec (s : Z) :
  Kernel.hoursIndex s = (Z.abs s / 3600) mod 60 /\
  0 <= Kernel.hoursIndex s < 60.
Proof.
  unfold Kernel.hoursIndex.
  assert (0 <= Z.abs s / 3600) by (apply Z.div_pos; lia).
  rewrite Z.rem_mod_nonneg by lia.
  split; [reflexivity | apply Z.mod_pos_bound; lia].
Qed.

Lemma minutesIndex_spec (s : Z) :
  Kernel.minutesIndex s = (Z.abs s mod 3600) / 60 /\
  0 <= Kernel.minutesIndex s < 60.
Proof.
  unfold Kernel.minutesIndex.
  rewrite Z.rem_mod_nonneg by lia.
  pose proof (Z.mod_pos_bound (Z.abs s) 3600 ltac:(lia)).
  split; [reflexivity|].
  split; [apply Z.div_pos; lia | apply Z.div_lt_upper_bound; lia].
Qed.

Lemma secondsIndex_spec (s : Z) :
  Kernel.secondsIndex s = Z.abs s mod 60 /\
  0 <= Kernel.secondsIndex s < 60.
Proof.
  unfold Kernel.secondsIndex.
  rewrite Z.rem_mod_nonneg by lia.
  split; [reflexivity | apply Z.mod_pos_bound; lia].
Qed.

(** What [paint] sends to the canvas as text: the composed time string
    when it gets past its safety check and has a configuration, nothing
    otherwise. *)
Lemma paint_texts (displaySeconds : Z) (k : Kernel.kernel) :
  Kernel.paintedTexts (snd (Kernel.paint displaySeconds k)) =
  if Kernel.ctx k
     && negb (Kernel.width (Kernel.st k) =? 0)
     && negb (Kernel.height (Kernel.st k) =? 0)
  then match Kernel.config (Kernel.st k) with
       | Some _ => [Kernel.timeText displaySeconds]
       | None => []
       end
  else [].
Proof.
  unfold Kernel.paint. kernel_unfold.
  paint_cases k displaySeconds.
Qed.

(** [paint] never touches the state. *)
Lemma paint_state (displaySeconds : Z) (k : Kernel.kernel) :
  snd (fst (Kernel.paint displaySeconds k)) = k.
Proof.
  unfold Kernel.paint. kernel_unfold.
  paint_cases k displaySeconds.
Qed.

(** [paint] is entered exactly once per call. *)
Lemma paint_calls (displaySeconds : Z) (k : Kernel.kernel) :
  Kernel.paintCalls (snd (Kernel.paint displaySeconds k)) = [displaySeconds].
Proof.
  unfold Kernel.paint. kernel_unfold.
  paint_cases k displaySeconds.
Qed.

(** [paint] throws exactly when it gets past the safety check without a
    configuration. *)
Lemma paint_result (displaySeconds : Z) (k : Kernel.kernel) :
  fst (fst (Kernel.paint displaySeconds k)) =
  if Kernel.ctx k
     && negb (Kernel.width (Kernel.st k) =? 0)
     && negb (Kernel.height (Kernel.st k) =? 0)
  then match Kernel.config (Kernel.st k) with
       | Some _ => Kernel.Returned tt
       | None => Kernel.Thrown
       end
  else Kernel.Returned tt.
Proof.
  unfold Kernel.paint. kernel_unfold.
  paint_cases k displaySeconds.
Qed.

(** A zero-padded non-negative number still reads as that number. *)
Lemma valueOf_pad2 (n : Z) :
  0 <= n -> valueOf (padStart 2 "0" (toString n)) = n.
Proof.
  intros H. destruct (Z.lt_ge_cases n 10) as [L|G].
  - by_digit n.
  - rewrite padStart_long; [apply valueOf_toString|].
    unfold toString. destruct (Z.ltb_spec n 0) as [?|_]; [lia|].
    destruct (Z.lt_ge_cases n 100).
    + rewrite digitsOf_below_100 by lia. simpl. lia.
    + pose proof (digitsOf_from_100 n ltac:(lia)). lia.
Qed.

End KernelText.

(* ------------------------------------------------------------------ *)
(** * The store's display string *)
(* ------------------------------------------------------------------ *)

(** The hook's own test: [setTime(120)] displays [00:02:00]. *)
Example formatTime_120 : formatTime 120 = "00:02:00"%string.
Proof. reflexivity. Qed.

Example formatTime_86399 : formatTime 86399 = "23:59:59"%string.
Proof. reflexivity. Qed.

Lemma formatTime_fields (t : Z) :
  formatTime t =
  (formatTime_hours t ++ ":" ++ formatTime_minutes t ++ ":" ++
   formatTime_seconds t)%string.
Proof. reflexivity. Qed.

(* ------------------------------------------------------------------ *)
(** * How the kernel's handlers act on the clock *)
(* ------------------------------------------------------------------ *)

Section KernelClock.

Import Kernel.

(** Everything [paint] does, in one equation. *)
Lemma paint_run (displaySeconds : Z) (k : kernel) :
  exists r fx,
    paint displaySeconds k = (r, k, fx)
    /\ paintCalls fx = [displaySeconds]
    /\ paintedTexts fx =
       (if canDraw k then [timeText displaySeconds] else []).
Proof.
  destruct (paint displaySeconds k) as [[r k'] fx] eqn:P.
  pose proof (paint_state displaySeconds k) as S1.
  pose proof (paint_calls displaySeconds k) as S2.
  pose proof (paint_texts displaySeconds k) as S3.
  rewrite P in S1, S2, S3. cbn [fst snd] in S1, S2, S3. subst k'.
  exists r, fx. repeat split; try assumption.
  rewrite S3. unfold canDraw.
  destruct (ctx k && negb (width (st k) =? 0) && negb (height (st k) =? 0));
    [|reflexivity].
  now destruct (config (st k)).
Qed.

Lemma paintCalls_app (fx1 fx2 : list effect) :
  paintCalls (fx1 ++ fx2) = paintCalls fx1 ++ paintCalls fx2.
Proof. unfold paintCalls. apply flat_map_app. Qed.

Lemma paintedTexts_app (fx1 fx2 : list effect) :
  paintedTexts (fx1 ++ fx2) = paintedTexts fx1 ++ paintedTexts fx2.
Proof. unfold paintedTexts. apply flat_map_app. Qed.

Lemma START_running (now : Z) (k : kernel) :
  isRunning (st k) = true ->
  handle (onmessage now START) k = (k, []).
Proof. intros H. kernel_unfold. now rewrite H. Qed.

Lemma START_stopped (now : Z) (k : kernel) :
  isRunning (st k) = false ->
  exists k',
    handle (onmessage now START) k = (k', [])
    /\ clockOf k' =
       (baseTimeMs (st k), now, true, lastRenderedSecond (st k))
    /\ rafPending k' = rafPending k ++ [rafNext k]
    /\ animationFrameId k' = Some (rafNext k)
    /\ ctx k' = ctx k
    /\ width (st k') = width (st k)
    /\ height (st k') = height (st k)
    /\ config (st k') = config (st k).
Proof.
  intros H. kernel_unfold. rewrite H.
  eexists. split; [reflexivity|]. repeat split.
Qed.

Lemma PAUSE_stopped (now : Z) (k : kernel) :
  isRunning (st k) = false ->
  handle (onmessage now PAUSE) k = (k, []).
Proof. intros H. kernel_unfold. now rewrite H. Qed.

Lemma PAUSE_running (now : Z) (k : kernel) :
  isRunning (st k) = true ->
  exists k',
    handle (onmessage now PAUSE) k = (k', [])
    /\ clockOf k' =
       (baseTimeMs (st k) + (now - startTimeMs (st k)), startTimeMs (st k),
        false, lastRenderedSecond (st k))
    /\ (forall id, animationFrameId k = Some id -> ~ In id (rafPending k')).
Proof.
  intros H. kernel_unfold. rewrite H. cbn [negb].
  destruct (animationFrameId k) as [i|] eqn:E; kernel_unfold.
  - eexists. split; [reflexivity|]. split; [reflexivity|].
    intros id [= <-] C. cbn [rafPending] in C.
    apply filter_In in C. destruct C as [_ C].
    now rewrite Nat.eqb_refl in C.
  - eexists. split; [reflexivity|]. split; [reflexivity|].
    intros id [=].
Qed.

(** [loop] on a stopped clock returns at once. *)
Lemma loop_stopped (now : Z) (k : kernel) :
  isRunning (st k) = false -> handle (loop now) k = (k, []).
Proof. intros H. kernel_unfold. now rewrite H. Qed.

(** [loop] on a running clock: the dirty check. *)
Lemma loop_running (now : Z) (k : kernel) :
  isRunning (st k) = true ->
  let currentSecond :=
    (baseTimeMs (st k) + (now - startTimeMs (st k))) / 1000 in
  exists k' fx,
    handle (loop now) k = (k', fx)
    /\ clockOf k' =
       (baseTimeMs (st k), startTimeMs (st k), true, currentSecond)
    /\ paintCalls fx =
       (if currentSecond =? lastRenderedSecond (st k) then []
        else [currentSecond]).
Proof.
  intros H c. kernel_unfold. rewrite H. cbn [negb]. fold c.
  destruct (Z.eqb_spec c (lastRenderedSecond (st k))) as [E|E]; cbn [negb].
  - eexists. eexists. split; [reflexivity|].
    unfold clockOf. cbn. rewrite H, E. now split.
  - match goal with
    | |- context [paint c ?k1] =>
        destruct (paint_run c k1) as (r & fx & P & C & _); rewrite P
    end.
    destruct r as [[]|].
    + eexists. eexists. split; [reflexivity|].
      unfold clockOf. cbn. rewrite H.
      split; [reflexivity|]. now rewrite app_nil_r.
    + eexists. eexists. split; [reflexivity|].
      unfold clockOf. cbn. rewrite H.
      split; [reflexivity|].
      rewrite paintCalls_app, C. reflexivity.
Qed.

Lemma effects_Uncaught (fx : list effect) :
  paintedTexts (fx ++ [Uncaught]) = paintedTexts fx
  /\ paintCalls (fx ++ [Uncaught]) = paintCalls fx.
Proof.
  rewrite paintedTexts_app, paintCalls_app. cbn. now rewrite !app_nil_r.
Qed.

Lemma SET_TIME_payload (now : Z) (p : setTimePayload) (k : kernel) :
  exists k' fx,
    handle (onmessage now (SET_TIME (Some p))) k = (k', fx)
    /\ clockOf k' =
       (seconds p * 1000,
        (if isRunning (st k) then now else startTimeMs (st k)),
        isRunning (st k), seconds p)
    /\ paintCalls fx = [seconds p]
    /\ paintedTexts fx = (if canDraw k then [timeText (seconds p)] else []).
Proof.
  kernel_unfold.
  destruct (isRunning (st k)) eqn:R; kernel_unfold;
    match goal with
    | |- context [paint ?s ?k1] =>
        destruct (paint_run s k1) as (r & fx & P & C & T); rewrite P;
        replace (canDraw k1) with (canDraw k) in T by reflexivity;
        destruct (effects_Uncaught fx) as [U1 U2];
        destruct r as [[]|]
    end;
    eexists; eexists; (split; [reflexivity|]); cbn [app];
    unfold clockOf; cbn; rewrite ?R, ?U1, ?U2; now repeat split.
Qed.

Lemma ADJUST_TIME_payload (now : Z) (p : adjustTimePayload) (k : kernel) :
  let newSecond :=
    (if isRunning (st k)
     then baseTimeMs (st k) + deltaSeconds p * 1000 + (now - startTimeMs (st k))
     else baseTimeMs (st k) + deltaSeconds p * 1000) / 1000 in
  exists k' fx,
    handle (onmessage now (ADJUST_TIME (Some p))) k = (k', fx)
    /\ clockOf k' =
       (baseTimeMs (st k) + deltaSeconds p * 1000, startTimeMs (st k),
        isRunning (st k), newSecond)
    /\ paintCalls fx = [newSecond]
    /\ paintedTexts fx = (if canDraw k then [timeText newSecond] else []).
Proof.
  intros newSecond. kernel_unfold.
  match goal with
  | |- context [paint ?s ?k1] =>
      destruct (paint_run s k1) as (r & fx & P & C & T); rewrite P;
      replace (canDraw k1) with (canDraw k) in T by reflexivity;
      destruct (effects_Uncaught fx) as [U1 U2];
      destruct r as [[]|]
  end;
  eexists; eexists; (split; [reflexivity|]); cbn [app];
  unfold clockOf; cbn; rewrite ?U1, ?U2; now repeat split.
Qed.

(** One invocation of [loop], running or not: the clock fields it leaves
    and the [paint] calls it makes. *)
Lemma loop_clock (now : Z) (k : kernel) :
  let currentSecond :=
    (baseTimeMs (st k) + (now - startTimeMs (st k))) / 1000 in
  exists k' fx,
    handle (loop now) k = (k', fx)
    /\ baseTimeMs (st k') = baseTimeMs (st k)
    /\ startTimeMs (st k') = startTimeMs (st k)
    /\ isRunning (st k') = isRunning (st k)
    /\ lastRenderedSecond (st k') =
       (if isRunning (st k) then currentSecond else lastRenderedSecond (st k))
    /\ paintCalls fx =
       (if isRunning (st k) && negb (currentSecond =? lastRenderedSecond (st k))
        then [currentSecond] else []).
Proof.
  intros c. destruct (isRunning (st k)) eqn:R.
  - destruct (loop_running now k R) as (k' & fx & E & Ck & Cp).
    exists k', fx. split; [exact E|].
    unfold clockOf in Ck. injection Ck as -> -> -> ->.
    repeat split. fold c in Cp. rewrite Cp. cbn [andb].
    now destruct (c =? lastRenderedSecond (st k)).
  - exists k, []. rewrite loop_stopped by exact R. now repeat split.
Qed.

(** The callbacks of one animation frame. *)
Lemma frame_callbacks (now : Z) (ids : list nat) :
  forall (k : kernel) (fx : list effect),
    let currentSecond :=
      (baseTimeMs (st k) + (now - startTimeMs (st k))) / 1000 in
    exists k' fx',
      fold_left
        (fun acc (_ : nat) =>
           let '(k1, fx1) := acc in
           let '(k2, fx2) := handle (loop now) k1 in
           (k2, fx1 ++ fx2)) ids (k, fx) = (k', fx')
      /\ baseTimeMs (st k') = baseTimeMs (st k)
      /\ startTimeMs (st k') = startTimeMs (st k)
      /\ isRunning (st k') = isRunning (st k)
      /\ lastRenderedSecond (st k') =
         (match ids with
          | [] => lastRenderedSecond (st k)
          | _ :: _ => if isRunning (st k) then currentSecond
                      else lastRenderedSecond (st k)
          end).
Proof.
  induction ids as [|id ids IH]; intros k fx c.
  - exists k, fx. now repeat split.
  - cbn [fold_left].
    destruct (loop_clock now k) as (k1 & fx1 & E & B & S & R & L & _).
    rewrite E.
    destruct (IH k1 (fx ++ fx1)) as (k' & fx' & E' & B' & S' & R' & L').
    exists k', fx'. split; [exact E'|].
    rewrite B', S', R', L', B, S, R, L.
    repeat split. destruct ids; destruct (isRunning (st k)); reflexivity.
Qed.

Lemma animationFrame_clock (now : Z) (k : kernel) :
  let currentSecond :=
    (baseTimeMs (st k) + (now - startTimeMs (st k))) / 1000 in
  exists k' fx,
    animationFrame now k = (k', fx)
    /\ baseTimeMs (st k') = baseTimeMs (st k)
    /\ startTimeMs (st k') = startTimeMs (st k)
    /\ isRunning (st k') = isRunning (st k)
    /\ lastRenderedSecond (st k') =
       (match rafPending k with
        | [] => lastRenderedSecond (st k)
        | _ :: _ => if isRunning (st k) then currentSecond
                    else lastRenderedSecond (st k)
        end).
Proof.
  intros c. unfold animationFrame.
  match goal with
  | |- context [fold_left ?f ?ids (?k0, ?fx0)] =>
      destruct (frame_callbacks now ids k0 fx0) as (k' & fx' & E & Rest)
  end.
  exists k', fx'. split; [exact E | exact Rest].
Qed.

Lemma run_cons (e : event) (es : list event) (k : kernel) :
  run (e :: es) k =
  (fst (run es (fst (step e k))), snd (step e k) ++ snd (run es (fst (step e k)))).
Proof.
  cbn [run]. destruct (step e k) as [k1 fx1]. cbn [fst snd].
  now destruct (run es k1).
Qed.

Lemma run_app (es1 es2 : list event) (k : kernel) :
  run (es1 ++ es2) k =
  (fst (run es2 (fst (run es1 k))),
   snd (run es1 k) ++ snd (run es2 (fst (run es1 k)))).
Proof.
  revert k. induction es1 as [|e es1 IH]; intros k.
  - cbn. now destruct (run es2 k).
  - cbn [app]. rewrite !run_cons. cbn [fst snd]. rewrite IH. cbn [fst snd].
    now rewrite app_assoc.
Qed.

End KernelClock.

(* ------------------------------------------------------------------ *)
(** * How the store's actions act on the clock *)
(* ------------------------------------------------------------------ *)

Section StoreClock.

Import Store.

Lemma calculateState_totalSeconds (now : Z) (s : store) :
  Snapshot.totalSeconds (calculateState now s) = Z.max 0 (totalMs now s / 1000).
Proof. unfold calculateState, totalMs. now destruct (isRunning s). Qed.

Lemma calculateState_displayTime (now : Z) (s : store) :
  Snapshot.displayTime (calculateState now s) =
  formatTime (Z.max 0 (totalMs now s / 1000)).
Proof. unfold calculateState, totalMs. now destruct (isRunning s). Qed.

Lemma visiblyDiffers_false (a b : Snapshot.t) :
  visiblyDiffers a b = false <->
  Snapshot.totalSeconds a = Snapshot.totalSeconds b
  /\ Snapshot.isRunning a = Snapshot.isRunning b.
Proof.
  unfold visiblyDiffers. rewrite orb_false_iff, !negb_false_iff.
  now rewrite Z.eqb_eq, Bool.eqb_true_iff.
Qed.

(** [emitChange] changes nothing but the snapshot, and the snapshot it
    leaves shows the recomputed second and flag, replaced or not. *)
Lemma emitChange_state (now : Z) (s : store) :
  let s' := fst (emitChange now s) in
  baseDurationMs s' = baseDurationMs s
  /\ startTimeMs s' = startTimeMs s
  /\ isRunning s' = isRunning s
  /\ worker s' = worker s
  /\ listeners s' = listeners s
  /\ Snapshot.totalSeconds (snapshot s') = Z.max 0 (totalMs now s / 1000)
  /\ Snapshot.isRunning (snapshot s') = isRunning s.
Proof.
  unfold emitChange.
  destruct (visiblyDiffers (calculateState now s) (snapshot s)) eqn:V;
    cbn [fst].
  - repeat split.
  - apply visiblyDiffers_false in V. destruct V as [V1 V2].
    repeat split; try (rewrite <- V1; apply calculateState_totalSeconds).
    now rewrite <- V2.
Qed.

Lemma emitChange_effects (now : Z) (s : store) :
  snd (emitChange now s) =
  if visiblyDiffers (calculateState now s) (snapshot s)
  then SnapshotReplaced (calculateState now s) :: map Notify (listeners s)
  else [].
Proof.
  unfold emitChange.
  now destruct (visiblyDiffers (calculateState now s) (snapshot s)).
Qed.

Lemma emitChange_posts_nothing (now : Z) (s : store) :
  posted (snd (emitChange now s)) = [].
Proof.
  rewrite emitChange_effects.
  destruct (visiblyDiffers (calculateState now s) (snapshot s));
    [|reflexivity].
  cbn. induction (listeners s); [reflexivity | assumption].
Qed.

Lemma replacements_notify (ls : list nat) :
  replacements (map Notify ls) = [] /\ notifications (map Notify ls) = ls.
Proof.
  induction ls as [|l ls [IH1 IH2]]; [now split|].
  split; [exact IH1|].
  change (l :: notifications (map Notify ls) = l :: ls). now rewrite IH2.
Qed.

Lemma start_running (now emitNow : Z) (s : store) :
  isRunning s = true -> start now emitNow s = (s, []).
Proof. intros H. unfold start. now rewrite H. Qed.

Lemma pause_stopped (now : Z) (s : store) :
  isRunning s = false -> pause now s = (s, []).
Proof. intros H. unfold pause. now rewrite H. Qed.

Lemma start_stopped (now emitNow : Z) (s : store) :
  isRunning s = false ->
  let s' := fst (start now emitNow s) in
  baseDurationMs s' = baseDurationMs s
  /\ startTimeMs s' = now
  /\ isRunning s' = true
  /\ worker s' = worker s
  /\ listeners s' = listeners s
  /\ Snapshot.totalSeconds (snapshot s') =
     Z.max 0 ((baseDurationMs s + (emitNow - now)) / 1000)
  /\ Snapshot.isRunning (snapshot s') = true.
Proof.
  intros H. unfold start. rewrite H.
  set (s1 := setStartTimeMs now (setIsRunning true s)).
  pose proof (emitChange_state emitNow s1) as E.
  destruct (emitChange emitNow s1) as [s2 fx2]. cbn [fst] in *.
  exact E.
Qed.

Lemma pause_running (now : Z) (s : store) :
  isRunning s = true ->
  let s' := fst (pause now s) in
  baseDurationMs s' = baseDurationMs s + (now - startTimeMs s)
  /\ startTimeMs s' = startTimeMs s
  /\ isRunning s' = false
  /\ worker s' = worker s
  /\ listeners s' = listeners s
  /\ Snapshot.totalSeconds (snapshot s') =
     Z.max 0 ((baseDurationMs s + (now - startTimeMs s)) / 1000)
  /\ Snapshot.isRunning (snapshot s') = false.
Proof.
  intros H. unfold pause. rewrite H. cbn [negb].
  set (s2 := setIsRunning false _).
  pose proof (emitChange_state now s2) as E.
  destruct (emitChange now s2) as [s3 fx2]. cbn [fst] in *.
  exact E.
Qed.

Lemma setTime_state (n now emitNow : Z) (s : store) :
  let s' := fst (setTime n now emitNow s) in
  baseDurationMs s' = n * 1000
  /\ startTimeMs s' = (if isRunning s then now else startTimeMs s)
  /\ isRunning s' = isRunning s
  /\ worker s' = worker s
  /\ listeners s' = listeners s
  /\ Snapshot.totalSeconds (snapshot s') =
     Z.max 0 ((if isRunning s then n * 1000 + (emitNow - now) else n * 1000)
              / 1000)
  /\ Snapshot.isRunning (snapshot s') = isRunning s.
Proof.
  unfold setTime. cbn [isRunning setBaseDurationMs].
  destruct (isRunning s) eqn:R.
  - set (s2 := setStartTimeMs now _).
    pose proof (emitChange_state emitNow s2) as E.
    unfold totalMs in E. subst s2. cbn in E. rewrite R in E. cbn. exact E.
  - set (s2 := setBaseDurationMs _ _).
    pose proof (emitChange_state emitNow s2) as E.
    unfold totalMs in E. subst s2. cbn in E. rewrite R in E. cbn. exact E.
Qed.

Lemma tick_state (now : Z) (s : store) :
  let s' := fst (step (Tick now) s) in
  baseDurationMs s' = baseDurationMs s
  /\ startTimeMs s' = startTimeMs s
  /\ isRunning s' = isRunning s
  /\ worker s' = worker s
  /\ listeners s' = listeners s
  /\ Snapshot.totalSeconds (snapshot s') = Z.max 0 (totalMs now s / 1000)
  /\ Snapshot.isRunning (snapshot s') = isRunning s.
Proof. apply emitChange_state. Qed.

Lemma store_run_cons (e : event) (es : list event) (s : store) :
  run (e :: es) s =
  (fst (run es (fst (step e s))), snd (step e s) ++ snd (run es (fst (step e s)))).
Proof.
  cbn [run]. destruct (step e s) as [s1 fx1]. cbn [fst snd].
  now destruct (run es s1).
Qed.

End StoreClock.

(* ------------------------------------------------------------------ *)
(** * The dirty check *)
(* ------------------------------------------------------------------ *)

Section DirtyCheck.

(** The whole second [loop] computes at [now]. *)
Let secondAt (now : Z) (k : Kernel.kernel) : Z :=
  (Kernel.baseTimeMs (Kernel.st k) + (now - Kernel.startTimeMs (Kernel.st k)))
  / 1000.

(** Once the second on record is the one being computed, [loop] paints
    nothing, however often it runs. *)
Lemma loops_quiet (nows : list Z) :
  forall k : Kernel.kernel,
    (forall now, In now nows ->
                 secondAt now k = Kernel.lastRenderedSecond (Kernel.st k)) ->
    Kernel.paintCalls (snd (Kernel.loops nows k)) = [].
Proof.
  induction nows as [|now nows IH]; intros k H; [reflexivity|].
  cbn [Kernel.loops].
  destruct (loop_clock now k) as (k1 & fx1 & E & B & S & R & L & P).
  rewrite E.
  assert (Hnow : secondAt now k = Kernel.lastRenderedSecond (Kernel.st k))
    by (apply H; now left).
  unfold secondAt in Hnow. rewrite Hnow in P, L.
  rewrite Z.eqb_refl, andb_false_r in P.
  assert (L' : Kernel.lastRenderedSecond (Kernel.st k1)
               = Kernel.lastRenderedSecond (Kernel.st k))
    by (rewrite L; now destruct (Kernel.isRunning (Kernel.st k))).
  specialize (IH k1).
  destruct (Kernel.loops nows k1) as [k2 fx2]. cbn [snd] in *.
  rewrite paintCalls_app, P, IH; [reflexivity|].
  intros t Ht. unfold secondAt. rewrite B, S, L'. apply H. now right.
Qed.

Lemma loops_stopped (nows : list Z) (k : Kernel.kernel) :
  Kernel.isRunning (Kernel.st k) = false -> Kernel.loops nows k = (k, []).
Proof.
  intros R. induction nows as [|now nows IH]; [reflexivity|].
  cbn [Kernel.loops]. rewrite (loop_stopped now k R), IH. reflexivity.
Qed.

Lemma loops_paint_at_most_once (nows : list Z) (k : Kernel.kernel) (c : Z) :
  (forall now, In now nows -> secondAt now k = c) ->
  (List.length (Kernel.paintCalls (snd (Kernel.loops nows k))) <= 1)%nat.
Proof.
  intros H. destruct (Kernel.isRunning (Kernel.st k)) eqn:Run.
  2:{ rewrite loops_stopped by exact Run. cbn. lia. }
  destruct nows as [|now nows]; [cbn; lia|].
  cbn [Kernel.loops].
  destruct (loop_clock now k) as (k1 & fx1 & E & B & S & R & L & P).
  rewrite E. rewrite Run in L, P.
  assert (Q : Kernel.paintCalls (snd (Kernel.loops nows k1)) = []).
  { apply loops_quiet. intros t Ht. unfold secondAt. rewrite B, S, L.
    transitivity c; [apply H; now right | symmetry; apply H; now left]. }
  destruct (Kernel.loops nows k1) as [k2 fx2]. cbn [snd] in *.
  rewrite paintCalls_app, Q, app_nil_r, P.
  destruct (true && negb _); cbn; lia.
Qed.

Lemma step_Tick (now : Z) (s : Store.store) :
  Store.step (Store.Tick now) s = Store.emitChange now s.
Proof. reflexivity. Qed.

(** Ticks that recompute what the snapshot already shows change nothing. *)
Lemma ticks_quiet (nows : list Z) (s : Store.store) :
  (forall now, In now nows ->
     Store.visiblyDiffers (Store.calculateState now s) (Store.snapshot s)
     = false) ->
  Store.run (map Store.Tick nows) s = (s, []).
Proof.
  induction nows as [|now nows IH]; intros H; [reflexivity|].
  cbn [map]. rewrite store_run_cons, step_Tick.
  cbv beta zeta delta [Store.emitChange]. rewrite (H now) by now left.
  cbn [fst snd].
  rewrite IH; [reflexivity|]. intros t Ht. apply H. now right.
Qed.

Lemma ticks_notify_at_most_once (nows : list Z) (c : Z) :
  forall s : Store.store,
    (forall now, In now nows ->
       Store.Snapshot.totalSeconds (Store.calculateState now s) = c) ->
    (List.length (Store.replacements (snd (Store.run (map Store.Tick nows) s)))
     <= 1)%nat
    /\ (List.length
          (Store.notifications (snd (Store.run (map Store.Tick nows) s)))
        <= List.length (Store.listeners s))%nat.
Proof.
  induction nows as [|now nows IH]; intros s H; [cbn; lia|].
  cbn [map]. rewrite store_run_cons, step_Tick.
  cbv beta zeta delta [Store.emitChange].
  destruct (Store.visiblyDiffers (Store.calculateState now s) (Store.snapshot s))
    eqn:V.
  - set (s1 := Store.setSnapshot (Store.calculateState now s) s).
    cbn [fst snd]. rewrite (ticks_quiet nows s1).
    + cbn [snd]. rewrite app_nil_r.
      cbn [Store.replacements Store.notifications flat_map].
      destruct (replacements_notify (Store.listeners s)) as [N1 N2].
      unfold Store.replacements, Store.notifications in N1, N2.
      rewrite N1, N2. cbn. lia.
    + intros t Ht. apply visiblyDiffers_false.
      change (Store.calculateState t s1) with (Store.calculateState t s).
      cbn [s1 Store.snapshot Store.setSnapshot]. split.
      * rewrite (H t) by (now right). symmetry. apply H. now left.
      * reflexivity.
  - cbn [fst snd app]. apply IH. intros t Ht. apply H. now right.
Qed.

End DirtyCheck.

(* ------------------------------------------------------------------ *)
(** * Negative totals *)
(* ------------------------------------------------------------------ *)

(** A negative display second is painted as a minus sign in front of what
    its absolute value is painted as. *)
Lemma timeText_negative (s : Z) :
  s < 0 -> Kernel.timeText s = String "-" (Kernel.timeText (- s)).
Proof.
  intros H. unfold Kernel.timeText, Kernel.hoursIndex, Kernel.minutesIndex,
    Kernel.secondsIndex.
  rewrite Z.abs_opp.
  destruct (Z.ltb_spec s 0) as [_|?]; [|lia].
  destruct (Z.ltb_spec (- s) 0) as [?|_]; [lia|].
  reflexivity.
Qed.

Lemma canDraw_START (now : Z) (k : Kernel.kernel) :
  Kernel.canDraw (fst (Kernel.handle (Kernel.onmessage now Kernel.START) k))
  = Kernel.canDraw k.
Proof.
  destruct (Kernel.isRunning (Kernel.st k)) eqn:R.
  - now rewrite START_running.
  - destruct (START_stopped now k R) as (k' & E & _ & _ & _ & C & W & H & G).
    rewrite E. cbn [fst]. unfold Kernel.canDraw. now rewrite C, W, H, G.
Qed.

(* ------------------------------------------------------------------ *)
(** * The store's actions and the dirty check *)
(* ------------------------------------------------------------------ *)

Section StoreActions.

Import Store.

Lemma emitChange_synced (now : Z) (s : store) : synced (fst (emitChange now s)).
Proof.
  unfold synced.
  destruct (emitChange_state now s) as (_ & _ & R & _ & _ & _ & SR).
  now rewrite SR, R.
Qed.

Lemma step_synced (e : event) (s : store) : synced s -> synced (fst (step e s)).
Proof.
  intros H. destruct e as [now emitNow|now|n now emitNow|now|l|l];
    cbn [step].
  - unfold start. destruct (isRunning s); [exact H|].
    set (s1 := setStartTimeMs _ _).
    pose proof (emitChange_synced emitNow s1) as E.
    now destruct (emitChange emitNow s1).
  - unfold pause. destruct (isRunning s); cbn [negb]; [|exact H].
    set (s2 := setIsRunning false _).
    pose proof (emitChange_synced now s2) as E.
    now destruct (emitChange now s2).
  - unfold setTime. apply emitChange_synced.
  - apply emitChange_synced.
  - unfold subscribe. now destruct (existsb _ _).
  - exact H.
Qed.

(** Every state the store reaches from its creation is synced. *)
Lemma run_synced (es : list event) :
  forall s, synced s -> synced (fst (run es s)).
Proof.
  induction es as [|e es IH]; intros s H; [exact H|].
  rewrite store_run_cons. cbn [fst]. apply IH. now apply step_synced.
Qed.

Lemma visiblyDiffers_flag (a b : Snapshot.t) :
  Snapshot.isRunning a <> Snapshot.isRunning b -> visiblyDiffers a b = true.
Proof.
  intros H. unfold visiblyDiffers.
  destruct (Snapshot.isRunning a), (Snapshot.isRunning b);
    try congruence; cbn; apply orb_true_r.
Qed.

End StoreActions.

(* ------------------------------------------------------------------ *)
(** * Messages the handler cannot read *)
(* ------------------------------------------------------------------ *)

(** [switchOn] goes by the tag and keeps it. *)
Lemma switchOn_typeOf (m : Kernel.message) :
  Kernel.typeOf (Kernel.switchOn m) = Kernel.typeOf m.
Proof.
  destruct m as [p|p|p| | |p|p|t]; try reflexivity.
  unfold Kernel.switchOn.
  repeat match goal with
         | |- context [String.eqb t ?l] =>
             destruct (String.eqb_spec t l) as [->|_]; [reflexivity|]
         end.
  reflexivity.
Qed.


(* ------------------------------------------------------------------ *)
(** * A store without a worker *)
(* ------------------------------------------------------------------ *)

Section NoWorker.

Import Store.

(** Effects that stay inside the store and its listeners. *)
Let isLocal (e : effect) : Prop :=
  match e with
  | SnapshotReplaced _ | Notify _ => True
  | _ => False
  end.

Lemma emitChange_local (now : Z) (s : store) :
  Forall isLocal (snd (emitChange now s)).
Proof.
  rewrite emitChange_effects.
  destruct (visiblyDiffers _ _); [|constructor].
  constructor; [exact I|].
  induction (listeners s); constructor; [exact I | assumption].
Qed.

Lemma step_without_worker (e : event) (s : store) :
  worker s = None ->
  worker (fst (step e s)) = None /\ Forall isLocal (snd (step e s)).
Proof.
  intros W. destruct e as [now emitNow|now|n now emitNow|now|l|l];
    cbn [step].
  - unfold start, postMessage. destruct (isRunning s) eqn:R.
    + split; [exact W | constructor].
    + cbn [worker setStartTimeMs setIsRunning]. rewrite W.
      set (s1 := setStartTimeMs _ _).
      pose proof (emitChange_state emitNow s1) as (_ & _ & _ & W1 & _).
      pose proof (emitChange_local emitNow s1) as L.
      destruct (emitChange emitNow s1) as [s2 fx2]. cbn [fst snd app] in *.
      split; [now rewrite W1 | exact L].
  - unfold pause, postMessage. destruct (isRunning s) eqn:R; cbn [negb].
    + cbn [worker setBaseDurationMs setIsRunning]. rewrite W.
      set (s2 := setIsRunning false _).
      pose proof (emitChange_state now s2) as (_ & _ & _ & W1 & _).
      pose proof (emitChange_local now s2) as L.
      destruct (emitChange now s2) as [s3 fx2]. cbn [fst snd app] in *.
      split; [now rewrite W1 | exact L].
    + split; [exact W | constructor].
  - destruct (setTime_state n now emitNow s) as (_ & _ & _ & W1 & _).
    split; [now rewrite W1 | apply emitChange_local].
  - change (onWorkerMessage "TICK" now s) with (emitChange now s).
    destruct (emitChange_state now s) as (_ & _ & _ & W1 & _).
    split; [now rewrite W1 | apply emitChange_local].
  - cbn [fst snd]. split; [|constructor].
    unfold subscribe. now destruct (existsb _ _).
  - cbn [fst snd]. split; [exact W | constructor].
Qed.

Lemma run_without_worker (es : list event) :
  forall s : store,
    worker s = None ->
    worker (fst (run es s)) = None
    /\ Forall isLocal (snd (run es s))
    /\ posted (snd (run es s)) = [].
Proof.
  induction es as [|e es IH]; intros s W.
  - cbn. split; [exact W|]. split; [constructor | reflexivity].
  - rewrite store_run_cons. cbn [fst snd].
    destruct (step_without_worker e s W) as [W1 L1].
    destruct (IH _ W1) as (W2 & L2 & P2).
    split; [exact W2|].
    assert (L : Forall isLocal
                  (snd (step e s) ++ snd (run es (fst (step e s)))))
      by (apply Forall_app; now split).
    split; [exact L|].
    clear - L. induction L as [|x fx Hx _ IHfx]; [reflexivity|].
    destruct x; cbn in *; try contradiction; exact IHfx.
Qed.

End NoWorker.

(* ------------------------------------------------------------------ *)
(** * The claims of the specification *)
(* ------------------------------------------------------------------ *)

(** C1, the claim fails for the store on a negative base: created with
    minus ten seconds, started, paused after 5 s, resumed after an idle
    10 s and read 2 s later, the store's total is -3000 ms, the prior base
    plus 7 seconds, but the total it reports is clamped to 0. *)
Lemma C1_store_reports_clamped_total :
  let s' := fst (Store.run [Store.Start 0 0; Store.Pause 5000;
                            Store.Start 15000 15000; Store.Tick 17000]
                   (Store.create (-10))) in
  Store.baseDurationMs (Store.create (-10)) = -10000
  /\ Store.totalMs 17000 s' = -10000 + 7000
  /\ Store.Snapshot.totalSeconds (Store.snapshot s') = 0
  /\ Store.Snapshot.totalSeconds (Store.snapshot s') <> (-10000 + 7000) / 1000
  /\ Store.Snapshot.displayTime (Store.snapshot s') = "00:00:00"%string.
Proof. cbv. repeat split; discriminate. Qed.

(** C1, amended.  Start a stopped clock with base [b] at [t0], PAUSE at
    [t0 + 5 s], leave it idle for any interval, START again and read it 2 s
    later.  PAUSE folds the 5 s into the base and clears the running flag,
    and the total does not move while the clock is idle.  At the end the
    total is [b + 7 s] in the kernel and in the store, whatever the idle
    interval.  The kernel reports its whole second, [floor((b + 7000) /
    1000)], for every base.  The store reports that second clamped at
    zero, [max(0, floor((b + 7000) / 1000))], which is the prior base plus
    7 seconds only when that sum is not negative. *)
Theorem C1_pause_resume_conserves_time :
  forall (b t0 idle : Z),
    let tEnd := t0 + 5000 + idle + 2000 in
    (forall k : Kernel.kernel,
        Kernel.isRunning (Kernel.st k) = false ->
        Kernel.baseTimeMs (Kernel.st k) = b ->
        let paused :=
          fst (Kernel.run [Kernel.Message t0 Kernel.START;
                           Kernel.Message (t0 + 5000) Kernel.PAUSE] k) in
        let k' :=
          fst (Kernel.run [Kernel.Message t0 Kernel.START;
                           Kernel.Message (t0 + 5000) Kernel.PAUSE;
                           Kernel.Message (t0 + 5000 + idle) Kernel.START;
                           Kernel.AnimationFrame tEnd] k) in
        Kernel.isRunning (Kernel.st paused) = false
        /\ Kernel.baseTimeMs (Kernel.st paused) = b + 5000
        /\ (forall t, Kernel.totalMs t paused = b + 5000)
        /\ Kernel.totalMs tEnd k' = b + 7000
        /\ Kernel.lastRenderedSecond (Kernel.st k') = (b + 7000) / 1000)
    /\ (forall (s : Store.store) (e0 e1 : Z),
          Store.isRunning s = false ->
          Store.baseDurationMs s = b ->
          let paused :=
            fst (Store.run [Store.Start t0 e0; Store.Pause (t0 + 5000)] s) in
          let s' :=
            fst (Store.run [Store.Start t0 e0; Store.Pause (t0 + 5000);
                            Store.Start (t0 + 5000 + idle) e1;
                            Store.Tick tEnd] s) in
          Store.isRunning paused = false
          /\ Store.baseDurationMs paused = b + 5000
          /\ (forall t, Store.totalMs t paused = b + 5000)
          /\ Store.totalMs tEnd s' = b + 7000
          /\ Store.Snapshot.totalSeconds (Store.snapshot s')
             = Z.max 0 ((b + 7000) / 1000)
          /\ (0 <= b + 7000 ->
              Store.Snapshot.totalSeconds (Store.snapshot s')
              = (b + 7000) / 1000)).
Proof.
  intros b t0 idle tEnd. split.
  - intros k R B paused k'.
    assert (P : Kernel.clockOf paused =
                (b + 5000, t0, false, Kernel.lastRenderedSecond (Kernel.st k))).
    { subst paused. rewrite run_cons. cbn [fst Kernel.step].
      destruct (START_stopped t0 k R) as (k1 & E1 & C1 & _).
      rewrite E1. cbn [fst]. rewrite run_cons. cbn [fst Kernel.step Kernel.run].
      unfold Kernel.clockOf in C1. injection C1 as B1 S1 R1 L1.
      destruct (PAUSE_running (t0 + 5000) k1 R1) as (k2 & E2 & C2 & _).
      rewrite E2. cbn [fst]. rewrite C2, B1, S1, L1, B. f_equal. f_equal.
      f_equal. lia. }
    assert (K : k' = fst (Kernel.run
                            [Kernel.Message (t0 + 5000 + idle) Kernel.START;
                             Kernel.AnimationFrame tEnd] paused)).
    { subst k' paused.
      change [Kernel.Message t0 Kernel.START;
              Kernel.Message (t0 + 5000) Kernel.PAUSE;
              Kernel.Message (t0 + 5000 + idle) Kernel.START;
              Kernel.AnimationFrame tEnd]
        with ([Kernel.Message t0 Kernel.START;
               Kernel.Message (t0 + 5000) Kernel.PAUSE] ++
              [Kernel.Message (t0 + 5000 + idle) Kernel.START;
               Kernel.AnimationFrame tEnd]).
      now rewrite run_app. }
    clearbody paused k'. subst k'.
    unfold Kernel.clockOf in P. injection P as PB PS PR PL.
    split; [exact PR|]. split; [exact PB|].
    split; [intros t; unfold Kernel.totalMs; now rewrite PR|].
    rewrite run_cons. cbn [fst Kernel.step].
    destruct (START_stopped (t0 + 5000 + idle) paused PR)
      as (k3 & E3 & C3 & Q3 & _).
    rewrite E3. cbn [fst]. rewrite run_cons. cbn [fst Kernel.step Kernel.run].
    unfold Kernel.clockOf in C3. injection C3 as B3 S3 R3 L3.
    destruct (animationFrame_clock tEnd k3) as (k4 & fx4 & E4 & B4 & S4 & R4 & L4).
    rewrite E4. cbn [fst].
    unfold Kernel.totalMs. rewrite R4, R3, B4, S4, L4, B3, S3, R3, Q3, PB.
    destruct (Kernel.rafPending paused); cbn [app];
      (split; [subst tEnd; lia | f_equal; subst tEnd; lia]).
  - intros s e0 e1 R B paused s'.
    assert (P : Store.isRunning paused = false
                /\ Store.baseDurationMs paused = b + 5000).
    { subst paused. rewrite store_run_cons. cbn [fst Store.step].
      destruct (start_stopped t0 e0 s R) as (B1 & S1 & R1 & _).
      rewrite store_run_cons. cbn [fst Store.step Store.run].
      destruct (pause_running (t0 + 5000) _ R1) as (B2 & _ & R2 & _).
      split; [exact R2|]. rewrite B2, B1, S1, B. lia. }
    assert (K : s' = fst (Store.run [Store.Start (t0 + 5000 + idle) e1;
                                     Store.Tick tEnd] paused)).
    { subst s' paused. rewrite !store_run_cons. reflexivity. }
    clearbody paused s'. subst s'. destruct P as [PR PB].
    split; [exact PR|]. split; [exact PB|].
    split; [intros t; unfold Store.totalMs; now rewrite PR|].
    rewrite store_run_cons. cbn [fst].
    change (Store.step (Store.Start (t0 + 5000 + idle) e1) paused)
      with (Store.start (t0 + 5000 + idle) e1 paused).
    destruct (start_stopped (t0 + 5000 + idle) e1 paused PR)
      as (B3 & S3 & R3 & _).
    set (s3 := fst (Store.start (t0 + 5000 + idle) e1 paused)) in *.
    rewrite store_run_cons. cbn [fst Store.run].
    destruct (tick_state tEnd s3) as (B4 & S4 & R4 & _ & _ & T4 & _).
    set (s4 := fst (Store.step (Store.Tick tEnd) s3)) in *.
    assert (Tot : Store.totalMs tEnd s3 = b + 7000).
    { unfold Store.totalMs. rewrite R3, B3, S3, PB. subst tEnd. lia. }
    assert (Tot4 : Store.totalMs tEnd s4 = b + 7000).
    { unfold Store.totalMs in *. now rewrite R4, B4, S4. }
    rewrite Tot in T4.
    split; [exact Tot4|]. split; [exact T4|].
    intros Hpos. rewrite T4. apply Z.max_r. apply Z.div_pos; lia.
Qed.

(** C1 on the sample kernel and store: base 0, started at 100, idle 10 s. *)
Lemma C1_pause_resume_conserves_time_witness :
  Kernel.isRunning (Kernel.st kernelReady) = false
  /\ Kernel.baseTimeMs (Kernel.st kernelReady) = 0
  /\ Store.isRunning storeReady = false
  /\ Store.baseDurationMs storeReady = 0
  /\ 0 <= 0 + 7000
  /\ Kernel.lastRenderedSecond
       (Kernel.st
          (fst (Kernel.run [Kernel.Message 100 Kernel.START;
                            Kernel.Message (100 + 5000) Kernel.PAUSE;
                            Kernel.Message (100 + 5000 + 10000) Kernel.START;
                            Kernel.AnimationFrame (100 + 5000 + 10000 + 2000)]
                  kernelReady)))
     = (0 + 7000) / 1000
  /\ Store.Snapshot.totalSeconds
       (Store.snapshot
          (fst (Store.run [Store.Start 100 100; Store.Pause (100 + 5000);
                           Store.Start (100 + 5000 + 10000) 15100;
                           Store.Tick (100 + 5000 + 10000 + 2000)]
                  storeReady)))
     = (0 + 7000) / 1000.
Proof.
  destruct (C1_pause_resume_conserves_time 0 100 10000) as [K S].
  pose proof (K kernelReady eq_refl eq_refl) as (_ & _ & _ & _ & K5).
  pose proof (S storeReady 100 15100 eq_refl eq_refl) as (_ & _ & _ & _ & _ & S6).
  split; [reflexivity|]. split; [reflexivity|].
  split; [reflexivity|]. split; [reflexivity|].
  split; [lia|]. split; [exact K5 | apply S6; lia].
Defined.

(** C2, the claim fails for the store on a negative target: on a store
    running since [t = 100], [setTime(-5)] at [t = 5100] re-anchors, and one
    second later the total is -4000 ms, but the store reports 0 seconds,
    not -5 + 1. *)
Lemma C2_store_reports_clamped_total :
  let s' := fst (Store.run [Store.SetTime (-5) 5100 5100; Store.Tick 6100]
                   storeRunning) in
  Store.isRunning storeRunning = true
  /\ Store.baseDurationMs s' = -5 * 1000
  /\ Store.startTimeMs s' = 5100
  /\ Store.totalMs 6100 s' = -5 * 1000 + 1000
  /\ Store.Snapshot.totalSeconds (Store.snapshot s') = 0
  /\ Store.Snapshot.totalSeconds (Store.snapshot s') <> -5 + 1.
Proof. cbv. repeat split; discriminate. Qed.

(** C2, amended.  SET_TIME(n) sets the base to [n * 1000].  On a running
    clock it also resets the anchor to the current reading of the clock,
    so [d] milliseconds later the total is [n * 1000 + d], with nothing of
    the time that had elapsed before the command; on a stopped clock the
    anchor is left alone.  The kernel then reports the whole second
    [floor((n * 1000 + d) / 1000)], that is [n + d] after [d] whole
    seconds; the store reports that second clamped at zero, which is the
    same whenever the total is not negative.  Start, 5 s, SET_TIME(3600),
    1 s: both report 3601. *)
Theorem C2_set_time_reanchors :
  forall (n now : Z),
    (forall k : Kernel.kernel,
        let k' :=
          fst (Kernel.handle
                 (Kernel.onmessage now
                    (Kernel.SET_TIME (Some {| Kernel.seconds := n |}))) k) in
        Kernel.baseTimeMs (Kernel.st k') = n * 1000
        /\ Kernel.isRunning (Kernel.st k') = Kernel.isRunning (Kernel.st k)
        /\ (Kernel.isRunning (Kernel.st k) = true ->
            Kernel.startTimeMs (Kernel.st k') = now
            /\ forall d : Z,
                Kernel.totalMs (now + d) k' = n * 1000 + d
                /\ Kernel.lastRenderedSecond
                     (Kernel.st (fst (Kernel.handle (Kernel.loop (now + d)) k')))
                   = (n * 1000 + d) / 1000)
        /\ (Kernel.isRunning (Kernel.st k) = false ->
            Kernel.startTimeMs (Kernel.st k') = Kernel.startTimeMs (Kernel.st k)))
    /\ (forall (s : Store.store) (emitNow : Z),
          let s' := fst (Store.setTime n now emitNow s) in
          Store.baseDurationMs s' = n * 1000
          /\ Store.isRunning s' = Store.isRunning s
          /\ (Store.isRunning s = true ->
              Store.startTimeMs s' = now
              /\ forall d : Z,
                  Store.totalMs (now + d) s' = n * 1000 + d
                  /\ Store.Snapshot.totalSeconds
                       (Store.snapshot
                          (fst (Store.step (Store.Tick (now + d)) s')))
                     = Z.max 0 ((n * 1000 + d) / 1000)
                  /\ (0 <= n * 1000 + d ->
                      Store.Snapshot.totalSeconds
                        (Store.snapshot
                           (fst (Store.step (Store.Tick (now + d)) s')))
                      = (n * 1000 + d) / 1000))
          /\ (Store.isRunning s = false ->
              Store.startTimeMs s' = Store.startTimeMs s))
    /\ (forall d : Z, (n * 1000 + d * 1000) / 1000 = n + d)
    /\ (forall (k : Kernel.kernel) (t0 : Z),
          Kernel.isRunning (Kernel.st k) = false ->
          Kernel.lastRenderedSecond
            (Kernel.st
               (fst (Kernel.run
                       [Kernel.Message t0 Kernel.START;
                        Kernel.Message (t0 + 5000)
                          (Kernel.SET_TIME (Some {| Kernel.seconds := 3600 |}));
                        Kernel.AnimationFrame (t0 + 5000 + 1000)] k)))
          = 3601)
    /\ (forall (s : Store.store) (t0 e0 e1 : Z),
          Store.isRunning s = false ->
          Store.Snapshot.totalSeconds
            (Store.snapshot
               (fst (Store.run
                       [Store.Start t0 e0;
                        Store.SetTime 3600 (t0 + 5000) e1;
                        Store.Tick (t0 + 5000 + 1000)] s)))
          = 3601).
Proof.
  intros n now.
  assert (KS : forall (m t : Z) (k : Kernel.kernel),
             let k' :=
               fst (Kernel.handle
                      (Kernel.onmessage t
                         (Kernel.SET_TIME (Some {| Kernel.seconds := m |}))) k) in
             Kernel.baseTimeMs (Kernel.st k') = m * 1000
             /\ Kernel.isRunning (Kernel.st k') = Kernel.isRunning (Kernel.st k)
             /\ Kernel.startTimeMs (Kernel.st k') =
                (if Kernel.isRunning (Kernel.st k) then t
                 else Kernel.startTimeMs (Kernel.st k))).
  { intros m t k.
    destruct (SET_TIME_payload t {| Kernel.seconds := m |} k)
      as (k1 & fx & E & C & _).
    rewrite E. cbn [fst]. unfold Kernel.clockOf in C. cbn in C.
    injection C as B S R _. now repeat split. }
  split; [|split; [|split; [|split]]].
  - intros k k'. destruct (KS n now k) as (B & R & S). fold k' in B, R, S.
    split; [exact B|]. split; [exact R|]. split.
    + intros Run. rewrite Run in S, R. split; [exact S|]. intros d.
      split; [unfold Kernel.totalMs; rewrite R, B, S; lia|].
      destruct (loop_clock (now + d) k') as (k2 & fx & E & _ & _ & _ & L & _).
      rewrite E. cbn [fst]. rewrite L, R, B, S. f_equal. lia.
    + intros Stop. now rewrite Stop in S.
  - intros s emitNow s'.
    destruct (setTime_state n now emitNow s) as (B & S & R & _).
    fold s' in B, S, R.
    split; [exact B|]. split; [exact R|]. split.
    + intros Run. rewrite Run in S, R. split; [exact S|]. intros d.
      assert (Tot : Store.totalMs (now + d) s' = n * 1000 + d).
      { unfold Store.totalMs. rewrite R, B, S. lia. }
      split; [exact Tot|].
      destruct (tick_state (now + d) s') as (_ & _ & _ & _ & _ & T & _).
      rewrite Tot in T. split; [exact T|].
      intros Hpos. rewrite T. apply Z.max_r. apply Z.div_pos; lia.
    + intros Stop. now rewrite Stop in S.
  - intros d. replace (n * 1000 + d * 1000) with ((n + d) * 1000) by lia.
    apply Z.div_mul. lia.
  - intros k t0 Stop.
    rewrite run_cons. cbn [fst Kernel.step].
    destruct (START_stopped t0 k Stop) as (k1 & E1 & C1 & Q1 & _).
    rewrite E1. cbn [fst]. unfold Kernel.clockOf in C1.
    injection C1 as B1 S1 R1 L1.
    rewrite run_cons. cbn [fst Kernel.step].
    destruct (KS 3600 (t0 + 5000) k1) as (B2 & R2 & S2).
    assert (Q2 : Kernel.rafPending
                   (fst (Kernel.handle
                           (Kernel.onmessage (t0 + 5000)
                              (Kernel.SET_TIME
                                 (Some {| Kernel.seconds := 3600 |}))) k1))
                 = Kernel.rafPending k1).
    { kernel_unfold. rewrite R1. kernel_unfold.
      match goal with
      | |- context [Kernel.paint ?x ?k0] =>
          destruct (paint_run x k0) as (r & fx & P & _); rewrite P
      end.
      now destruct r as [[]|]. }
    set (k2 := fst (Kernel.handle _ k1)) in *.
    rewrite run_cons. cbn [fst Kernel.step Kernel.run].
    destruct (animationFrame_clock (t0 + 5000 + 1000) k2)
      as (k3 & fx3 & E3 & _ & _ & _ & L3).
    rewrite E3. cbn [fst]. rewrite L3, Q2, Q1, R2, R1, B2, S2, R1.
    replace (3600 * 1000 + (t0 + 5000 + 1000 - (t0 + 5000)))
      with (3601 * 1000) by lia.
    rewrite Z.div_mul by lia.
    now destruct (Kernel.rafPending k).
  - intros s t0 e0 e1 Stop.
    rewrite store_run_cons. cbn [fst].
    change (Store.step (Store.Start t0 e0) s) with (Store.start t0 e0 s).
    destruct (start_stopped t0 e0 s Stop) as (_ & _ & R1 & _).
    set (s1 := fst (Store.start t0 e0 s)) in *.
    rewrite store_run_cons. cbn [fst].
    change (Store.step (Store.SetTime 3600 (t0 + 5000) e1) s1)
      with (Store.setTime 3600 (t0 + 5000) e1 s1).
    destruct (setTime_state 3600 (t0 + 5000) e1 s1) as (B2 & S2 & R2 & _).
    set (s2 := fst (Store.setTime 3600 (t0 + 5000) e1 s1)) in *.
    rewrite store_run_cons. cbn [fst Store.run].
    destruct (tick_state (t0 + 5000 + 1000) s2) as (_ & _ & _ & _ & _ & T & _).
    rewrite T. unfold Store.totalMs. rewrite R2, R1, B2, S2, R1.
    replace (3600 * 1000 + (t0 + 5000 + 1000 - (t0 + 5000)))
      with (3601 * 1000) by lia.
    rewrite Z.div_mul by lia. reflexivity.
Qed.

(** C2 on the sample kernel and store: SET_TIME(3600) at 5100, running and
    stopped. *)
Lemma C2_set_time_reanchors_witness :
  Kernel.isRunning (Kernel.st kernelRunning) = true
  /\ Store.isRunning storeRunning = true
  /\ 0 <= 3600 * 1000 + 1000
  /\ Kernel.startTimeMs
       (Kernel.st
          (fst (Kernel.handle
                  (Kernel.onmessage 5100
                     (Kernel.SET_TIME (Some {| Kernel.seconds := 3600 |})))
                  kernelRunning)))
     = 5100
  /\ Store.Snapshot.totalSeconds
       (Store.snapshot
          (fst (Store.step (Store.Tick (5100 + 1000))
                  (fst (Store.setTime 3600 5100 5100 storeRunning)))))
     = (3600 * 1000 + 1000) / 1000
  /\ Kernel.startTimeMs
       (Kernel.st
          (fst (Kernel.handle
                  (Kernel.onmessage 5100
                     (Kernel.SET_TIME (Some {| Kernel.seconds := 3600 |})))
                  kernelReady)))
     = Kernel.startTimeMs (Kernel.st kernelReady)
  /\ Store.startTimeMs (fst (Store.setTime 3600 5100 5100 storeReady))
     = Store.startTimeMs storeReady
  /\ Kernel.lastRenderedSecond
       (Kernel.st
          (fst (Kernel.run
                  [Kernel.Message 100 Kernel.START;
                   Kernel.Message (100 + 5000)
                     (Kernel.SET_TIME (Some {| Kernel.seconds := 3600 |}));
                   Kernel.AnimationFrame (100 + 5000 + 1000)] kernelReady)))
     = 3601
  /\ Store.Snapshot.totalSeconds
       (Store.snapshot
          (fst (Store.run
                  [Store.Start 100 100;
                   Store.SetTime 3600 (100 + 5000) 5100;
                   Store.Tick (100 + 5000 + 1000)] storeReady)))
     = 3601.
Proof.
  destruct (C2_set_time_reanchors 3600 5100) as (K & S & _ & KE & SE).
  split; [reflexivity|]. split; [reflexivity|]. split; [lia|].
  split; [apply (K kernelRunning); reflexivity|].
  split.
  { destruct (S storeRunning 5100) as (_ & _ & Run & _).
    destruct (Run eq_refl) as (_ & After).
    destruct (After 1000) as (_ & _ & Pos). apply Pos. lia. }
  split; [apply (K kernelReady); reflexivity|].
  split; [apply (S storeReady 5100); reflexivity|].
  split; [apply (KE kernelReady 100); reflexivity|].
  apply (SE storeReady 100 100 5100); reflexivity.
Defined.

(** C3.  START on a running clock and PAUSE on a stopped clock leave the
    whole state as it is and have no effect, in the kernel's message
    handler and in the store's actions alike: the anchor is not taken
    again and nothing is added to the base a second time.  Hence two
    consecutive STARTs (whenever the second one comes) do what one does,
    and likewise two consecutive PAUSEs. *)
Theorem C3_start_pause_idempotent :
  (forall (now : Z) (k : Kernel.kernel),
      Kernel.isRunning (Kernel.st k) = true ->
      Kernel.handle (Kernel.onmessage now Kernel.START) k = (k, []))
  /\ (forall (now : Z) (k : Kernel.kernel),
        Kernel.isRunning (Kernel.st k) = false ->
        Kernel.handle (Kernel.onmessage now Kernel.PAUSE) k = (k, []))
  /\ (forall (t1 t2 : Z) (k : Kernel.kernel),
        Kernel.run [Kernel.Message t1 Kernel.START;
                    Kernel.Message t2 Kernel.START] k
        = Kernel.run [Kernel.Message t1 Kernel.START] k)
  /\ (forall (t1 t2 : Z) (k : Kernel.kernel),
        Kernel.run [Kernel.Message t1 Kernel.PAUSE;
                    Kernel.Message t2 Kernel.PAUSE] k
        = Kernel.run [Kernel.Message t1 Kernel.PAUSE] k)
  /\ (forall (now emitNow : Z) (s : Store.store),
        Store.isRunning s = true ->
        Store.start now emitNow s = (s, []))
  /\ (forall (now : Z) (s : Store.store),
        Store.isRunning s = false ->
        Store.pause now s = (s, []))
  /\ (forall (t1 e1 t2 e2 : Z) (s : Store.store),
        Store.run [Store.Start t1 e1; Store.Start t2 e2] s
        = Store.run [Store.Start t1 e1] s)
  /\ (forall (t1 t2 : Z) (s : Store.store),
        Store.run [Store.Pause t1; Store.Pause t2] s
        = Store.run [Store.Pause t1] s).
Proof.
  split; [exact START_running|].
  split; [exact PAUSE_stopped|].
  split.
  { intros t1 t2 k. rewrite (run_cons _ [_]). rewrite (run_cons _ []).
    set (k1 := fst (Kernel.step (Kernel.Message t1 Kernel.START) k)).
    assert (R : Kernel.isRunning (Kernel.st k1) = true).
    { subst k1. cbn [Kernel.step].
      destruct (Kernel.isRunning (Kernel.st k)) eqn:R.
      - now rewrite START_running.
      - destruct (START_stopped t1 k R) as (k' & E & C & _). rewrite E.
        cbn [fst]. unfold Kernel.clockOf in C. now injection C. }
    rewrite (run_cons _ []). cbn [Kernel.step]. rewrite (START_running t2 k1 R).
    reflexivity. }
  split.
  { intros t1 t2 k. rewrite (run_cons _ [_]). rewrite (run_cons _ []).
    set (k1 := fst (Kernel.step (Kernel.Message t1 Kernel.PAUSE) k)).
    assert (R : Kernel.isRunning (Kernel.st k1) = false).
    { subst k1. cbn [Kernel.step].
      destruct (Kernel.isRunning (Kernel.st k)) eqn:R.
      - destruct (PAUSE_running t1 k R) as (k' & E & C & _). rewrite E.
        cbn [fst]. unfold Kernel.clockOf in C. now injection C.
      - now rewrite PAUSE_stopped. }
    rewrite (run_cons _ []). cbn [Kernel.step]. rewrite (PAUSE_stopped t2 k1 R).
    reflexivity. }
  split; [exact start_running|].
  split; [exact pause_stopped|].
  split.
  { intros t1 e1 t2 e2 s.
    rewrite (store_run_cons _ [_]). rewrite (store_run_cons _ []).
    set (s1 := fst (Store.step (Store.Start t1 e1) s)).
    assert (R : Store.isRunning s1 = true).
    { subst s1. cbn [Store.step].
      destruct (Store.isRunning s) eqn:R.
      - now rewrite start_running.
      - now destruct (start_stopped t1 e1 s R) as (_ & _ & E & _). }
    rewrite (store_run_cons _ []). cbn [Store.step].
    rewrite (start_running t2 e2 s1 R). reflexivity. }
  { intros t1 t2 s.
    rewrite (store_run_cons _ [_]). rewrite (store_run_cons _ []).
    set (s1 := fst (Store.step (Store.Pause t1) s)).
    assert (R : Store.isRunning s1 = false).
    { subst s1. cbn [Store.step].
      destruct (Store.isRunning s) eqn:R.
      - now destruct (pause_running t1 s R) as (_ & _ & E & _).
      - now rewrite pause_stopped. }
    rewrite (store_run_cons _ []). cbn [Store.step].
    rewrite (pause_stopped t2 s1 R). reflexivity. }
Qed.

(** C3 on the sample kernel and store. *)
Lemma C3_start_pause_idempotent_witness :
  Kernel.handle (Kernel.onmessage 250 Kernel.START) kernelRunning
    = (kernelRunning, [])
  /\ Kernel.handle (Kernel.onmessage 250 Kernel.PAUSE) Kernel.initial
     = (Kernel.initial, [])
  /\ Store.start 250 250 storeRunning = (storeRunning, [])
  /\ Store.pause 250 storeReady = (storeReady, []).
Proof.
  destruct C3_start_pause_idempotent as (K1 & K2 & _ & _ & S1 & S2 & _).
  split; [apply K1; reflexivity|].
  split; [apply K2; reflexivity|].
  split; [apply S1; reflexivity | apply S2; reflexivity].
Defined.

(** C4.  One invocation of [loop] calls [paint] exactly when the clock is
    running and the whole second it computes differs from the second on
    record, and it then records that second; one TICK replaces the
    snapshot and calls the listeners exactly when the recomputed pair of
    second and running flag differs from the cached snapshot, which it
    then replaces.  Hence over any number of invocations that compute the
    same whole second, [paint] is called at most once, the snapshot is
    replaced at most once and each listener is called at most once. *)
Theorem C4_dirty_check_fires_at_most_once :
  (forall (now : Z) (k : Kernel.kernel),
      let currentSecond :=
        (Kernel.baseTimeMs (Kernel.st k)
         + (now - Kernel.startTimeMs (Kernel.st k))) / 1000 in
      let fires :=
        Kernel.isRunning (Kernel.st k)
        && negb (currentSecond =? Kernel.lastRenderedSecond (Kernel.st k)) in
      Kernel.paintCalls (snd (Kernel.handle (Kernel.loop now) k))
        = (if fires then [currentSecond] else [])
      /\ Kernel.lastRenderedSecond
           (Kernel.st (fst (Kernel.handle (Kernel.loop now) k)))
         = (if fires then currentSecond
            else Kernel.lastRenderedSecond (Kernel.st k)))
  /\ (forall (nows : list Z) (k : Kernel.kernel) (c : Z),
        (forall now, In now nows ->
           (Kernel.baseTimeMs (Kernel.st k)
            + (now - Kernel.startTimeMs (Kernel.st k))) / 1000 = c) ->
        (List.length (Kernel.paintCalls (snd (Kernel.loops nows k))) <= 1)%nat)
  /\ (forall (now : Z) (s : Store.store),
        let newState := Store.calculateState now s in
        let fires := Store.visiblyDiffers newState (Store.snapshot s) in
        Store.step (Store.Tick now) s
        = (if fires
           then (Store.setSnapshot newState s,
                 Store.SnapshotReplaced newState
                   :: map Store.Notify (Store.listeners s))
           else (s, []))
        /\ (fires = true <->
            Store.Snapshot.totalSeconds newState
              <> Store.Snapshot.totalSeconds (Store.snapshot s)
            \/ Store.Snapshot.isRunning newState
              <> Store.Snapshot.isRunning (Store.snapshot s)))
  /\ (forall (nows : list Z) (s : Store.store) (c : Z),
        (forall now, In now nows ->
           Store.Snapshot.totalSeconds (Store.calculateState now s) = c) ->
        (List.length
           (Store.replacements (snd (Store.run (map Store.Tick nows) s)))
         <= 1)%nat
        /\ (List.length
              (Store.notifications (snd (Store.run (map Store.Tick nows) s)))
            <= List.length (Store.listeners s))%nat).
Proof.
  split; [|split; [|split]].
  - intros now k c fires.
    destruct (loop_clock now k) as (k1 & fx1 & E & _ & _ & _ & L & P).
    rewrite E. cbn [fst snd]. fold c in L, P. split; [exact P|].
    rewrite L. subst fires.
    destruct (Kernel.isRunning (Kernel.st k)); [|reflexivity].
    cbn [andb]. destruct (Z.eqb_spec c (Kernel.lastRenderedSecond (Kernel.st k)));
      cbn [negb]; congruence.
  - intros nows k c H. now apply (loops_paint_at_most_once nows k c).
  - intros now s newState fires. split.
    + rewrite step_Tick.
      cbv beta zeta delta [Store.emitChange]. fold newState. fold fires.
      now destruct fires.
    + subst fires. destruct (Store.visiblyDiffers newState (Store.snapshot s)) eqn:V.
      * split; [intros _ | reflexivity].
        destruct (Z.eq_dec (Store.Snapshot.totalSeconds newState)
                    (Store.Snapshot.totalSeconds (Store.snapshot s))) as [E1|N1];
          [|now left].
        right. intros E2.
        assert (F : Store.visiblyDiffers newState (Store.snapshot s) = false)
          by (apply visiblyDiffers_false; now split).
        congruence.
      * apply visiblyDiffers_false in V. destruct V as [V1 V2].
        split; [discriminate|]. intros [N|N]; contradiction.
  - intros nows s c H. now apply (ticks_notify_at_most_once nows c).
Qed.

(** C4 on four frames and four ticks that all compute second 1. *)
Lemma C4_dirty_check_fires_at_most_once_witness :
  (forall now, In now frameTimes ->
     (Kernel.baseTimeMs (Kernel.st kernelRunning)
      + (now - Kernel.startTimeMs (Kernel.st kernelRunning))) / 1000 = 1)
  /\ (List.length
        (Kernel.paintCalls
           (snd (Kernel.loops frameTimes kernelRunning))) <= 1)%nat
  /\ (forall now, In now tickTimes ->
        Store.Snapshot.totalSeconds (Store.calculateState now storeRunning) = 1)
  /\ (List.length
        (Store.replacements
           (snd (Store.run (map Store.Tick tickTimes)
                   storeRunning))) <= 1)%nat.
Proof.
  destruct C4_dirty_check_fires_at_most_once as (_ & K & _ & S).
  assert (HK : forall now, In now frameTimes ->
                 (Kernel.baseTimeMs (Kernel.st kernelRunning)
                  + (now - Kernel.startTimeMs (Kernel.st kernelRunning)))
                 / 1000 = 1).
  { intros now [<-|[<-|[<-|[<-|[]]]]]; reflexivity. }
  assert (HS : forall now, In now tickTimes ->
                 Store.Snapshot.totalSeconds
                   (Store.calculateState now storeRunning) = 1).
  { intros now [<-|[<-|[<-|[<-|[]]]]]; reflexivity. }
  split; [exact HK|].
  split; [exact (K _ kernelRunning 1 HK)|].
  split; [exact HS|].
  exact (proj1 (S _ storeRunning 1 HS)).
Defined.

(** C5.  Started at a total of zero and adjusted by -10 seconds within the
    first second, a kernel that can draw calls [paint] with -10 and draws
    [-00:00:10]: a negative total keeps its sign and is composed from its
    absolute value.  The store reports [max(0, floor(totalMs / 1000))]
    seconds, so for every total below one second, negative ones included,
    it reports 0 and displays [00:00:00]; brought to the same total of -10
    seconds it displays [00:00:00]. *)
Theorem C5_negative_time_kernel_signed_store_clamped :
  (forall (k : Kernel.kernel) (t0 t1 : Z),
      Kernel.isRunning (Kernel.st k) = false ->
      Kernel.baseTimeMs (Kernel.st k) = 0 ->
      Kernel.canDraw k = true ->
      t0 <= t1 < t0 + 1000 ->
      let fx :=
        snd (Kernel.handle
               (Kernel.onmessage t1
                  (Kernel.ADJUST_TIME (Some {| Kernel.deltaSeconds := -10 |})))
               (fst (Kernel.handle (Kernel.onmessage t0 Kernel.START) k))) in
      Kernel.paintCalls fx = [-10]
      /\ Kernel.paintedTexts fx = ["-00:00:10"%string])
  /\ (forall s : Z, s < 0 ->
        Kernel.timeText s = String "-" (Kernel.timeText (- s)))
  /\ (forall (now : Z) (s : Store.store),
        Store.Snapshot.totalSeconds (Store.calculateState now s)
        = Z.max 0 (Store.totalMs now s / 1000)
        /\ Store.Snapshot.displayTime (Store.calculateState now s)
           = formatTime (Z.max 0 (Store.totalMs now s / 1000)))
  /\ (forall (now : Z) (s : Store.store),
        Store.totalMs now s < 1000 ->
        Store.Snapshot.totalSeconds (Store.calculateState now s) = 0
        /\ Store.Snapshot.displayTime (Store.calculateState now s)
           = "00:00:00"%string)
  /\ (forall (s : Store.store) (t0 e0 t1 e1 : Z),
        Store.isRunning s = false ->
        t1 <= e1 < t1 + 1000 ->
        let s' := fst (Store.run [Store.Start t0 e0;
                                  Store.SetTime (-10) t1 e1] s) in
        Store.totalMs e1 s' = -10 * 1000 + (e1 - t1)
        /\ Store.Snapshot.totalSeconds (Store.snapshot s') = 0).
Proof.
  split; [|split; [|split; [|split]]].
  - intros k t0 t1 R B D Ht fx.
    destruct (START_stopped t0 k R) as (k1 & E1 & C1 & _).
    pose proof (canDraw_START t0 k) as D1. rewrite E1 in D1. cbn [fst] in D1.
    subst fx. rewrite E1. cbn [fst].
    unfold Kernel.clockOf in C1. injection C1 as B1 S1 R1 _.
    destruct (ADJUST_TIME_payload t1 {| Kernel.deltaSeconds := -10 |} k1)
      as (k2 & fx2 & E2 & _ & P & T).
    rewrite E2. cbn [snd]. cbn [Kernel.deltaSeconds] in P, T.
    rewrite R1, B1, S1, B, D1, D in *.
    assert (N : (0 + -10 * 1000 + (t1 - t0)) / 1000 = -10).
    { replace (0 + -10 * 1000 + (t1 - t0)) with (-10 * 1000 + (t1 - t0)) by lia.
      rewrite Z.div_add_l by lia. rewrite Z.div_small by lia. reflexivity. }
    rewrite N in P, T. split; [exact P | exact T].
  - exact timeText_negative.
  - intros now s. split;
      [apply calculateState_totalSeconds | apply calculateState_displayTime].
  - intros now s H.
    rewrite calculateState_totalSeconds, calculateState_displayTime.
    assert (M : Z.max 0 (Store.totalMs now s / 1000) = 0).
    { apply Z.max_l.
      destruct (Z.lt_ge_cases (Store.totalMs now s) 0).
      - assert (Store.totalMs now s / 1000 < 0)
          by (apply Z.div_lt_upper_bound; lia). lia.
      - rewrite Z.div_small by lia. lia. }
    rewrite M. split; reflexivity.
  - intros s t0 e0 t1 e1 R Ht s'.
    subst s'. rewrite store_run_cons. cbn [fst].
    change (Store.step (Store.Start t0 e0) s) with (Store.start t0 e0 s).
    destruct (start_stopped t0 e0 s R) as (_ & _ & R1 & _).
    set (s1 := fst (Store.start t0 e0 s)) in *.
    rewrite store_run_cons. cbn [fst Store.run].
    change (Store.step (Store.SetTime (-10) t1 e1) s1)
      with (Store.setTime (-10) t1 e1 s1).
    destruct (setTime_state (-10) t1 e1 s1) as (B2 & S2 & R2 & _ & _ & T2 & _).
    rewrite R1 in *. split.
    + unfold Store.totalMs. rewrite R2, B2, S2. lia.
    + rewrite T2. apply Z.max_l.
      assert ((-10 * 1000 + (e1 - t1)) / 1000 < 0)
        by (apply Z.div_lt_upper_bound; lia). lia.
Qed.

(** C5 on the sample kernel and store, adjusted at the instant of START. *)
Lemma C5_negative_time_kernel_signed_store_clamped_witness :
  Kernel.isRunning (Kernel.st kernelReady) = false
  /\ Kernel.baseTimeMs (Kernel.st kernelReady) = 0
  /\ Kernel.canDraw kernelReady = true
  /\ 100 <= 100 < 100 + 1000
  /\ Kernel.paintedTexts
       (snd (Kernel.handle
               (Kernel.onmessage 100
                  (Kernel.ADJUST_TIME (Some {| Kernel.deltaSeconds := -10 |})))
               (fst (Kernel.handle (Kernel.onmessage 100 Kernel.START)
                       kernelReady))))
     = ["-00:00:10"%string]
  /\ -10 < 0
  /\ Kernel.timeText (-10) = String "-" (Kernel.timeText (- -10))
  /\ Store.totalMs 100
       (fst (Store.run [Store.Start 100 100; Store.SetTime (-10) 100 100]
               storeReady)) < 1000
  /\ Store.Snapshot.displayTime
       (Store.calculateState 100
          (fst (Store.run [Store.Start 100 100; Store.SetTime (-10) 100 100]
                  storeReady)))
     = "00:00:00"%string
  /\ Store.isRunning storeReady = false
  /\ Store.Snapshot.totalSeconds
       (Store.snapshot
          (fst (Store.run [Store.Start 100 100; Store.SetTime (-10) 100 100]
                  storeReady)))
     = 0.
Proof.
  destruct C5_negative_time_kernel_signed_store_clamped
    as (K & N & _ & C & S).
  split; [reflexivity|]. split; [reflexivity|]. split; [reflexivity|].
  split; [lia|].
  split; [apply (K kernelReady 100 100); [reflexivity..|lia]|].
  split; [lia|].
  split; [apply N; lia|].
  split; [reflexivity|].
  split; [apply C; reflexivity|].
  split; [reflexivity|].
  apply (S storeReady 100 100 100 100); [reflexivity | lia].
Defined.

(** C6, the claim fails: on a stopped store that displays 5 seconds and
    has a listener, [setTime(5)] replaces no snapshot and calls no
    listener; [emitChange] finds the pair of second and flag unchanged. *)
Lemma C6_setTime_same_second_notifies_nobody :
  let s := fst (Store.setTime 5 0 0 storeReady) in
  Store.listeners s = [1%nat]
  /\ Store.isRunning s = false
  /\ Store.Snapshot.totalSeconds (Store.snapshot s) = 5
  /\ Store.Snapshot.isRunning (Store.snapshot s) = false
  /\ Store.setTime 5 200 200 s = (s, [])
  /\ Store.replacements (snd (Store.setTime 5 200 200 s)) = []
  /\ Store.notifications (snd (Store.setTime 5 200 200 s)) = [].
Proof. cbv. repeat split. Qed.

(** C6, amended.  [setTime], and [start] and [pause] when they do not
    return early, recompute the snapshot at once, through [emitChange] and
    its dirty check: the snapshot is replaced and every listener is called
    exactly when the recomputed pair of second and running flag differs
    from the cached snapshot.  [start] on a stopped store and [pause] on a
    running one flip the flag, so they always replace the snapshot and
    call every listener.  [setTime(n)] replaces nothing and calls nobody
    exactly when the second it computes, [max(0, floor(total / 1000))],
    is the second of the cached snapshot; in particular when [n] is not
    negative and is the whole second already displayed, on a stopped
    store, and on a running store when [emitChange] reads the clock less
    than a second after the new anchor.  [start] on a running store and
    [pause] on a stopped one do nothing at all.  (The snapshot of every
    reachable store carries the store's running flag.) *)
Theorem C6_actions_pass_the_dirty_check :
  (forall (n now emitNow : Z) (s : Store.store),
      let s2 :=
        if Store.isRunning s
        then Store.setStartTimeMs now (Store.setBaseDurationMs (n * 1000) s)
        else Store.setBaseDurationMs (n * 1000) s in
      let newState := Store.calculateState emitNow s2 in
      Store.setTime n now emitNow s
      = (if Store.visiblyDiffers newState (Store.snapshot s)
         then (Store.setSnapshot newState s2,
               Store.SnapshotReplaced newState
                 :: map Store.Notify (Store.listeners s))
         else (s2, [])))
  /\ (forall (now emitNow : Z) (s : Store.store),
        Store.isRunning s = false ->
        Store.synced s ->
        let s1 := Store.setStartTimeMs now (Store.setIsRunning true s) in
        let newState := Store.calculateState emitNow s1 in
        Store.start now emitNow s
        = (Store.setSnapshot newState s1,
           Store.postMessage "START" s
             ++ Store.SnapshotReplaced newState
                  :: map Store.Notify (Store.listeners s)))
  /\ (forall (now : Z) (s : Store.store),
        Store.isRunning s = true ->
        Store.synced s ->
        let s2 :=
          Store.setIsRunning false
            (Store.setBaseDurationMs
               (Store.baseDurationMs s + (now - Store.startTimeMs s)) s) in
        let newState := Store.calculateState now s2 in
        Store.pause now s
        = (Store.setSnapshot newState s2,
           Store.postMessage "STOP" s
             ++ Store.SnapshotReplaced newState
                  :: map Store.Notify (Store.listeners s)))
  /\ (forall (n now emitNow : Z) (s : Store.store),
        Store.synced s ->
        Store.Snapshot.totalSeconds (Store.snapshot s) = n ->
        0 <= n ->
        (Store.isRunning s = true -> now <= emitNow < now + 1000) ->
        snd (Store.setTime n now emitNow s) = []
        /\ Store.snapshot (fst (Store.setTime n now emitNow s))
           = Store.snapshot s)
  /\ (forall (now emitNow : Z) (s : Store.store),
        Store.isRunning s = true -> Store.start now emitNow s = (s, []))
  /\ (forall (now : Z) (s : Store.store),
        Store.isRunning s = false -> Store.pause now s = (s, []))
  /\ (forall (es : list Store.event) (initialSeconds : Z),
        Store.synced (fst (Store.run es (Store.create initialSeconds))))
  /\ (forall (n now emitNow : Z) (s : Store.store),
        Store.synced s ->
        (snd (Store.setTime n now emitNow s) = []
         <-> Z.max 0
               ((if Store.isRunning s then n * 1000 + (emitNow - now)
                 else n * 1000) / 1000)
             = Store.Snapshot.totalSeconds (Store.snapshot s))).
Proof.
  split; [|split; [|split; [|split; [|split; [|split; [|split]]]]]].
  - intros n now emitNow s s2 newState.
    unfold Store.setTime. cbn [Store.isRunning Store.setBaseDurationMs].
    fold s2. cbv beta zeta delta [Store.emitChange]. fold newState.
    assert (E : Store.snapshot s2 = Store.snapshot s
                /\ Store.listeners s2 = Store.listeners s)
      by (subst s2; destruct (Store.isRunning s); now split).
    destruct E as [-> ->]. reflexivity.
  - intros now emitNow s R Sy s1 newState.
    unfold Store.start. rewrite R. fold s1.
    cbv beta zeta delta [Store.emitChange]. fold newState.
    rewrite visiblyDiffers_flag; [reflexivity|].
    unfold Store.synced in Sy. subst newState s1. cbn. rewrite Sy, R.
    discriminate.
  - intros now s R Sy s2 newState.
    unfold Store.pause. rewrite R. cbn [negb]. fold s2.
    cbv beta zeta delta [Store.emitChange]. fold newState.
    rewrite visiblyDiffers_flag; [reflexivity|].
    unfold Store.synced in Sy. subst newState s2. cbn. rewrite Sy, R.
    discriminate.
  - intros n now emitNow s Sy T Hn Hrun.
    unfold Store.setTime. cbn [Store.isRunning Store.setBaseDurationMs].
    set (s2 := if Store.isRunning s then _ else _).
    assert (E : Store.snapshot s2 = Store.snapshot s
                /\ Store.isRunning s2 = Store.isRunning s)
      by (subst s2; destruct (Store.isRunning s) eqn:R; cbn; rewrite ?R;
          now split).
    destruct E as [E1 E2].
    assert (V : Store.visiblyDiffers (Store.calculateState emitNow s2)
                  (Store.snapshot s2) = false).
    { apply visiblyDiffers_false. rewrite E1. split.
      - rewrite calculateState_totalSeconds, T. unfold Store.totalMs.
        rewrite E2. subst s2. destruct (Store.isRunning s) eqn:R; cbn.
        + specialize (Hrun eq_refl).
          replace (n * 1000 + (emitNow - now)) with (emitNow - now + n * 1000)
            by lia.
          rewrite Z.div_add by lia. rewrite Z.div_small by lia. lia.
        + rewrite Z.div_mul by lia. lia.
      - unfold Store.synced in Sy. rewrite Sy. cbn. exact E2. }
    cbv beta zeta delta [Store.emitChange]. rewrite V. cbn [fst snd].
    split; [reflexivity | exact E1].
  - exact start_running.
  - exact pause_stopped.
  - intros es n. apply run_synced. reflexivity.
  - intros n now emitNow s Sy.
    unfold Store.setTime. cbn [Store.isRunning Store.setBaseDurationMs].
    set (s2 := if Store.isRunning s then _ else _).
    assert (E1 : Store.snapshot s2 = Store.snapshot s)
      by (subst s2; now destruct (Store.isRunning s)).
    assert (E2 : Store.isRunning s2 = Store.isRunning s)
      by (subst s2; destruct (Store.isRunning s) eqn:R; cbn; now rewrite ?R).
    assert (E3 : Store.Snapshot.totalSeconds (Store.calculateState emitNow s2)
                 = Z.max 0
                     ((if Store.isRunning s then n * 1000 + (emitNow - now)
                       else n * 1000) / 1000)).
    { rewrite calculateState_totalSeconds. unfold Store.totalMs. rewrite E2.
      subst s2. now destruct (Store.isRunning s). }
    rewrite <- E3, emitChange_effects.
    destruct (Store.visiblyDiffers _ _) eqn:V.
    + split; [discriminate|]. intros Q. exfalso.
      assert (V' : Store.visiblyDiffers (Store.calculateState emitNow s2)
                     (Store.snapshot s2) = false).
      { apply visiblyDiffers_false. rewrite E1. split; [exact Q|].
        unfold Store.synced in Sy. rewrite Sy. exact E2. }
      rewrite V' in V. discriminate V.
    + split; [|reflexivity]. intros _.
      apply visiblyDiffers_false in V. rewrite E1 in V. exact (proj1 V).
Qed.

(** C6 on the sample store, stopped and running, and on a store created
    with ten seconds below zero, where [setTime(-10)] replaces the
    snapshot although it displays [-10]: the second computed is 0. *)
Lemma C6_actions_pass_the_dirty_check_witness :
  Store.isRunning storeReady = false
  /\ Store.synced storeReady
  /\ Store.notifications (snd (Store.start 100 100 storeReady)) = [1%nat]
  /\ Store.isRunning storeRunning = true
  /\ Store.synced storeRunning
  /\ Store.notifications (snd (Store.pause 5100 storeRunning)) = [1%nat]
  /\ Store.Snapshot.totalSeconds (Store.snapshot storeRunning) = 0
  /\ 0 <= 0
  /\ (Store.isRunning storeRunning = true -> 5100 <= 5200 < 5100 + 1000)
  /\ snd (Store.setTime 0 5100 5200 storeRunning) = []
  /\ Store.start 5100 5100 storeRunning = (storeRunning, [])
  /\ Store.pause 5100 storeReady = (storeReady, [])
  /\ Store.synced (Store.create (-10))
  /\ Store.Snapshot.totalSeconds (Store.snapshot (Store.create (-10))) = -10
  /\ snd (Store.setTime (-10) 0 0 (Store.create (-10))) <> [].
Proof.
  destruct C6_actions_pass_the_dirty_check
    as (_ & St & Pa & Same & SR & PS & _ & Exact).
  split; [reflexivity|]. split; [reflexivity|].
  split; [rewrite (St 100 100 storeReady eq_refl eq_refl); reflexivity|].
  split; [reflexivity|]. split; [reflexivity|].
  split; [rewrite (Pa 5100 storeRunning eq_refl eq_refl); reflexivity|].
  split; [reflexivity|]. split; [lia|].
  split; [intros _; lia|].
  split; [apply (Same 0 5100 5200 storeRunning);
          [reflexivity | reflexivity | lia | intros _; lia]|].
  split; [apply SR; reflexivity|]. split; [apply PS; reflexivity|].
  split; [reflexivity|]. split; [reflexivity|].
  intros Q.
  apply (Exact (-10) 0 0 (Store.create (-10)) eq_refl) in Q.
  discriminate Q.
Defined.




(** C8.  When the construction of the worker throws (or the blob or its
    URL cannot be made), the exception does not leave the effect: the
    failure is logged with [console.error], the store is exactly as it was
    created, with the initial snapshot (the initial seconds, not running)
    and no worker.  Whatever [start], [pause], [setTime] calls and ticks
    follow, the store never gets a worker, no message is posted, and the
    only effects are replacements of the snapshot and calls of listeners;
    the actions still act on the local state, [start] for instance sets
    the running flag. *)
Theorem C8_worker_failure_degrades_gracefully :
  forall (initialSeconds : Z) (h : Store.host),
    match h with
    | Store.WorkerConstructs _ => True
    | _ =>
        let s := fst (fst (Store.mount h (Store.create initialSeconds))) in
        let fx := snd (Store.mount h (Store.create initialSeconds)) in
        fx = [Store.ConsoleError "Clock Worker Init Failed:"]
        /\ s = Store.create initialSeconds
        /\ Store.getSnapshot s
           = {| Store.Snapshot.displayTime := formatTime initialSeconds;
                Store.Snapshot.totalSeconds := initialSeconds;
                Store.Snapshot.isRunning := false |}
        /\ Store.isRunning s = false
        /\ Store.worker s = None
        /\ (forall es : list Store.event,
              Store.worker (fst (Store.run es s)) = None
              /\ Store.posted (snd (Store.run es s)) = []
              /\ Forall (fun e => match e with
                                  | Store.SnapshotReplaced _
                                  | Store.Notify _ => True
                                  | _ => False
                                  end) (snd (Store.run es s)))
        /\ (forall now emitNow : Z,
              Store.isRunning (fst (Store.start now emitNow s)) = true
              /\ Store.startTimeMs (fst (Store.start now emitNow s)) = now
              /\ Store.posted (snd (Store.start now emitNow s)) = [])
        /\ (forall n now emitNow : Z,
              Store.baseDurationMs (fst (Store.setTime n now emitNow s))
              = n * 1000
              /\ Store.posted (snd (Store.setTime n now emitNow s)) = [])
    end.
Proof.
  intros n h.
  assert (G : let s := Store.create n in
              (forall es : list Store.event,
                  Store.worker (fst (Store.run es s)) = None
                  /\ Store.posted (snd (Store.run es s)) = []
                  /\ Forall (fun e => match e with
                                      | Store.SnapshotReplaced _
                                      | Store.Notify _ => True
                                      | _ => False
                                      end) (snd (Store.run es s)))
              /\ (forall now emitNow : Z,
                     Store.isRunning (fst (Store.start now emitNow s)) = true
                     /\ Store.startTimeMs (fst (Store.start now emitNow s)) = now
                     /\ Store.posted (snd (Store.start now emitNow s)) = [])
              /\ (forall m now emitNow : Z,
                     Store.baseDurationMs (fst (Store.setTime m now emitNow s))
                     = m * 1000
                     /\ Store.posted (snd (Store.setTime m now emitNow s)) = [])).
  { intros s. split; [|split].
    - intros es.
      destruct (run_without_worker es s eq_refl) as (W & L & P).
      now repeat split.
    - intros now emitNow.
      destruct (start_stopped now emitNow s eq_refl) as (_ & S & R & _).
      split; [exact R|]. split; [exact S|].
      destruct (run_without_worker [Store.Start now emitNow] s eq_refl)
        as (_ & _ & P).
      rewrite store_run_cons in P. cbn [snd Store.run] in P.
      now rewrite app_nil_r in P.
    - intros m now emitNow.
      destruct (setTime_state m now emitNow s) as (B & _).
      split; [exact B|]. apply emitChange_posts_nothing. }
  destruct h; [| | |exact I]; cbn [Store.mount fst snd];
    (split; [reflexivity|]); (split; [reflexivity|]);
    (split; [reflexivity|]); (split; [reflexivity|]);
    (split; [reflexivity|]); exact G.
Qed.

(** C9.  For every signed display second, the string [paint] composes is
    the sign (only for a negative value) followed by three entries of the
    lookup table: entry [floor(abs s / 3600) mod 60] for the hours, entry
    [floor((abs s mod 3600) / 60)] for the minutes and entry
    [abs s mod 60] for the seconds.  Each entry is its index printed on
    exactly two digits, so the hours wrap at 60: a total of 60 hours
    paints [00:00:00].  A kernel that can draw (it has a context, a
    surface that is not empty and a configuration) draws exactly this
    string when [paint] is called, and a kernel that cannot draws no
    text. *)
Theorem C9_kernel_hours_wrap_modulo_60 :
  forall s : Z,
    let a := Z.abs s in
    let h := (a / 3600) mod 60 in
    let m := (a mod 3600) / 60 in
    let sec := a mod 60 in
    let two n := JS.padStart 2 "0" (JS.toString n) in
    Kernel.timeText s =
      ((if (s <? 0)%Z then "-" else EmptyString) ++
       two h ++ ":" ++ two m ++ ":" ++ two sec)%string
    /\ JS.index Kernel.DIGITS h = Some (two h)
    /\ JS.index Kernel.DIGITS m = Some (two m)
    /\ JS.index Kernel.DIGITS sec = Some (two sec)
    /\ String.length (two h) = 2%nat
    /\ String.length (two m) = 2%nat
    /\ String.length (two sec) = 2%nat
    /\ JS.valueOf (two h) = h
    /\ JS.valueOf (two m) = m
    /\ JS.valueOf (two sec) = sec
    /\ Kernel.timeText (60 * 3600) = "00:00:00"%string
    /\ (forall k : Kernel.kernel,
          Kernel.paintedTexts (snd (Kernel.paint s k)) = [Kernel.timeText s]
          \/ Kernel.paintedTexts (snd (Kernel.paint s k)) = [])
    /\ (forall k : Kernel.kernel,
          Kernel.canDraw k = true ->
          Kernel.paintedTexts (snd (Kernel.paint s k)) = [Kernel.timeText s])
    /\ (forall k : Kernel.kernel,
          Kernel.canDraw k = false ->
          Kernel.paintedTexts (snd (Kernel.paint s k)) = []).
Proof.
  intros s a h m sec two.
  destruct (hoursIndex_spec s) as [Eh Bh].
  destruct (minutesIndex_spec s) as [Em Bm].
  destruct (secondsIndex_spec s) as [Es Bs].
  fold a in Eh, Em, Es. fold h in Eh. fold m in Em. fold sec in Es.
  rewrite Eh in Bh. rewrite Em in Bm. rewrite Es in Bs.
  pose proof (DIGITS_index h Bh) as Ih.
  pose proof (DIGITS_index m Bm) as Im.
  pose proof (DIGITS_index sec Bs) as Is.
  repeat split; try assumption.
  - unfold Kernel.timeText. rewrite Eh, Em, Es, Ih, Im, Is. reflexivity.
  - apply pad2_width_below_100; lia.
  - apply pad2_width_below_100; lia.
  - apply pad2_width_below_100; lia.
  - apply valueOf_pad2; lia.
  - apply valueOf_pad2; lia.
  - apply valueOf_pad2; lia.
  - intros k. rewrite paint_texts.
    destruct (Kernel.ctx k && negb (Kernel.width (Kernel.st k) =? 0)
              && negb (Kernel.height (Kernel.st k) =? 0)); [|now right].
    destruct (Kernel.config (Kernel.st k)); [now left | now right].
  - intros k D. destruct (paint_run s k) as (r & fx & E & _ & T).
    rewrite E. cbn [snd]. now rewrite T, D.
  - intros k D. destruct (paint_run s k) as (r & fx & E & _ & T).
    rewrite E. cbn [snd]. now rewrite T, D.
Qed.

(** C9 on the sample kernel, which can draw: sixty hours are painted as
    [00:00:00], and sixty hours less a second as [59:59:59]. *)
Lemma C9_kernel_hours_wrap_modulo_60_witness :
  Kernel.canDraw kernelReady = true
  /\ Kernel.paintedTexts (snd (Kernel.paint (60 * 3600) kernelReady))
     = ["00:00:00"%string]
  /\ Kernel.paintedTexts (snd (Kernel.paint (60 * 3600 - 1) kernelReady))
     = ["59:59:59"%string]
  /\ Kernel.canDraw Kernel.initial = false
  /\ Kernel.paintedTexts (snd (Kernel.paint (60 * 3600) Kernel.initial)) = [].
Proof.
  split; [reflexivity|].
  split.
  { destruct (C9_kernel_hours_wrap_modulo_60 (60 * 3600))
      as (_ & _ & _ & _ & _ & _ & _ & _ & _ & _ & _ & _ & D & _).
    rewrite (D kernelReady eq_refl). reflexivity. }
  split.
  { destruct (C9_kernel_hours_wrap_modulo_60 (60 * 3600 - 1))
      as (_ & _ & _ & _ & _ & _ & _ & _ & _ & _ & _ & _ & D & _).
    rewrite (D kernelReady eq_refl). reflexivity. }
  split; [reflexivity|].
  destruct (C9_kernel_hours_wrap_modulo_60 (60 * 3600))
    as (_ & _ & _ & _ & _ & _ & _ & _ & _ & _ & _ & _ & _ & N).
  exact (N Kernel.initial eq_refl).
Defined.

(** C10, the claim fails: one hundred hours are displayed with a
    three-digit hours field, [padStart] pads but never cuts.  The store
    reports this value after [setTime(360000)]. *)
Lemma C10_hundred_hours_take_three_digits :
  formatTime 360000 = "100:00:00"%string
  /\ String.length (formatTime_hours 360000) = 3%nat
  /\ Store.Snapshot.displayTime
       (Store.snapshot (fst (Store.setTime 360000 0 0 (Store.create 0))))
     = "100:00:00"%string
  /\ ~ (forall t : Z, 0 <= t -> String.length (formatTime_hours t) = 2%nat).
Proof.
  repeat split; try reflexivity.
  intros H. specialize (H 360000 ltac:(lia)). discriminate H.
Qed.

(** C10, amended.  For every non-negative [totalSeconds], [formatTime]
    yields three zero-padded decimal fields separated by colons, holding
    [floor(t / 3600)], [floor((t mod 3600) / 60)] and [t mod 60].  The
    minutes and the seconds field are exactly two digits wide.  The hours
    field is exactly two digits wide below 100 hours; from 100 hours
    (360000 seconds) on it is the unpadded hour count, three digits or
    more. *)
Theorem C10_formatTime_field_widths :
  forall t : Z,
    0 <= t ->
    formatTime t =
      (formatTime_hours t ++ ":" ++ formatTime_minutes t ++ ":" ++
       formatTime_seconds t)%string
    /\ JS.valueOf (formatTime_hours t) = t / 3600
    /\ JS.valueOf (formatTime_minutes t) = (t mod 3600) / 60
    /\ JS.valueOf (formatTime_seconds t) = t mod 60
    /\ String.length (formatTime_minutes t) = 2%nat
    /\ String.length (formatTime_seconds t) = 2%nat
    /\ (t < 360000 -> String.length (formatTime_hours t) = 2%nat)
    /\ (360000 <= t ->
        (3 <= String.length (formatTime_hours t))%nat
        /\ formatTime_hours t = JS.toString (t / 3600)).
Proof.
  intros t Ht.
  split; [apply formatTime_fields|].
  unfold formatTime_hours, formatTime_minutes, formatTime_seconds.
  rewrite !Z.rem_mod_nonneg by lia.
  assert (Hh : 0 <= t / 3600) by (apply Z.div_pos; lia).
  pose proof (Z.mod_pos_bound t 3600 ltac:(lia)) as B1.
  pose proof (Z.mod_pos_bound t 60 ltac:(lia)) as B2.
  assert (Hm : 0 <= t mod 3600 / 60 < 60).
  { split; [apply Z.div_pos; lia | apply Z.div_lt_upper_bound; lia]. }
  split; [apply valueOf_pad2; lia|].
  split; [apply valueOf_pad2; lia|].
  split; [apply valueOf_pad2; lia|].
  split; [apply pad2_width_below_100; lia|].
  split; [apply pad2_width_below_100; lia|].
  split.
  - intros Hlt. apply pad2_width_below_100.
    split; [assumption | apply Z.div_lt_upper_bound; lia].
  - intros Hge. apply pad2_width_from_100.
    apply Z.div_le_lower_bound; lia.
Qed.

(** C10 at one hundred hours. *)
Lemma C10_formatTime_field_widths_witness :
  0 <= 360000
  /\ (formatTime 360000 =
        (formatTime_hours 360000 ++ ":" ++ formatTime_minutes 360000 ++ ":" ++
         formatTime_seconds 360000)%string
      /\ JS.valueOf (formatTime_hours 360000) = 360000 / 3600
      /\ JS.valueOf (formatTime_minutes 360000) = (360000 mod 3600) / 60
      /\ JS.valueOf (formatTime_seconds 360000) = 360000 mod 60
      /\ String.length (formatTime_minutes 360000) = 2%nat
      /\ String.length (formatTime_seconds 360000) = 2%nat
      /\ (360000 < 360000 -> String.length (formatTime_hours 360000) = 2%nat)
      /\ (360000 <= 360000 ->
          (3 <= String.length (formatTime_hours 360000))%nat
          /\ formatTime_hours 360000 = JS.toString (360000 / 3600))).
Proof.
  split; [lia | apply (C10_formatTime_field_widths 360000); lia].
Defined.

(* ------------------------------------------------------------------ *)
(** * What each kernel handler leaves behind *)
(* ------------------------------------------------------------------ *)

Lemma paint_eq (x : Z) (k : Kernel.kernel) :
  Kernel.paint x k = (fst (fst (Kernel.paint x k)), k, snd (Kernel.paint x k)).
Proof.
  pose proof (paint_state x k) as S.
  destruct (Kernel.paint x k) as [[r k'] fx]. cbn [fst snd] in *. now subst.
Qed.

(** Splits the [paint] call a handler ends with into its result, the
    state it does not touch, and its effects. *)
Ltac paint_factor :=
  match goal with
  | |- context [Kernel.paint ?x ?k1] =>
      let E := fresh "E" in
      rewrite (paint_eq x k1) at 1;
      destruct (fst (fst (Kernel.paint x k1))) as [[]|] eqn:E;
      try (rewrite (paint_eq x k1) at 2; rewrite E)
  end.

Section KernelOutcomes.

Import Kernel KernelRun.

(** [INIT] with a payload: the assignments, then [paint]. *)
Lemma onmessage_INIT (now : Z) (p : initPayload) (k : kernel) :
  onmessage now (INIT (Some p)) k =
  paint (initialSeconds p)
    (withState (setLastRenderedSecond (initialSeconds p))
       (withState (setBaseTimeMs (initialSeconds p * 1000))
          (withState (setConfig (Some (init_config p)))
             (setCanvas (Some (init_canvas p)) (has2d (init_canvas p)) k)))).
Proof. kernel_unfold. paint_factor; reflexivity. Qed.

Lemma onmessage_RESIZE (now : Z) (p : resizePayload) (k : kernel) :
  let k1 :=
    withState (setGeometry (resize_width p) (resize_height p) (resize_dpr p))
      (resizeBitmap (resize_width p) (resize_height p) k) in
  onmessage now (RESIZE (Some p)) k =
  if 0 <=? lastRenderedSecond (st k)
  then paint (lastRenderedSecond (st k)) k1
  else (Returned tt, k1, []).
Proof.
  intros k1. kernel_unfold.
  assert (L : lastRenderedSecond
                (st (resizeBitmap (resize_width p) (resize_height p) k))
              = lastRenderedSecond (st k))
    by (unfold resizeBitmap; now destruct (canvas k)).
  rewrite L. fold k1.
  destruct (0 <=? lastRenderedSecond (st k)); kernel_unfold;
    [paint_factor|]; reflexivity.
Qed.

Lemma onmessage_UPDATE_CONFIG (now : Z) (payload : option ClockStyleConfig)
  (k : kernel) :
  let k1 := withState (setConfig payload) k in
  onmessage now (UPDATE_CONFIG payload) k =
  if 0 <=? lastRenderedSecond (st k)
  then paint (lastRenderedSecond (st k)) k1
  else (Returned tt, k1, []).
Proof.
  intros k1. subst k1. kernel_unfold.
  destruct (0 <=? lastRenderedSecond (st k)); kernel_unfold;
    [paint_factor|]; reflexivity.
Qed.

Lemma onmessage_START (now : Z) (k : kernel) :
  onmessage now START k =
  if isRunning (st k) then (Returned tt, k, [])
  else (Returned tt,
        scheduled (withState (setStartTimeMs now)
                     (withState (setIsRunning true) k)), []).
Proof. kernel_unfold. now destruct (isRunning (st k)). Qed.

Lemma onmessage_PAUSE (now : Z) (k : kernel) :
  onmessage now PAUSE k =
  if isRunning (st k)
  then (Returned tt,
        withState (setBaseTimeMs
                     (baseTimeMs (st k) + (now - startTimeMs (st k))))
          (match animationFrameId k with
           | Some id => cancelled id (withState (setIsRunning false) k)
           | None => withState (setIsRunning false) k
           end), [])
  else (Returned tt, k, []).
Proof.
  kernel_unfold. destruct (isRunning (st k)); cbn [negb]; [|reflexivity].
  now destruct (animationFrameId k).
Qed.

Lemma onmessage_SET_TIME (now : Z) (p : setTimePayload) (k : kernel) :
  onmessage now (SET_TIME (Some p)) k =
  paint (seconds p)
    (withState (setLastRenderedSecond (seconds p))
       (if isRunning (st k)
        then withState (setStartTimeMs now)
               (withState (setBaseTimeMs (seconds p * 1000)) k)
        else withState (setBaseTimeMs (seconds p * 1000)) k)).
Proof.
  kernel_unfold. destruct (isRunning (st k)); kernel_unfold;
    paint_factor; reflexivity.
Qed.

Lemma onmessage_ADJUST_TIME (now : Z) (p : adjustTimePayload) (k : kernel) :
  let k1 := withState (setBaseTimeMs (baseTimeMs (st k) + deltaSeconds p * 1000)) k in
  let newSecond := Kernel.totalMs now k1 / 1000 in
  onmessage now (ADJUST_TIME (Some p)) k =
  paint newSecond (withState (setLastRenderedSecond newSecond) k1).
Proof.
  intros k1 newSecond. subst newSecond k1. unfold Kernel.totalMs.
  kernel_unfold. paint_factor; reflexivity.
Qed.

(** A message that is not well formed, or not recognised. *)
Lemma onmessage_no_payload (now : Z) (m : message) (k : kernel) :
  match switchOn m with
  | INIT None | RESIZE None | SET_TIME None | ADJUST_TIME None =>
      onmessage now m k = (Thrown, k, [])
  | Other _ => onmessage now m k = (Returned tt, k, [])
  | _ => True
  end.
Proof.
  unfold onmessage.
  destruct (switchOn m) as [[p|]|[p|]|[p|]| | |[p|]|[p|]|t]; reflexivity || exact I.
Qed.

(** [loop], with [paint] factored out. *)
Lemma loop_eq (now : Z) (k : kernel) :
  let c := secondAt now k in
  let k1 := withState (setLastRenderedSecond c) k in
  loop now k =
  if isRunning (st k)
  then if c =? lastRenderedSecond (st k)
       then (Returned tt, scheduled k, [])
       else match fst (fst (paint c k1)) with
            | Returned _ => (Returned tt, scheduled k1, snd (paint c k1))
            | Thrown => (Thrown, k1, snd (paint c k1))
            end
  else (Returned tt, k, []).
Proof.
  intros c k1. subst c k1. unfold secondAt. kernel_unfold.
  destruct (isRunning (st k)); cbn [negb]; [|reflexivity].
  destruct (_ =? lastRenderedSecond (st k)); cbn [negb]; [reflexivity|].
  paint_factor; cbn [app]; rewrite ?app_nil_r; reflexivity.
Qed.

End KernelOutcomes.

(* ------------------------------------------------------------------ *)
(** * Case analysis on a kernel message *)
(* ------------------------------------------------------------------ *)

Section KernelCases.

Import Kernel KernelRun.

Lemma handle_settle (m : M unit) (k : kernel) : handle m k = settle (m k).
Proof. reflexivity. Qed.

(** A callback that ends in [paint]: the state is the one [paint] was
    called on, whether it threw or not. *)
Lemma settle_paint (x : Z) (k : kernel) :
  settle (paint x k) =
  (k, snd (paint x k) ++
      match fst (fst (paint x k)) with
      | Returned _ => []
      | Thrown => [Uncaught]
      end).
Proof.
  rewrite (paint_eq x k) at 1. unfold settle.
  destruct (fst (fst (paint x k))) as [[]|]; [now rewrite app_nil_r | reflexivity].
Qed.

(** Every message is handled as one of nine cases. *)
Lemma onmessage_by_cases (now : Z) (m : message) (k : kernel)
  (P : result unit * kernel * list effect -> Prop) :
  (forall p, P (onmessage now (INIT (Some p)) k)) ->
  (forall p, P (onmessage now (RESIZE (Some p)) k)) ->
  (forall c, P (onmessage now (UPDATE_CONFIG c) k)) ->
  P (onmessage now START k) ->
  P (onmessage now PAUSE k) ->
  (forall p, P (onmessage now (SET_TIME (Some p)) k)) ->
  (forall p, P (onmessage now (ADJUST_TIME (Some p)) k)) ->
  P (Thrown, k, []) ->
  P (Returned tt, k, []) ->
  P (onmessage now m k).
Proof.
  intros HI HR HU HS HP HT HA HX HO.
  pose proof (onmessage_no_payload now m k) as NP.
  specialize (HS). unfold onmessage in *.
  destruct (switchOn m) as [[p|]|[p|]|c| | |[p|]|[p|]|t];
    try (rewrite NP; assumption).
  - exact (HI p).
  - exact (HR p).
  - exact (HU c).
  - exact HS.
  - exact HP.
  - exact (HT p).
  - exact (HA p).
Qed.

(** The same for a message that has its payload. *)
Lemma onmessage_by_cases_payload (now : Z) (m : message) (k : kernel)
  (P : result unit * kernel * list effect -> Prop) :
  hasPayload m = true ->
  (forall p, P (onmessage now (INIT (Some p)) k)) ->
  (forall p, P (onmessage now (RESIZE (Some p)) k)) ->
  (forall c, P (onmessage now (UPDATE_CONFIG (Some c)) k)) ->
  P (onmessage now START k) ->
  P (onmessage now PAUSE k) ->
  (forall p, P (onmessage now (SET_TIME (Some p)) k)) ->
  (forall p, P (onmessage now (ADJUST_TIME (Some p)) k)) ->
  P (Returned tt, k, []) ->
  P (onmessage now m k).
Proof.
  intros W HI HR HU HS HP HT HA HO.
  pose proof (onmessage_no_payload now m k) as NP.
  unfold hasPayload in W. unfold onmessage in *.
  destruct (switchOn m) as [[p|]|[p|]|[c|]| | |[p|]|[p|]|t];
    try discriminate W; try (rewrite NP; assumption).
  - exact (HI p).
  - exact (HR p).
  - exact (HU c).
  - exact HS.
  - exact HP.
  - exact (HT p).
  - exact (HA p).
Qed.

(** An animation frame runs [loop] once for every callback in the queue. *)
Lemma animationFrame_loops (now : Z) (k : kernel) :
  animationFrame now k =
  loops (map (fun _ => now) (rafPending k)) (dequeued k).
Proof.
  unfold animationFrame. fold (dequeued k).
  assert (G : forall ids k0 fx0,
             fold_left
               (fun acc (_ : nat) =>
                  let '(k1, fx1) := acc in
                  let '(k2, fx2) := handle (loop now) k1 in
                  (k2, fx1 ++ fx2)) ids (k0, fx0)
             = (fst (loops (map (fun _ => now) ids) k0),
                fx0 ++ snd (loops (map (fun _ => now) ids) k0))).
  { induction ids as [|id ids IH]; intros k0 fx0.
    - cbn. now rewrite app_nil_r.
    - cbn [fold_left map loops].
      destruct (handle (loop now) k0) as [k1 fx1].
      rewrite IH.
      destruct (loops (map (fun _ => now) ids) k1) as [k2 fx2].
      cbn [fst snd]. now rewrite app_assoc. }
  rewrite G. cbn [app].
  now destruct (loops (map (fun _ => now) (rafPending k)) (dequeued k)).
Qed.

End KernelCases.

(* ------------------------------------------------------------------ *)
(** * Invariants of the kernel's runs *)
(* ------------------------------------------------------------------ *)

Section KernelInvariants.

Import Kernel KernelRun.

Lemma resizeBitmap_fields (w h : Z) (k : kernel) :
  st (resizeBitmap w h k) = st k
  /\ ctx (resizeBitmap w h k) = ctx k
  /\ animationFrameId (resizeBitmap w h k) = animationFrameId k
  /\ rafNext (resizeBitmap w h k) = rafNext k
  /\ rafPending (resizeBitmap w h k) = rafPending k.
Proof. unfold resizeBitmap. now destruct (canvas k). Qed.

(** Unfolds the outcome of a message, case by case. *)
Ltac message_outcome :=
  rewrite ?onmessage_INIT, ?onmessage_RESIZE, ?onmessage_UPDATE_CONFIG,
    ?onmessage_START, ?onmessage_PAUSE, ?onmessage_SET_TIME,
    ?onmessage_ADJUST_TIME;
  cbv zeta;
  repeat match goal with
         | |- context [if ?b then _ else _] => destruct b eqn:?
         end;
  rewrite ?settle_paint; cbn [settle fst snd].

Lemma message_frameQueueOk (now : Z) (m : message) (k : kernel) :
  frameQueueOk k -> frameQueueOk (fst (handle (onmessage now m) k)).
Proof.
  intros H. rewrite handle_settle.
  apply (onmessage_by_cases now m k
           (fun out => frameQueueOk (fst (settle out))));
    intros; try exact H; message_outcome; try exact H;
    unfold frameQueueOk in *; cbn;
    rewrite ?(proj2 (proj2 (proj2 (proj2 (resizeBitmap_fields _ _ k))))),
            ?(proj1 (proj2 (proj2 (resizeBitmap_fields _ _ k)))),
            ?(proj1 (resizeBitmap_fields _ _ k));
    try exact H.
  - (* START on a stopped clock *)
    destruct (rafPending k) as [|id [|id' ids]]; cbn.
    + split; reflexivity.
    + destruct H as [_ R]. rewrite R in *. discriminate.
    + contradiction.
  - (* PAUSE on a running clock *)
    destruct (animationFrameId k) as [i|] eqn:A; cbn;
      destruct (rafPending k) as [|id [|id' ids]]; cbn;
      try contradiction; try exact I.
    + destruct H as [[= ->] _]. now rewrite Nat.eqb_refl.
    + destruct H as [[=] _].
Qed.

Lemma loop_frameQueueOk (now : Z) (k : kernel) :
  rafPending k = [] ->
  frameQueueOk (fst (handle (loop now) k)).
Proof.
  intros E. rewrite handle_settle, loop_eq. cbv zeta.
  destruct (isRunning (st k)) eqn:R.
  - destruct (_ =? _).
    + unfold frameQueueOk. cbn. rewrite E. cbn. now split.
    + destruct (fst (fst (paint _ _))) as [[]|].
      * unfold frameQueueOk. cbn. rewrite E. cbn. now split.
      * unfold frameQueueOk. cbn. now rewrite E.
  - unfold frameQueueOk. cbn. now rewrite E.
Qed.

Lemma animationFrame_frameQueueOk (now : Z) (k : kernel) :
  frameQueueOk k -> frameQueueOk (fst (animationFrame now k)).
Proof.
  intros H. rewrite animationFrame_loops. unfold frameQueueOk in H.
  destruct (rafPending k) as [|id [|id' ids]]; [| |contradiction].
  - cbn. unfold frameQueueOk. now cbn.
  - cbn [map loops].
    pose proof (loop_frameQueueOk now (dequeued k) eq_refl) as L.
    destruct (handle (loop now) (dequeued k)) as [k1 fx1]. exact L.
Qed.

Lemma step_frameQueueOk (e : event) (k : kernel) :
  frameQueueOk k -> frameQueueOk (fst (step e k)).
Proof.
  destruct e as [now m|now]; cbn [step];
    [apply message_frameQueueOk | apply animationFrame_frameQueueOk].
Qed.

Lemma run_frameQueueOk (es : list event) :
  forall k, frameQueueOk k -> frameQueueOk (fst (run es k)).
Proof.
  induction es as [|e es IH]; intros k H; [exact H|].
  rewrite run_cons. cbn [fst]. apply IH. now apply step_frameQueueOk.
Qed.

Lemma frameQueueOk_stopped (k : kernel) :
  frameQueueOk k -> isRunning (st k) = false -> rafPending k = [].
Proof.
  unfold frameQueueOk. intros H R.
  destruct (rafPending k) as [|id [|id' ids]]; [reflexivity | | contradiction].
  destruct H as [_ H]. rewrite H in R. discriminate R.
Qed.

End KernelInvariants.

Section KernelAlive.

Import Kernel KernelRun.

Lemma uncaught_app (fx1 fx2 : list effect) :
  uncaught (fx1 ++ fx2) = (uncaught fx1 + uncaught fx2)%nat.
Proof. unfold uncaught. now rewrite filter_app, length_app. Qed.

(** [paint] itself never reports an exception: it is its caller that
    does. *)
Lemma paint_uncaught (x : Z) (k : kernel) : uncaught (snd (paint x k)) = 0%nat.
Proof.
  unfold paint. kernel_unfold.
  destruct (negb (ctx k) || (width (st k) =? 0) || (height (st k) =? 0));
    [reflexivity|].
  destruct (config (st k)) as [cfg|]; [|reflexivity].
  destruct (showDot cfg && (Z.rem (Z.abs x) 2 =? 0)); reflexivity.
Qed.

(** With a configuration to read, [paint] returns normally. *)
Lemma paint_returns (x : Z) (k : kernel) :
  config (st k) <> None -> fst (fst (paint x k)) = Returned tt.
Proof.
  intros C. rewrite paint_result.
  destruct (ctx k && negb (width (st k) =? 0) && negb (height (st k) =? 0));
    [|reflexivity].
  now destruct (config (st k)).
Qed.

Lemma settle_paint_returns (x : Z) (k : kernel) :
  config (st k) <> None -> settle (paint x k) = (k, snd (paint x k)).
Proof.
  intros C. rewrite settle_paint, (paint_returns x k C). now rewrite app_nil_r.
Qed.

Lemma message_alive (now : Z) (m : message) (k : kernel) :
  hasPayload m = true ->
  frameQueueOk k -> loopAlive k ->
  loopAlive (fst (handle (onmessage now m) k))
  /\ uncaught (snd (handle (onmessage now m) k)) = 0%nat.
Proof.
  intros W Q LA. pose proof LA as [C A]. rewrite handle_settle.
  apply (onmessage_by_cases_payload now m k
           (fun out => loopAlive (fst (settle out))
                       /\ uncaught (snd (settle out)) = 0%nat) W);
    intros;
    rewrite ?onmessage_INIT, ?onmessage_RESIZE, ?onmessage_UPDATE_CONFIG,
      ?onmessage_START, ?onmessage_PAUSE, ?onmessage_SET_TIME,
      ?onmessage_ADJUST_TIME;
    cbv zeta.
  - rewrite settle_paint_returns by (cbn; discriminate).
    cbn [fst snd]. split; [|apply paint_uncaught].
    split; [cbn; discriminate|]. exact A.
  - destruct (resizeBitmap_fields (resize_width p) (resize_height p) k)
      as (S & _ & _ & _ & Pn).
    assert (L : loopAlive
                  (withState
                     (setGeometry (resize_width p) (resize_height p)
                        (resize_dpr p))
                     (resizeBitmap (resize_width p) (resize_height p) k))).
    { unfold loopAlive. cbn. rewrite S, Pn. now split. }
    destruct (0 <=? lastRenderedSecond (st k)).
    + rewrite settle_paint_returns by (cbn; now rewrite S).
      cbn [fst snd]. split; [exact L | apply paint_uncaught].
    + cbn [settle fst snd]. split; [exact L | reflexivity].
  - assert (L : loopAlive (withState (setConfig (Some c)) k)).
    { unfold loopAlive. cbn. split; [discriminate | exact A]. }
    destruct (0 <=? lastRenderedSecond (st k)).
    + rewrite settle_paint_returns by (cbn; discriminate).
      cbn [fst snd]. split; [exact L | apply paint_uncaught].
    + cbn [settle fst snd]. split; [exact L | reflexivity].
  - destruct (isRunning (st k)) eqn:R; cbn [settle fst snd].
    + split; [exact LA | reflexivity].
    + split; [|reflexivity]. split; [exact C|]. intros _. cbn.
      rewrite (frameQueueOk_stopped k Q R). now exists (rafNext k).
  - destruct (isRunning (st k)) eqn:R; cbn [settle fst snd].
    + split; [|reflexivity]. split.
      * now destruct (animationFrameId k).
      * destruct (animationFrameId k); cbn; discriminate.
    + split; [exact LA | reflexivity].
  - assert (Cf : forall b : bool,
               config
                 (st (withState (setLastRenderedSecond (seconds p))
                        (if b
                         then withState (setStartTimeMs now)
                                (withState (setBaseTimeMs (seconds p * 1000)) k)
                         else withState (setBaseTimeMs (seconds p * 1000)) k)))
               = config (st k)) by (now intros []).
    rewrite settle_paint_returns by (now rewrite Cf).
    cbn [fst snd]. split; [|apply paint_uncaught].
    unfold loopAlive. rewrite Cf. split; [exact C|].
    destruct (isRunning (st k)) eqn:R; cbn; rewrite R; [exact A | discriminate].
  - rewrite settle_paint_returns by exact C.
    cbn [fst snd]. split; [exact LA | apply paint_uncaught].
  - cbn [settle fst snd]. split; [exact LA | reflexivity].
Qed.

Lemma loop_alive (now : Z) (k : kernel) :
  rafPending k = [] ->
  config (st k) <> None ->
  loopAlive (fst (handle (loop now) k))
  /\ uncaught (snd (handle (loop now) k)) = 0%nat.
Proof.
  intros E C. rewrite handle_settle, loop_eq. cbv zeta.
  destruct (isRunning (st k)) eqn:R.
  - destruct (_ =? _).
    + cbn [settle fst snd]. split; [|reflexivity].
      split; [exact C|]. intros _. cbn. rewrite E. now exists (rafNext k).
    + rewrite paint_returns by exact C. cbn [settle fst snd].
      split; [|apply paint_uncaught].
      split; [exact C|]. intros _. cbn. rewrite E. now exists (rafNext k).
  - cbn [settle fst snd]. split; [|reflexivity].
    split; [exact C|]. intros R'. rewrite R in R'. discriminate R'.
Qed.

Lemma animationFrame_alive (now : Z) (k : kernel) :
  frameQueueOk k -> loopAlive k ->
  loopAlive (fst (animationFrame now k))
  /\ uncaught (snd (animationFrame now k)) = 0%nat.
Proof.
  intros Q [C A]. rewrite animationFrame_loops.
  unfold frameQueueOk in Q.
  destruct (rafPending k) as [|id [|id' ids]] eqn:E; [| |contradiction].
  - cbn. split; [|reflexivity]. split; [exact C|].
    intros R. destruct (A R) as [id Hid]. discriminate Hid.
  - cbn [map loops].
    pose proof (loop_alive now (dequeued k) eq_refl C) as L.
    destruct (handle (loop now) (dequeued k)) as [k1 fx1].
    cbn [fst snd] in *. now rewrite app_nil_r.
Qed.

Lemma run_alive (es : list event) :
  forall k,
    forallb wellFormed es = true ->
    frameQueueOk k -> loopAlive k ->
    frameQueueOk (fst (run es k))
    /\ loopAlive (fst (run es k))
    /\ uncaught (snd (run es k)) = 0%nat.
Proof.
  induction es as [|e es IH]; intros k W Q A.
  - cbn [run fst snd]. split; [exact Q|]. split; [exact A | reflexivity].
  - cbn [forallb] in W. apply andb_prop in W. destruct W as [We Wes].
    rewrite run_cons. cbn [fst snd].
    assert (S : loopAlive (fst (step e k))
                /\ uncaught (snd (step e k)) = 0%nat).
    { destruct e as [now m|now]; cbn [step].
      - now apply message_alive.
      - now apply animationFrame_alive. }
    destruct S as [A1 U1].
    destruct (IH (fst (step e k)) Wes (step_frameQueueOk e k Q) A1)
      as (Q2 & A2 & U2).
    split; [exact Q2|]. split; [exact A2|].
    rewrite uncaught_app, U1, U2. reflexivity.
Qed.

End KernelAlive.

(* ------------------------------------------------------------------ *)
(** * Frames, seconds and what gets painted *)
(* ------------------------------------------------------------------ *)

Section KernelFrames.

Import Kernel KernelRun.

Lemma secondAt_mono (k : kernel) (t t' : Z) :
  t <= t' -> secondAt t k <= secondAt t' k.
Proof. intros H. unfold secondAt. apply Z.div_le_mono; lia. Qed.

(** The clock fields after a series of [loop] invocations. *)
Lemma loops_clock (nows : list Z) :
  forall k : kernel,
    let k' := fst (loops nows k) in
    baseTimeMs (st k') = baseTimeMs (st k)
    /\ startTimeMs (st k') = startTimeMs (st k)
    /\ isRunning (st k') = isRunning (st k)
    /\ lastRenderedSecond (st k') =
       (match nows with
        | [] => lastRenderedSecond (st k)
        | _ :: _ => if isRunning (st k)
                    then secondAt (List.last nows 0) k
                    else lastRenderedSecond (st k)
        end).
Proof.
  induction nows as [|now nows IH]; intros k k'.
  - subst k'. cbn. now repeat split.
  - subst k'. cbn [loops].
    destruct (loop_clock now k) as (k1 & fx1 & E & B & S & R & L & _).
    rewrite E. specialize (IH k1). cbv zeta in IH.
    destruct (loops nows k1) as [k2 fx2]. cbn [fst] in *.
    destruct IH as (B2 & S2 & R2 & L2).
    rewrite B2, S2, R2, L2, B, S, R, L.
    repeat split.
    destruct nows as [|t nows]; [reflexivity|].
    unfold secondAt. rewrite B, S.
    now destruct (isRunning (st k)).
Qed.

(** Callbacks of one frame: whatever is painted is the second recorded
    at the end. *)
Lemma loops_same_time (now : Z) (n : list nat) :
  forall k : kernel,
    Forall (fun c => c = lastRenderedSecond (st (fst (loops (map (fun _ => now) n) k))))
      (paintCalls (snd (loops (map (fun _ => now) n) k))).
Proof.
  destruct n as [|i n]; intros k; [constructor|].
  cbn [map loops].
  destruct (loop_clock now k) as (k1 & fx1 & E & B & S & R & L & P).
  rewrite E.
  assert (Q : paintCalls (snd (loops (map (fun _ => now) n) k1)) = []).
  { destruct (isRunning (st k)) eqn:Run.
    - apply loops_quiet. intros t Ht. apply in_map_iff in Ht.
      destruct Ht as (_ & <- & _). now rewrite B, S, L.
    - rewrite loops_stopped by (now rewrite R). reflexivity. }
  pose proof (loops_clock (map (fun _ => now) n) k1) as (_ & _ & _ & L2).
  destruct (loops (map (fun _ => now) n) k1) as [k2 fx2]. cbn [fst snd] in *.
  rewrite paintCalls_app, Q, app_nil_r, P.
  destruct (isRunning (st k) && negb (_ =? _)) eqn:F; [|constructor].
  constructor; [|constructor].
  apply andb_prop in F. destruct F as [Run _].
  rewrite L2, R, Run, L, Run.
  destruct (map (fun _ => now) n) as [|t ts] eqn:M; [reflexivity|].
  unfold secondAt. rewrite B, S. f_equal. f_equal. f_equal.
  assert (In (List.last (t :: ts) 0) (map (fun _ => now) n)).
  { rewrite M. destruct (exists_last (l := t :: ts) ltac:(discriminate))
      as (l' & a & ->). rewrite last_last. apply in_or_app. right. now left. }
  apply in_map_iff in H. now destruct H as (_ & <- & _).
Qed.

End KernelFrames.

Section KernelPainted.

Import Kernel KernelRun.

(** Over increasing clock readings [loop] paints ever larger seconds, all
    of them above the second that was on record. *)
Lemma loops_increasing (nows : list Z) :
  forall k : kernel,
    Sorted Z.le nows ->
    (forall t, In t nows -> lastRenderedSecond (st k) <= secondAt t k) ->
    StronglySorted Z.lt (paintCalls (snd (loops nows k)))
    /\ Forall (fun c => lastRenderedSecond (st k) < c)
         (paintCalls (snd (loops nows k))).
Proof.
  induction nows as [|now nows IH]; intros k So Lo.
  - cbn. split; constructor.
  - cbn [loops].
    destruct (loop_clock now k) as (k1 & fx1 & E & B & S & R & L & P).
    rewrite E.
    assert (So' : Sorted Z.le nows) by (now inversion So).
    assert (Ge : forall t, In t nows -> now <= t).
    { apply Sorted_StronglySorted in So; [|intros x y z; lia].
      inversion So as [|? ? _ F]. now apply Forall_forall. }
    assert (L1 : lastRenderedSecond (st k) <= lastRenderedSecond (st k1)).
    { rewrite L. destruct (isRunning (st k)); [|lia]. apply Lo. now left. }
    assert (Lo' : forall t, In t nows ->
                    lastRenderedSecond (st k1) <= secondAt t k1).
    { intros t Ht. unfold secondAt. rewrite B, S, L.
      destruct (isRunning (st k)).
      - apply (secondAt_mono k now t). now apply Ge.
      - apply Lo. now right. }
    destruct (IH k1 So' Lo') as [St Fa].
    destruct (loops nows k1) as [k2 fx2]. cbn [snd] in *.
    rewrite paintCalls_app, P.
    assert (Fa' : Forall (fun c => lastRenderedSecond (st k) < c)
                    (paintCalls fx2)).
    { eapply Forall_impl; [|exact Fa]. cbn. intros c Hc. lia. }
    destruct (isRunning (st k) && negb (_ =? _)) eqn:F; cbn [app];
      [|now split].
    apply andb_prop in F. destruct F as [Run Ne].
    rewrite Run in L.
    apply negb_true_iff, Z.eqb_neq in Ne.
    assert (Lt : lastRenderedSecond (st k) < secondAt now k).
    { specialize (Lo now ltac:(now left)). unfold secondAt in *. lia. }
    split.
    + constructor; [exact St|]. now rewrite <- L.
    + constructor; [exact Lt | exact Fa'].
Qed.

(** The same without knowing how the second on record compares with the
    first reading. *)
Lemma loops_strictly_increasing (nows : list Z) (k : kernel) :
  Sorted Z.le nows ->
  StronglySorted Z.lt (paintCalls (snd (loops nows k))).
Proof.
  intros So. destruct nows as [|now nows]; [constructor|].
  cbn [loops].
  destruct (loop_clock now k) as (k1 & fx1 & E & B & S & R & L & P).
  rewrite E.
  destruct (isRunning (st k)) eqn:Run.
  2:{ rewrite (loops_stopped nows k1) by (now rewrite R). cbn [snd].
      rewrite app_nil_r, P. cbn. constructor. }
  assert (So' : Sorted Z.le nows) by (now inversion So).
  assert (Ge : forall t, In t nows -> now <= t).
  { apply Sorted_StronglySorted in So; [|intros x y z; lia].
    inversion So as [|? ? _ F]. now apply Forall_forall. }
  assert (Lo' : forall t, In t nows ->
                  lastRenderedSecond (st k1) <= secondAt t k1).
  { intros t Ht. unfold secondAt. rewrite B, S, L.
    apply (secondAt_mono k now t). now apply Ge. }
  destruct (loops_increasing nows k1 So' Lo') as [St Fa].
  destruct (loops nows k1) as [k2 fx2]. cbn [snd] in *.
  rewrite paintCalls_app, P.
  destruct (true && negb _); cbn [app]; [|exact St].
  constructor; [exact St|]. now rewrite <- L.
Qed.

End KernelPainted.

Section KernelCanvas.

Import Kernel KernelRun.

(** Without a context [paint] returns at its safety check. *)
Lemma paint_without_context (x : Z) (k : kernel) :
  ctx k = false -> paint x k = (Returned tt, k, [PaintCall x]).
Proof. intros C. unfold paint. kernel_unfold. now rewrite C. Qed.

Lemma isDraw_app (fx1 fx2 : list effect) :
  filter isDraw (fx1 ++ fx2) = filter isDraw fx1 ++ filter isDraw fx2.
Proof. apply filter_app. Qed.

Lemma message_without_canvas (now : Z) (m : message) (k : kernel) :
  ctx k = false ->
  carriesCanvas (Message now m) = false ->
  ctx (fst (handle (onmessage now m) k)) = false
  /\ filter isDraw (snd (handle (onmessage now m) k)) = [].
Proof.
  intros C N. rewrite handle_settle. cbn [carriesCanvas] in N.
  pose proof (onmessage_no_payload now m k) as NP.
  assert (K : forall x k1, ctx k1 = false ->
                ctx (fst (settle (paint x k1))) = false
                /\ filter isDraw (snd (settle (paint x k1))) = []).
  { intros x k1 C1. rewrite (paint_without_context x k1 C1). now split. }
  unfold onmessage in *.
  destruct (switchOn m) as [[p|]|[p|]|c| | |[p|]|[p|]|t];
    try discriminate N; try (rewrite NP; now split).
  - change (ctx (fst (settle (onmessage now (RESIZE (Some p)) k))) = false
            /\ filter isDraw (snd (settle (onmessage now (RESIZE (Some p)) k)))
               = []).
    rewrite onmessage_RESIZE. cbv zeta.
    destruct (resizeBitmap_fields (resize_width p) (resize_height p) k)
      as (_ & Cx & _).
    destruct (0 <=? lastRenderedSecond (st k));
      [apply K | cbn [settle fst snd]; split; [|reflexivity]]; cbn; now rewrite Cx.
  - change (ctx (fst (settle (onmessage now (UPDATE_CONFIG c) k))) = false
            /\ filter isDraw (snd (settle (onmessage now (UPDATE_CONFIG c) k)))
               = []).
    rewrite onmessage_UPDATE_CONFIG. cbv zeta.
    destruct (0 <=? lastRenderedSecond (st k));
      [apply K | cbn [settle fst snd]; split; [|reflexivity]]; exact C.
  - change (ctx (fst (settle (onmessage now START k))) = false
            /\ filter isDraw (snd (settle (onmessage now START k))) = []).
    rewrite onmessage_START.
    destruct (isRunning (st k)); cbn [settle fst snd]; now split.
  - change (ctx (fst (settle (onmessage now PAUSE k))) = false
            /\ filter isDraw (snd (settle (onmessage now PAUSE k))) = []).
    rewrite onmessage_PAUSE.
    destruct (isRunning (st k)); cbn [settle fst snd]; [|now split].
    split; [|reflexivity]. now destruct (animationFrameId k).
  - change (ctx (fst (settle (onmessage now (SET_TIME (Some p)) k))) = false
            /\ filter isDraw
                 (snd (settle (onmessage now (SET_TIME (Some p)) k))) = []).
    rewrite onmessage_SET_TIME. apply K. now destruct (isRunning (st k)).
  - change (ctx (fst (settle (onmessage now (ADJUST_TIME (Some p)) k))) = false
            /\ filter isDraw
                 (snd (settle (onmessage now (ADJUST_TIME (Some p)) k))) = []).
    rewrite onmessage_ADJUST_TIME. apply K. exact C.
Qed.

Lemma loop_without_canvas (now : Z) (k : kernel) :
  ctx k = false ->
  ctx (fst (handle (loop now) k)) = false
  /\ filter isDraw (snd (handle (loop now) k)) = [].
Proof.
  intros C. rewrite handle_settle, loop_eq. cbv zeta.
  destruct (isRunning (st k)); [|now split].
  destruct (_ =? _); [now split|].
  rewrite paint_without_context by exact C. now split.
Qed.

Lemma loops_without_canvas (nows : list Z) :
  forall k : kernel,
    ctx k = false ->
    ctx (fst (loops nows k)) = false
    /\ filter isDraw (snd (loops nows k)) = [].
Proof.
  induction nows as [|now nows IH]; intros k C; [now split|].
  cbn [loops].
  destruct (loop_without_canvas now k C) as [C1 D1].
  destruct (handle (loop now) k) as [k1 fx1]. cbn [fst snd] in *.
  destruct (IH k1 C1) as [C2 D2].
  destruct (loops nows k1) as [k2 fx2]. cbn [fst snd] in *.
  split; [exact C2|]. now rewrite isDraw_app, D1, D2.
Qed.

Lemma step_without_canvas (e : event) (k : kernel) :
  ctx k = false ->
  carriesCanvas e = false ->
  ctx (fst (step e k)) = false /\ filter isDraw (snd (step e k)) = [].
Proof.
  intros C N. destruct e as [now m|now]; cbn [step].
  - now apply message_without_canvas.
  - rewrite animationFrame_loops. now apply loops_without_canvas.
Qed.

Lemma run_without_canvas (es : list event) :
  forall k : kernel,
    ctx k = false ->
    forallb (fun e => negb (carriesCanvas e)) es = true ->
    ctx (fst (run es k)) = false /\ filter isDraw (snd (run es k)) = [].
Proof.
  induction es as [|e es IH]; intros k C N; [now split|].
  cbn [forallb] in N. apply andb_prop in N. destruct N as [Ne Nes].
  apply negb_true_iff in Ne.
  rewrite run_cons. cbn [fst snd].
  destruct (step_without_canvas e k C Ne) as [C1 D1].
  destruct (IH _ C1 Nes) as [C2 D2].
  split; [exact C2|]. now rewrite isDraw_app, D1, D2.
Qed.

End KernelCanvas.

Section KernelRecord.

Import Kernel KernelRun.

Lemma settle_paint_calls (x : Z) (k : kernel) :
  paintCalls (snd (settle (paint x k))) = [x].
Proof.
  rewrite settle_paint. cbn [snd]. rewrite paintCalls_app, paint_calls.
  now destruct (fst (fst (paint x k))) as [[]|].
Qed.

Lemma settle_paint_state (x : Z) (k : kernel) : fst (settle (paint x k)) = k.
Proof. now rewrite settle_paint. Qed.

(** Whatever a message makes [paint] show is the second it records. *)
Lemma message_paints_record (now : Z) (m : message) (k : kernel) :
  Forall (fun c => c = lastRenderedSecond (st (fst (handle (onmessage now m) k))))
    (paintCalls (snd (handle (onmessage now m) k))).
Proof.
  rewrite handle_settle.
  apply (onmessage_by_cases now m k
           (fun out =>
              Forall (fun c => c = lastRenderedSecond (st (fst (settle out))))
                (paintCalls (snd (settle out)))));
    intros;
    rewrite ?onmessage_INIT, ?onmessage_RESIZE, ?onmessage_UPDATE_CONFIG,
      ?onmessage_START, ?onmessage_PAUSE, ?onmessage_SET_TIME,
      ?onmessage_ADJUST_TIME;
    cbv zeta;
    repeat match goal with
           | |- context [if ?b then _ else _] => destruct b
           end;
    rewrite ?settle_paint_calls, ?settle_paint_state;
    cbn [settle fst snd paintCalls flat_map];
    try (constructor; fail);
    (constructor; [|constructor]); cbn;
    rewrite ?(proj1 (resizeBitmap_fields _ _ k)); reflexivity.
Qed.

Lemma step_paints_record (e : event) (k : kernel) :
  Forall (fun c => c = lastRenderedSecond (st (fst (step e k))))
    (paintCalls (snd (step e k))).
Proof.
  destruct e as [now m|now]; cbn [step].
  - apply message_paints_record.
  - rewrite animationFrame_loops. apply loops_same_time.
Qed.

End KernelRecord.

(* ------------------------------------------------------------------ *)
(** * The store, event by event *)
(* ------------------------------------------------------------------ *)

Section StoreOutcomes.

Import Store.

Lemma replacements_app (a b : list effect) :
  replacements (a ++ b) = replacements a ++ replacements b.
Proof. apply flat_map_app. Qed.

Lemma notifications_app (a b : list effect) :
  notifications (a ++ b) = notifications a ++ notifications b.
Proof. apply flat_map_app. Qed.

Lemma posted_app (a b : list effect) :
  posted (a ++ b) = posted a ++ posted b.
Proof. apply flat_map_app. Qed.

Lemma postMessage_quiet (type : string) (s : store) :
  replacements (postMessage type s) = []
  /\ notifications (postMessage type s) = [].
Proof. unfold postMessage. now destruct (worker s). Qed.

(** [emitChange] either leaves everything as it is, or replaces the
    snapshot by the fresh one and calls every listener. *)
Lemma emitChange_cases (now : Z) (s : store) :
  emitChange now s = (s, [])
  \/ emitChange now s =
     (setSnapshot (calculateState now s) s,
      SnapshotReplaced (calculateState now s) :: map Notify (listeners s)).
Proof.
  unfold emitChange. cbv zeta.
  destruct (visiblyDiffers _ _); [right | left]; reflexivity.
Qed.

(** The shape of one step: nothing at all, a change of the listeners, or
    an update of the clock fields followed by [emitChange], with a
    message to the worker exactly when the running flag changes. *)
Lemma step_cases (e : event) (s : store) :
  step e s = (s, [])
  \/ (exists l, e = Subscribe l /\ step e s = (subscribe l s, []))
  \/ (exists l, e = Unsubscribe l /\ step e s = (unsubscribe l s, []))
  \/ (exists s1 now pre,
        step e s = (fst (emitChange now s1), pre ++ snd (emitChange now s1))
        /\ worker s1 = worker s
        /\ listeners s1 = listeners s
        /\ snapshot s1 = snapshot s
        /\ ((pre = [] /\ isRunning s1 = isRunning s)
            \/ (pre = postMessage "START" s1
                /\ isRunning s = false /\ isRunning s1 = true)
            \/ (pre = postMessage "STOP" s1
                /\ isRunning s = true /\ isRunning s1 = false))).
Proof.
  destruct e as [now emitNow|now|seconds now emitNow|now|l|l]; cbn [step].
  - unfold start. destruct (isRunning s) eqn:R; [now left|].
    right; right; right.
    exists (setStartTimeMs now (setIsRunning true s)), emitNow,
      (postMessage "START" (setStartTimeMs now (setIsRunning true s))).
    cbv zeta. destruct (emitChange emitNow _) as [s2 fx2]. cbn [fst snd].
    repeat (split; [reflexivity|]). right; left. now repeat split.
  - unfold pause. destruct (isRunning s) eqn:R; cbn [negb]; [|now left].
    right; right; right.
    exists (setIsRunning false
              (setBaseDurationMs (baseDurationMs s + (now - startTimeMs s)) s)),
      now,
      (postMessage "STOP"
         (setIsRunning false
            (setBaseDurationMs (baseDurationMs s + (now - startTimeMs s)) s))).
    cbv zeta. destruct (emitChange now _) as [s3 fx2]. cbn [fst snd].
    repeat (split; [reflexivity|]). right; right. now repeat split.
  - right; right; right. unfold setTime. cbv zeta.
    exists (if isRunning (setBaseDurationMs (seconds * 1000) s)
            then setStartTimeMs now (setBaseDurationMs (seconds * 1000) s)
            else setBaseDurationMs (seconds * 1000) s), emitNow, [].
    cbn [app]. split; [now destruct (emitChange emitNow _)|].
    cbn [isRunning setBaseDurationMs].
    destruct (isRunning s) eqn:R; cbn; rewrite ?R; repeat split; now left.
  - right; right; right. exists s, now, [].
    change (onWorkerMessage "TICK" now s) with (emitChange now s). cbn [app].
    split; [now destruct (emitChange now s)|]. repeat split. now left.
  - right; left. now exists l.
  - right; right; left. now exists l.
Qed.

(** No step touches the worker reference. *)
Lemma step_worker (e : event) (s : store) :
  worker (fst (step e s)) = worker s.
Proof.
  destruct (step_cases e s) as [E|[(l & _ & E)|[(l & _ & E)|
    (s1 & now & pre & E & W & _)]]]; rewrite E; cbn [fst].
  - reflexivity.
  - unfold subscribe. now destruct (existsb _ _).
  - reflexivity.
  - destruct (emitChange_state now s1) as (_ & _ & _ & W' & _).
    now rewrite W'.
Qed.

Lemma run_worker (es : list event) :
  forall s : store, worker (fst (run es s)) = worker s.
Proof.
  induction es as [|e es IH]; intros s; [reflexivity|].
  rewrite store_run_cons. cbn [fst]. now rewrite IH, step_worker.
Qed.

(** The listeners stay free of duplicates. *)
Lemma subscribe_NoDup (l : nat) (s : store) :
  NoDup (listeners s) -> NoDup (listeners (subscribe l s)).
Proof.
  intros N. unfold subscribe.
  destruct (existsb (Nat.eqb l) (listeners s)) eqn:E; [exact N|].
  cbn [listeners setListeners].
  apply NoDup_app; [exact N | repeat constructor; intros [] | ].
  intros x Hx [<-|[]].
  assert (X : existsb (Nat.eqb l) (listeners s) = true).
  { apply existsb_exists. exists l. split; [exact Hx | apply Nat.eqb_refl]. }
  rewrite X in E. discriminate E.
Qed.

Lemma step_NoDup (e : event) (s : store) :
  NoDup (listeners s) -> NoDup (listeners (fst (step e s))).
Proof.
  intros N.
  destruct (step_cases e s) as [E|[(l & _ & E)|[(l & _ & E)|
    (s1 & now & pre & E & _ & L & _)]]]; rewrite E; cbn [fst].
  - exact N.
  - now apply subscribe_NoDup.
  - cbn [unsubscribe listeners setListeners]. now apply NoDup_filter.
  - destruct (emitChange_state now s1) as (_ & _ & _ & _ & L' & _).
    now rewrite L', L.
Qed.

Lemma run_NoDup (es : list event) :
  forall s : store, NoDup (listeners s) -> NoDup (listeners (fst (run es s))).
Proof.
  induction es as [|e es IH]; intros s N; [exact N|].
  rewrite store_run_cons. cbn [fst]. apply IH. now apply step_NoDup.
Qed.

(** A step reports nothing, or replaces the snapshot by a freshly
    calculated one and calls every listener in the order of insertion. *)
Lemma step_report (e : event) (s : store) :
  (replacements (snd (step e s)) = []
   /\ notifications (snd (step e s)) = []
   /\ snapshot (fst (step e s)) = snapshot s)
  \/ (exists now s1,
        replacements (snd (step e s)) = [calculateState now s1]
        /\ notifications (snd (step e s)) = listeners s
        /\ snapshot (fst (step e s)) = calculateState now s1).
Proof.
  destruct (step_cases e s) as [E|[(l & _ & E)|[(l & _ & E)|
    (s1 & now & pre & E & _ & L & S & P)]]]; rewrite E; cbn [fst snd].
  - now left.
  - left. unfold subscribe. now destruct (existsb _ _).
  - now left.
  - assert (Q : replacements pre = [] /\ notifications pre = []).
    { destruct P as [[-> _]|[[-> _]|[-> _]]];
        [now split | apply postMessage_quiet | apply postMessage_quiet]. }
    destruct Q as [Q1 Q2].
    rewrite replacements_app, notifications_app, Q1, Q2. cbn [app].
    destruct (emitChange_cases now s1) as [C|C]; rewrite C; cbn [fst snd].
    + left. now rewrite S.
    + right. exists now, s1. cbn [replacements notifications flat_map app].
      fold (replacements (map Notify (listeners s1))).
      fold (notifications (map Notify (listeners s1))).
      destruct (replacements_notify (listeners s1)) as [-> ->].
      now rewrite L.
Qed.

(** A listener in the set after a step was there before or has just been
    added. *)
Lemma step_listener (e : event) (s : store) (x : nat) :
  In x (listeners (fst (step e s))) ->
  In x (listeners s) \/ e = Subscribe x.
Proof.
  destruct (step_cases e s) as [E|[(l & -> & E)|[(l & _ & E)|
    (s1 & now & pre & E & _ & L & _)]]]; rewrite E; cbn [fst]; intros H.
  - now left.
  - unfold subscribe in H.
    destruct (existsb (Nat.eqb l) (listeners s)); [now left|].
    cbn [listeners setListeners] in H. apply in_app_or in H.
    destruct H as [H|[->|[]]]; [now left | now right].
  - left. cbn [unsubscribe listeners setListeners] in H.
    now apply filter_In in H.
  - left. destruct (emitChange_state now s1) as (_ & _ & _ & _ & L' & _).
    now rewrite L', L in H.
Qed.

(** The snapshot of the store is the last one written, and every
    snapshot written comes out of [calculateState]. *)
Lemma last_cons_default {A : Type} (x : A) (l : list A) (d : A) :
  last (x :: l) d = last l x.
Proof.
  revert x d. induction l as [|y l IH]; intros x d; [reflexivity|].
  change (last (x :: y :: l) d) with (last (y :: l) d).
  now rewrite (IH y d), (IH y x).
Qed.

Lemma run_report (es : list event) :
  forall s : store,
    snapshot (fst (run es s)) = last (replacements (snd (run es s))) (snapshot s)
    /\ Forall (fun sn => exists now s1, sn = calculateState now s1)
         (replacements (snd (run es s))).
Proof.
  induction es as [|e es IH]; intros s; [now split|].
  rewrite store_run_cons. cbn [fst snd]. rewrite replacements_app.
  destruct (IH (fst (step e s))) as [S F].
  destruct (step_report e s) as [(R & _ & E)|(now & s1 & R & _ & E)];
    rewrite R; cbn [app].
  - split; [now rewrite S, E | exact F].
  - split.
    + rewrite last_cons_default, S. now rewrite E.
    + constructor; [now exists now, s1 | exact F].
Qed.

(** The display string of a reachable snapshot is the format of its
    seconds. *)
Lemma step_coherent (e : event) (s : store) :
  Snapshot.displayTime (snapshot s)
  = formatTime (Snapshot.totalSeconds (snapshot s)) ->
  Snapshot.displayTime (snapshot (fst (step e s)))
  = formatTime (Snapshot.totalSeconds (snapshot (fst (step e s)))).
Proof.
  intros C.
  destruct (step_report e s) as [(_ & _ & E)|(now & s1 & _ & _ & E)];
    rewrite E; [exact C | reflexivity].
Qed.

Lemma run_coherent (es : list event) :
  forall s : store,
    Snapshot.displayTime (snapshot s)
    = formatTime (Snapshot.totalSeconds (snapshot s)) ->
    Snapshot.displayTime (snapshot (fst (run es s)))
    = formatTime (Snapshot.totalSeconds (snapshot (fst (run es s)))).
Proof.
  induction es as [|e es IH]; intros s C; [exact C|].
  rewrite store_run_cons. cbn [fst]. apply IH. now apply step_coherent.
Qed.

(** On a coherent store [emitChange] leaves the freshly calculated
    snapshot behind, whether it reports or not. *)
Lemma emitChange_snapshot (now : Z) (s : store) :
  synced s ->
  Snapshot.displayTime (snapshot s)
  = formatTime (Snapshot.totalSeconds (snapshot s)) ->
  snapshot (fst (emitChange now s)) = calculateState now s.
Proof.
  intros Y C. unfold emitChange. cbv zeta.
  destruct (visiblyDiffers _ _) eqn:V; [reflexivity|].
  apply visiblyDiffers_false in V. destruct V as [T R]. cbn [fst].
  unfold synced in Y.
  destruct (snapshot s) as [d n r]. cbn in *. subst d.
  unfold calculateState in *. cbn in *. now rewrite <- T, Y.
Qed.

(** Ticks change none of the clock fields. *)
Lemma ticks_state (nows : list Z) :
  forall s : store,
    baseDurationMs (fst (run (map Tick nows) s)) = baseDurationMs s
    /\ startTimeMs (fst (run (map Tick nows) s)) = startTimeMs s
    /\ isRunning (fst (run (map Tick nows) s)) = isRunning s.
Proof.
  induction nows as [|now nows IH]; intros s; [now repeat split|].
  cbn [map]. rewrite store_run_cons. cbn [fst].
  destruct (IH (fst (step (Tick now) s))) as (B & A & R).
  destruct (tick_state now s) as (B' & A' & R' & _).
  rewrite B, A, R. now repeat split.
Qed.

Lemma run_app_store (es1 es2 : list event) (s : store) :
  run (es1 ++ es2) s =
  (fst (run es2 (fst (run es1 s))),
   snd (run es1 s) ++ snd (run es2 (fst (run es1 s)))).
Proof.
  revert s. induction es1 as [|e es1 IH]; intros s.
  - cbn. now destruct (run es2 s).
  - cbn [app]. rewrite !store_run_cons. cbn [fst snd]. rewrite IH.
    cbn [fst snd]. now rewrite app_assoc.
Qed.

End StoreOutcomes.

(* ------------------------------------------------------------------ *)
(** * The store and its tick worker *)
(* ------------------------------------------------------------------ *)

Section StoreWorker.

Import Store.

(** With a worker in place a step posts START when the clock begins to
    run, STOP when it ceases to, and nothing otherwise. *)
Lemma step_posted (e : event) (s : store) :
  worker s <> None ->
  (posted (snd (step e s)) = [] /\ isRunning (fst (step e s)) = isRunning s)
  \/ (posted (snd (step e s)) = ["START"%string]
      /\ isRunning s = false /\ isRunning (fst (step e s)) = true)
  \/ (posted (snd (step e s)) = ["STOP"%string]
      /\ isRunning s = true /\ isRunning (fst (step e s)) = false).
Proof.
  intros W.
  destruct (step_cases e s) as [E|[(l & _ & E)|[(l & _ & E)|
    (s1 & now & pre & E & W1 & _ & _ & P)]]]; rewrite E; cbn [fst snd].
  - now left.
  - left. unfold subscribe. now destruct (existsb _ _).
  - now left.
  - rewrite posted_app, emitChange_posts_nothing, app_nil_r.
    destruct (emitChange_state now s1) as (_ & _ & R & _). rewrite R.
    assert (Q : forall type, posted (postMessage type s1) = [type]).
    { intros type. unfold postMessage. rewrite W1.
      now destruct (worker s). }
    destruct P as [[-> R1]|[[-> [R0 R1]]|[-> [R0 R1]]]].
    + now left.
    + right; left. now rewrite Q.
    + right; right. now rewrite Q.
Qed.

Lemma run_alternating (es : list event) :
  forall s : store,
    worker s <> None ->
    StoreRun.alternating (isRunning s) (posted (snd (run es s))) = true
    /\ TimerWorker.started (isRunning s) (posted (snd (run es s)))
       = isRunning (fst (run es s)).
Proof.
  induction es as [|e es IH]; intros s W; [now split|].
  rewrite store_run_cons. cbn [fst snd]. rewrite posted_app.
  assert (W' : worker (fst (step e s)) <> None) by now rewrite step_worker.
  destruct (IH _ W') as [A T].
  destruct (step_posted e s W) as [[P R]|[(P & R0 & R1)|(P & R0 & R1)]];
    rewrite P; cbn [app].
  - rewrite <- R. split; assumption.
  - rewrite R1 in A, T. rewrite R0. unfold TimerWorker.started in *.
    cbn. split; assumption.
  - rewrite R1 in A, T. rewrite R0. unfold TimerWorker.started in *.
    cbn. split; assumption.
Qed.

End StoreWorker.

Section TimerWorkerFacts.

Import TimerWorker.

Lemma onmessage_tidy (type : string) (w : worker) :
  tidy w ->
  tidy (onmessage type w)
  /\ (intervalId (onmessage type w) <> None <->
      started (match intervalId w with Some _ => true | None => false end)
        [type] = true).
Proof.
  unfold tidy, onmessage, started. cbn [fold_left]. intros T.
  destruct (String.eqb type "START") eqn:E1;
    [|destruct (String.eqb type "STOP") eqn:E2].
  - destruct (intervalId w) as [[|n]|] eqn:I; cbn [truthy].
    + destruct T as [_ [L _]]. inversion L.
    + destruct T as [A [_ L]]. cbn. rewrite A. cbn. rewrite Nat.eqb_refl. cbn.
      split; [split; [reflexivity | split; [apply Nat.le_succ_l, Nat.lt_0_succ
                                           | apply Nat.le_refl]]|].
      split; [reflexivity | discriminate].
    + cbn. rewrite T. cbn.
      split; [split; [reflexivity | split; [apply Nat.le_succ_l, Nat.lt_0_succ
                                           | apply Nat.le_refl]]|].
      split; [reflexivity | discriminate].
  - destruct (intervalId w) as [[|n]|] eqn:I; cbn [truthy].
    + destruct T as [_ [L _]]. inversion L.
    + destruct T as [A _]. cbn. rewrite A. cbn. rewrite Nat.eqb_refl. cbn.
      split; [reflexivity|]. split; [intros H; now elim H | discriminate].
    + cbn. split; [exact T|]. split; [intros H; now elim H | discriminate].
  - split; [exact T|]. destruct (intervalId w); split; congruence.
Qed.

Lemma run_tidy (types : list string) :
  forall w : worker,
    tidy w ->
    tidy (run types w)
    /\ (intervalId (run types w) <> None <->
        started (match intervalId w with Some _ => true | None => false end)
          types = true).
Proof.
  induction types as [|type types IH]; intros w T.
  - split; [exact T|]. unfold started. cbn.
    destruct (intervalId w); split; congruence.
  - destruct (onmessage_tidy type w T) as [T1 S1].
    destruct (IH _ T1) as [T2 S2].
    change (run (type :: types) w) with (run types (onmessage type w)).
    split; [exact T2|]. rewrite S2. clear S2 T2 IH.
    change (started
              (match intervalId w with Some _ => true | None => false end)
              (type :: types))
      with (started
              (started
                 (match intervalId w with Some _ => true | None => false end)
                 [type]) types).
    destruct (intervalId (onmessage type w)) as [id|].
    + assert (X : started
                    (match intervalId w with Some _ => true | None => false end)
                    [type] = true) by (apply S1; discriminate).
      now rewrite X.
    + destruct (started
                  (match intervalId w with Some _ => true | None => false end)
                  [type]) eqn:X; [|reflexivity].
      destruct S1 as [_ S1]. now elim (S1 eq_refl).
Qed.

(** One period of a worker that has seen only messages: one TICK when
    the last of START and STOP was START, none otherwise. *)
Lemma run_elapse (types : list string) :
  elapse (run types initial)
  = if started false types then [PostMessage "TICK"] else [].
Proof.
  assert (T0 : tidy initial) by reflexivity.
  destruct (run_tidy types initial T0) as [T S].
  cbn [intervalId initial] in S. unfold tidy in T. unfold elapse.
  destruct (intervalId (run types initial)) as [id|].
  - destruct T as [-> _].
    assert (X : started false types = true) by (apply S; discriminate).
    now rewrite X.
  - rewrite T. destruct (started false types); [|reflexivity].
    destruct S as [_ S]. now elim (S eq_refl).
Qed.

Lemma run_active (types : list string) :
  active (run types initial)
  = match intervalId (run types initial) with
    | Some id => [id]
    | None => []
    end.
Proof.
  assert (T0 : tidy initial) by reflexivity.
  destruct (run_tidy types initial T0) as [T _]. unfold tidy in T.
  destruct (intervalId (run types initial)); [now destruct T | exact T].
Qed.

End TimerWorkerFacts.

(* ------------------------------------------------------------------ *)
(** * Further properties of the kernel *)
(* ------------------------------------------------------------------ *)

(** X1.  [loop] keeps no time of its own: however many times it has run
    and whenever, it leaves the base, the anchor and the running flag as
    they are, and after its latest run at [t] the second on record of a
    running clock is [floor((base + (t - anchor)) / 1000)], whatever the
    earlier runs were; on a stopped clock the record does not move. *)
Theorem X1_loop_reports_by_the_clock_alone :
  forall (nows : list Z) (t : Z) (k : Kernel.kernel),
    let k' := fst (Kernel.loops (nows ++ [t]) k) in
    Kernel.baseTimeMs (Kernel.st k') = Kernel.baseTimeMs (Kernel.st k)
    /\ Kernel.startTimeMs (Kernel.st k') = Kernel.startTimeMs (Kernel.st k)
    /\ Kernel.isRunning (Kernel.st k') = Kernel.isRunning (Kernel.st k)
    /\ (Kernel.isRunning (Kernel.st k) = true ->
        Kernel.lastRenderedSecond (Kernel.st k')
        = (Kernel.baseTimeMs (Kernel.st k)
           + (t - Kernel.startTimeMs (Kernel.st k))) / 1000)
    /\ (Kernel.isRunning (Kernel.st k) = false ->
        Kernel.lastRenderedSecond (Kernel.st k')
        = Kernel.lastRenderedSecond (Kernel.st k)).
Proof.
  intros nows t k k'.
  destruct (loops_clock (nows ++ [t]) k) as (B & S & R & L).
  fold k' in B, S, R, L.
  split; [exact B|]. split; [exact S|]. split; [exact R|].
  split; intros Run; rewrite L, Run, ?last_last;
    destruct (nows ++ [t]) eqn:N; try reflexivity.
  now destruct nows.
Qed.

(** X1 on the running sample kernel, for a frame at 5100 after four
    others. *)
Lemma X1_loop_reports_by_the_clock_alone_witness :
  Kernel.isRunning (Kernel.st kernelRunning) = true
  /\ Kernel.lastRenderedSecond
       (Kernel.st (fst (Kernel.loops (frameTimes ++ [5100]) kernelRunning)))
     = (Kernel.baseTimeMs (Kernel.st kernelRunning)
        + (5100 - Kernel.startTimeMs (Kernel.st kernelRunning))) / 1000
  /\ Kernel.isRunning (Kernel.st kernelReady) = false
  /\ Kernel.lastRenderedSecond
       (Kernel.st (fst (Kernel.loops (frameTimes ++ [5100]) kernelReady)))
     = Kernel.lastRenderedSecond (Kernel.st kernelReady).
Proof.
  split; [reflexivity|].
  split;
    [apply (X1_loop_reports_by_the_clock_alone frameTimes 5100 kernelRunning);
     reflexivity|].
  split; [reflexivity|].
  apply (X1_loop_reports_by_the_clock_alone frameTimes 5100 kernelReady);
    reflexivity.
Defined.

(** X2.  Over clock readings that do not go back, the seconds [loop]
    passes to [paint] are strictly increasing: [loop] paints no second
    twice.  When the second on record is not ahead of the readings,
    every second [loop] paints is moreover greater than the record.
    (This orders the seconds handed to [paint], not the strings drawn
    for them, which wrap at sixty hours.) *)
Theorem X2_painted_seconds_strictly_increase :
  forall (nows : list Z) (k : Kernel.kernel),
    Sorted Z.le nows ->
    StronglySorted Z.lt (Kernel.paintCalls (snd (Kernel.loops nows k)))
    /\ ((forall t, In t nows ->
           Kernel.lastRenderedSecond (Kernel.st k) <= KernelRun.secondAt t k) ->
        Forall (fun c => Kernel.lastRenderedSecond (Kernel.st k) < c)
          (Kernel.paintCalls (snd (Kernel.loops nows k)))).
Proof.
  intros nows k So. split; [now apply loops_strictly_increasing|].
  intros Lo. now apply loops_increasing.
Qed.

(** X2 on six frames of the running sample kernel, whose record is the
    second 0. *)
Lemma X2_painted_seconds_strictly_increase_witness :
  Sorted Z.le framesOverSeconds
  /\ Kernel.lastRenderedSecond (Kernel.st kernelRunning) = 0
  /\ Kernel.paintCalls (snd (Kernel.loops framesOverSeconds kernelRunning))
     = [1; 2; 3]
  /\ StronglySorted Z.lt
       (Kernel.paintCalls (snd (Kernel.loops framesOverSeconds kernelRunning)))
  /\ Forall (fun c => Kernel.lastRenderedSecond (Kernel.st kernelRunning) < c)
       (Kernel.paintCalls (snd (Kernel.loops framesOverSeconds kernelRunning))).
Proof.
  assert (S : Sorted Z.le framesOverSeconds).
  { unfold framesOverSeconds. repeat constructor; lia. }
  destruct (X2_painted_seconds_strictly_increase framesOverSeconds
              kernelRunning S) as [I A].
  split; [exact S|]. split; [reflexivity|]. split; [reflexivity|].
  split; [exact I|].
  apply A. intros t Ht. unfold framesOverSeconds in Ht. cbn [In] in Ht.
  repeat (destruct Ht as [<-|Ht]; [vm_compute; discriminate|]).
  destruct Ht.
Defined.

(** X3.  A kernel that has no context draws nothing, whatever it is sent
    and however many frames pass, as long as no INIT message hands it a
    canvas: [paint] returns at its safety check, and no other message
    creates a context. *)
Theorem X3_no_canvas_no_drawing :
  forall (es : list Kernel.event) (k : Kernel.kernel),
    Kernel.ctx k = false ->
    forallb (fun e => negb (KernelRun.carriesCanvas e)) es = true ->
    Kernel.ctx (fst (Kernel.run es k)) = false
    /\ filter KernelRun.isDraw (snd (Kernel.run es k)) = []
    /\ Kernel.paintedTexts (snd (Kernel.run es k)) = [].
Proof.
  intros es k C N.
  destruct (run_without_canvas es k C N) as [C' D].
  split; [exact C'|]. split; [exact D|].
  revert D. generalize (snd (Kernel.run es k)) as fx.
  induction fx as [|e fx IH]; intros D; [reflexivity|].
  destruct e as [s|op|]; cbn in *; try discriminate D; now apply IH.
Qed.

(** X3 on a kernel that is resized, started and set without ever being
    initialised. *)
Lemma X3_no_canvas_no_drawing_witness :
  Kernel.ctx Kernel.initial = false
  /\ forallb (fun e => negb (KernelRun.carriesCanvas e)) eventsWithoutInit
     = true
  /\ Kernel.paintedTexts (snd (Kernel.run eventsWithoutInit Kernel.initial))
     = [].
Proof.
  split; [reflexivity|]. split; [reflexivity|].
  apply (X3_no_canvas_no_drawing eventsWithoutInit Kernel.initial);
    reflexivity.
Defined.

(** X4.  Messages that carry the payload their handler reads never make
    the kernel throw: from the script as loaded, after any sequence of
    such messages and of animation frames no exception has left a
    callback, the configuration is defined, and a running clock has
    exactly one animation frame requested, the one whose handle the
    script remembers. *)
Theorem X4_well_formed_messages_never_throw :
  forall es : list Kernel.event,
    forallb KernelRun.wellFormed es = true ->
    let k := fst (Kernel.run es Kernel.initial) in
    KernelRun.uncaught (snd (Kernel.run es Kernel.initial)) = 0%nat
    /\ Kernel.config (Kernel.st k) <> None
    /\ (Kernel.isRunning (Kernel.st k) = true ->
        exists id, Kernel.rafPending k = [id]
                   /\ Kernel.animationFrameId k = Some id).
Proof.
  intros es W k.
  assert (Q0 : KernelRun.frameQueueOk Kernel.initial) by exact I.
  assert (A0 : KernelRun.loopAlive Kernel.initial).
  { split; [discriminate|]. intros R. discriminate R. }
  destruct (run_alive es Kernel.initial W Q0 A0) as (Q & [C A] & U).
  fold k in Q, C, A.
  split; [exact U|]. split; [exact C|].
  intros R. destruct (A R) as [id E]. exists id. split; [exact E|].
  unfold KernelRun.frameQueueOk in Q. rewrite E in Q. now destruct Q.
Qed.

(** X4 on a session that starts, adjusts, reconfigures, pauses and
    restarts. *)
Lemma X4_well_formed_messages_never_throw_witness :
  forallb KernelRun.wellFormed eventsWellFormed = true
  /\ KernelRun.uncaught (snd (Kernel.run eventsWellFormed Kernel.initial))
     = 0%nat
  /\ Kernel.isRunning
       (Kernel.st (fst (Kernel.run eventsWellFormed Kernel.initial))) = true
  /\ exists id,
       Kernel.rafPending (fst (Kernel.run eventsWellFormed Kernel.initial))
       = [id]
       /\ Kernel.animationFrameId
            (fst (Kernel.run eventsWellFormed Kernel.initial)) = Some id.
Proof.
  destruct (X4_well_formed_messages_never_throw eventsWellFormed eq_refl)
    as (U & _ & A).
  split; [reflexivity|]. split; [exact U|]. split; [reflexivity|].
  apply A. reflexivity.
Defined.

(** X5.  Whatever messages arrive, well formed or not, and whatever
    frames pass, the kernel never has more than one animation frame
    requested, never has one requested while it is stopped, and the one it
    has is the one PAUSE would cancel: no callback is leaked. *)
Theorem X5_at_most_one_frame_requested :
  forall es : list Kernel.event,
    let k := fst (Kernel.run es Kernel.initial) in
    Kernel.rafPending k = []
    \/ exists id,
         Kernel.rafPending k = [id]
         /\ Kernel.animationFrameId k = Some id
         /\ Kernel.isRunning (Kernel.st k) = true.
Proof.
  intros es k.
  assert (Q : KernelRun.frameQueueOk k)
    by (apply run_frameQueueOk; exact I).
  unfold KernelRun.frameQueueOk in Q.
  destruct (Kernel.rafPending k) as [|id [|id' ids]];
    [now left | | contradiction].
  right. exists id. destruct Q as [A R]. now repeat split.
Qed.

Section KernelAdjust.

Import Kernel KernelRun.

Lemma ADJUST_TIME_clock (now d : Z) (k : kernel) :
  clockOf (fst (handle
                  (onmessage now (ADJUST_TIME (Some {| deltaSeconds := d |})))
                  k))
  = (baseTimeMs (st k) + d * 1000, startTimeMs (st k), isRunning (st k),
     (if isRunning (st k)
      then baseTimeMs (st k) + d * 1000 + (now - startTimeMs (st k))
      else baseTimeMs (st k) + d * 1000) / 1000).
Proof.
  destruct (ADJUST_TIME_payload now {| deltaSeconds := d |} k)
    as (k' & fx & E & C & _).
  rewrite E. exact C.
Qed.

Lemma timeText_length (s : Z) :
  String.length (timeText s) = if s <? 0 then 9%nat else 8%nat.
Proof.
  unfold timeText.
  destruct (hoursIndex_spec s) as [_ Bh].
  destruct (minutesIndex_spec s) as [_ Bm].
  destruct (secondsIndex_spec s) as [_ Bs].
  rewrite (DIGITS_index _ Bh), (DIGITS_index _ Bm), (DIGITS_index _ Bs).
  cbn [JS.interpolate].
  rewrite !length_append.
  rewrite !pad2_width_below_100 by lia.
  now destruct (s <? 0).
Qed.

End KernelAdjust.

(** X6.  ADJUST_TIME is additive and leaves the anchor alone: it moves
    the base by [d] seconds and touches neither the anchor nor the running
    flag, so the total at every instant moves by exactly [d * 1000] ms;
    two adjustments leave the clock fields one adjustment by their sum
    would leave; and an adjustment followed by its opposite restores the
    base, whatever time passes in between. *)
Theorem X6_adjust_time_is_additive :
  forall (a b t1 t2 : Z) (k : Kernel.kernel),
    let adjust t d :=
      Kernel.Message t
        (Kernel.ADJUST_TIME (Some {| Kernel.deltaSeconds := d |})) in
    (forall t,
        Kernel.totalMs t (fst (Kernel.run [adjust t1 a] k))
        = Kernel.totalMs t k + a * 1000)
    /\ Kernel.startTimeMs (Kernel.st (fst (Kernel.run [adjust t1 a] k)))
       = Kernel.startTimeMs (Kernel.st k)
    /\ Kernel.isRunning (Kernel.st (fst (Kernel.run [adjust t1 a] k)))
       = Kernel.isRunning (Kernel.st k)
    /\ Kernel.clockOf (fst (Kernel.run [adjust t1 a; adjust t2 b] k))
       = Kernel.clockOf (fst (Kernel.run [adjust t2 (a + b)] k))
    /\ Kernel.baseTimeMs
         (Kernel.st (fst (Kernel.run [adjust t1 a; adjust t2 (- a)] k)))
       = Kernel.baseTimeMs (Kernel.st k).
Proof.
  intros a b t1 t2 k adjust.
  assert (One : forall t d k0,
             Kernel.clockOf (fst (Kernel.run [adjust t d] k0))
             = (Kernel.baseTimeMs (Kernel.st k0) + d * 1000,
                Kernel.startTimeMs (Kernel.st k0),
                Kernel.isRunning (Kernel.st k0),
                (if Kernel.isRunning (Kernel.st k0)
                 then Kernel.baseTimeMs (Kernel.st k0) + d * 1000
                      + (t - Kernel.startTimeMs (Kernel.st k0))
                 else Kernel.baseTimeMs (Kernel.st k0) + d * 1000) / 1000)).
  { intros t d k0. rewrite run_cons. cbn [fst Kernel.run Kernel.step].
    apply ADJUST_TIME_clock. }
  assert (Two : forall t t' d d' k0,
             Kernel.clockOf (fst (Kernel.run [adjust t d; adjust t' d'] k0))
             = Kernel.clockOf
                 (fst (Kernel.run [adjust t' d']
                         (fst (Kernel.run [adjust t d] k0))))).
  { intros t t' d d' k0.
    change [adjust t d; adjust t' d'] with ([adjust t d] ++ [adjust t' d']).
    now rewrite run_app. }
  pose proof (One t1 a k) as C1.
  rewrite !Two, !One.
  remember (fst (Kernel.run [adjust t1 a] k)) as k1 eqn:Ek1.
  unfold Kernel.clockOf in C1. injection C1 as B1 S1 R1 _.
  split.
  { intros t. unfold Kernel.totalMs. rewrite R1, B1, S1.
    destruct (Kernel.isRunning (Kernel.st k)); lia. }
  split; [exact S1|]. split; [exact R1|].
  split.
  - rewrite B1, S1, R1.
    replace ((a + b) * 1000) with (a * 1000 + b * 1000) by lia.
    now rewrite !Z.add_assoc.
  - pose proof (One t2 (- a) k1) as T.
    remember (fst (Kernel.run [adjust t2 (- a)] k1)) as k2 eqn:Ek2.
    assert (E : fst (Kernel.run [adjust t1 a; adjust t2 (- a)] k) = k2).
    { subst k2 k1.
      change [adjust t1 a; adjust t2 (- a)]
        with ([adjust t1 a] ++ [adjust t2 (- a)]).
      now rewrite run_app. }
    rewrite E. unfold Kernel.clockOf in T. injection T as B _ _ _.
    rewrite B, B1. lia.
Qed.

(** X7.  The first picture.  INIT on the script as loaded draws nothing,
    the surface is still empty; the RESIZE that follows draws the initial
    second exactly when the canvas gave a context, the new surface is not
    empty and the initial second is not negative.  A clock initialised
    with a negative second stays blank on RESIZE. *)
Theorem X7_first_picture_comes_with_the_first_resize :
  forall (p : Kernel.initPayload) (r : Kernel.resizePayload) (t1 t2 : Z),
    Kernel.paintedTexts
      (snd (Kernel.run [Kernel.Message t1 (Kernel.INIT (Some p))]
              Kernel.initial)) = []
    /\ Kernel.paintedTexts
         (snd (Kernel.run [Kernel.Message t1 (Kernel.INIT (Some p));
                           Kernel.Message t2 (Kernel.RESIZE (Some r))]
                 Kernel.initial))
       = (if Kernel.has2d (Kernel.init_canvas p)
             && negb (Kernel.resize_width r =? 0)
             && negb (Kernel.resize_height r =? 0)
             && (0 <=? Kernel.initialSeconds p)
          then [Kernel.timeText (Kernel.initialSeconds p)]
          else []).
Proof.
  intros p r t1 t2.
  assert (Hinit : Kernel.handle (Kernel.onmessage t1 (Kernel.INIT (Some p)))
                Kernel.initial
              = (Kernel.withState
                   (Kernel.setLastRenderedSecond (Kernel.initialSeconds p))
                   (Kernel.withState
                      (Kernel.setBaseTimeMs (Kernel.initialSeconds p * 1000))
                      (Kernel.withState
                         (Kernel.setConfig (Some (Kernel.init_config p)))
                         (Kernel.setCanvas (Some (Kernel.init_canvas p))
                            (Kernel.has2d (Kernel.init_canvas p))
                            Kernel.initial))),
                 [Kernel.PaintCall (Kernel.initialSeconds p)])).
  { rewrite handle_settle, onmessage_INIT.
    unfold Kernel.paint. kernel_unfold. cbn.
    rewrite orb_true_r. reflexivity. }
  split.
  - rewrite run_cons. cbn [fst snd Kernel.run Kernel.step]. now rewrite Hinit.
  - rewrite run_cons. cbn [fst snd Kernel.step]. rewrite Hinit. cbn [fst snd].
    rewrite paintedTexts_app.
    change (Kernel.paintedTexts [Kernel.PaintCall (Kernel.initialSeconds p)])
      with (@nil string).
    cbn [app].
    rewrite run_cons. cbn [fst snd Kernel.run Kernel.step].
    rewrite app_nil_r, handle_settle, onmessage_RESIZE. cbv zeta.
    cbn [Kernel.lastRenderedSecond Kernel.st Kernel.withState
         Kernel.setLastRenderedSecond].
    destruct (0 <=? Kernel.initialSeconds p).
    + rewrite settle_paint. cbn [snd].
      rewrite paintedTexts_app, paint_texts.
      match goal with
      | |- context [fst (fst (Kernel.paint ?x ?k1))] =>
          destruct (fst (fst (Kernel.paint x k1))) as [[]|]
      end;
        change (Kernel.paintedTexts [Kernel.Uncaught]) with (@nil string);
        change (Kernel.paintedTexts []) with (@nil string);
        rewrite app_nil_r; cbn; rewrite andb_true_r;
        destruct (Kernel.has2d (Kernel.init_canvas p)); cbn; try reflexivity;
        destruct (Kernel.resize_width r =? 0); cbn; try reflexivity;
        destruct (Kernel.resize_height r =? 0); reflexivity.
    + cbn. now rewrite !andb_false_r.
Qed.

(** X8.  The painted string has a fixed width: eight characters for a
    second that is not negative, nine with the sign, whatever the
    value. *)
Theorem X8_painted_string_has_fixed_width :
  forall s : Z,
    String.length (Kernel.timeText s) = (if s <? 0 then 9%nat else 8%nat).
Proof. exact timeText_length. Qed.

(** X9.  Every call of [paint] made by a message handler or by the
    callbacks of an animation frame is made with the second that
    [lastRenderedSecond] holds when the callback is over: the record of
    the dirty check is always what the canvas was last asked to show. *)
Theorem X9_record_is_what_was_painted :
  forall (e : Kernel.event) (k : Kernel.kernel),
    Forall (fun c =>
              c = Kernel.lastRenderedSecond (Kernel.st (fst (Kernel.step e k))))
      (Kernel.paintCalls (snd (Kernel.step e k))).
Proof. exact step_paints_record. Qed.

(** X10.  Losing the configuration stops the render loop for good.  On a
    running kernel that can reach the canvas but whose configuration is
    [undefined] (what an UPDATE_CONFIG message without payload leaves),
    the first animation frame whose second differs from the record makes
    [paint] throw inside [loop] before the next frame is requested: the
    canvas is cleared and stays blank, the exception is reported, no
    frame is requested any more although the clock still counts as
    running, and every later animation frame does nothing. *)
Theorem X10_lost_configuration_stops_the_loop :
  forall (k : Kernel.kernel) (t : Z) (id : nat),
    Kernel.isRunning (Kernel.st k) = true ->
    Kernel.ctx k = true ->
    Kernel.width (Kernel.st k) <> 0 ->
    Kernel.height (Kernel.st k) <> 0 ->
    Kernel.config (Kernel.st k) = None ->
    Kernel.rafPending k = [id] ->
    (Kernel.baseTimeMs (Kernel.st k) + (t - Kernel.startTimeMs (Kernel.st k)))
      / 1000 <> Kernel.lastRenderedSecond (Kernel.st k) ->
    let k' := fst (Kernel.animationFrame t k) in
    let fx := snd (Kernel.animationFrame t k) in
    fx = [Kernel.PaintCall (KernelRun.secondAt t k);
          Kernel.Draw (Kernel.ClearRect (Kernel.width (Kernel.st k))
                         (Kernel.height (Kernel.st k)));
          Kernel.Uncaught]
    /\ Kernel.rafPending k' = []
    /\ Kernel.isRunning (Kernel.st k') = true
    /\ forall ts : list Z,
         Kernel.run (map Kernel.AnimationFrame ts) k' = (k', []).
Proof.
  intros k t id R C W H G Q N k' fx.
  assert (E : Kernel.animationFrame t k =
              (Kernel.withState
                 (Kernel.setLastRenderedSecond (KernelRun.secondAt t k))
                 (KernelRun.dequeued k),
               [Kernel.PaintCall (KernelRun.secondAt t k);
                Kernel.Draw (Kernel.ClearRect (Kernel.width (Kernel.st k))
                               (Kernel.height (Kernel.st k)));
                Kernel.Uncaught])).
  { rewrite animationFrame_loops, Q. cbn [map Kernel.loops].
    rewrite handle_settle, loop_eq. cbv zeta.
    change (Kernel.isRunning (Kernel.st (KernelRun.dequeued k)))
      with (Kernel.isRunning (Kernel.st k)).
    change (Kernel.lastRenderedSecond (Kernel.st (KernelRun.dequeued k)))
      with (Kernel.lastRenderedSecond (Kernel.st k)).
    change (KernelRun.secondAt t (KernelRun.dequeued k))
      with (KernelRun.secondAt t k).
    rewrite R.
    destruct (Z.eqb_spec (KernelRun.secondAt t k)
                (Kernel.lastRenderedSecond (Kernel.st k))) as [Eq|_];
      [contradiction|].
    rewrite paint_result. cbn. rewrite C, G.
    destruct (Z.eqb_spec (Kernel.width (Kernel.st k)) 0); [contradiction|].
    destruct (Z.eqb_spec (Kernel.height (Kernel.st k)) 0); [contradiction|].
    reflexivity. }
  subst k' fx. rewrite E. cbn [fst snd].
  split; [reflexivity|]. split; [reflexivity|]. split; [exact R|].
  induction ts as [|t' ts IH]; [reflexivity|].
  cbn [map]. rewrite run_cons. cbn [Kernel.step].
  rewrite animationFrame_loops. cbn [Kernel.rafPending Kernel.withState
    KernelRun.dequeued map Kernel.loops fst snd].
  change (KernelRun.dequeued
            (Kernel.withState
               (Kernel.setLastRenderedSecond (KernelRun.secondAt t k))
               (KernelRun.dequeued k)))
    with (Kernel.withState
            (Kernel.setLastRenderedSecond (KernelRun.secondAt t k))
            (KernelRun.dequeued k)).
  rewrite IH. reflexivity.
Qed.

(** X10 on the running sample kernel after an UPDATE_CONFIG message
    without payload, at the frame that reaches second 1. *)
Lemma X10_lost_configuration_stops_the_loop_witness :
  Kernel.isRunning (Kernel.st kernelWithoutConfig) = true
  /\ Kernel.ctx kernelWithoutConfig = true
  /\ Kernel.width (Kernel.st kernelWithoutConfig) <> 0
  /\ Kernel.height (Kernel.st kernelWithoutConfig) <> 0
  /\ Kernel.config (Kernel.st kernelWithoutConfig) = None
  /\ Kernel.rafPending kernelWithoutConfig = [1%nat]
  /\ (Kernel.baseTimeMs (Kernel.st kernelWithoutConfig)
      + (1116 - Kernel.startTimeMs (Kernel.st kernelWithoutConfig))) / 1000
     <> Kernel.lastRenderedSecond (Kernel.st kernelWithoutConfig)
  /\ snd (Kernel.animationFrame 1116 kernelWithoutConfig)
     = [Kernel.PaintCall 1; Kernel.Draw (Kernel.ClearRect 800 200);
        Kernel.Uncaught]
  /\ Kernel.rafPending (fst (Kernel.animationFrame 1116 kernelWithoutConfig))
     = [].
Proof.
  assert (W : Kernel.width (Kernel.st kernelWithoutConfig) <> 0)
    by discriminate.
  assert (H : Kernel.height (Kernel.st kernelWithoutConfig) <> 0)
    by discriminate.
  assert (N : (Kernel.baseTimeMs (Kernel.st kernelWithoutConfig)
               + (1116 - Kernel.startTimeMs (Kernel.st kernelWithoutConfig)))
              / 1000
              <> Kernel.lastRenderedSecond (Kernel.st kernelWithoutConfig))
    by discriminate.
  destruct (X10_lost_configuration_stops_the_loop kernelWithoutConfig 1116 1
              eq_refl eq_refl W H eq_refl eq_refl N) as (U & P & _).
  repeat (split; [assumption || reflexivity|]). exact P.
Defined.

(** X22.  The alive indicator blinks.  On a kernel that can draw and
    whose configuration asks for the dot, of any two consecutive seconds
    [paint] draws the dot in exactly one, the even one, also below zero;
    without [showDot] it draws none. *)
Theorem X22_alive_dot_shows_every_other_second :
  forall (k : Kernel.kernel) (cfg : Kernel.ClockStyleConfig) (c : Z),
    Kernel.ctx k = true ->
    Kernel.width (Kernel.st k) <> 0 ->
    Kernel.height (Kernel.st k) <> 0 ->
    Kernel.config (Kernel.st k) = Some cfg ->
    KernelRun.dots (snd (Kernel.paint c k))
    = (if Kernel.showDot cfg && Z.even c then 1 else 0)%nat
    /\ (KernelRun.dots (snd (Kernel.paint c k))
        + KernelRun.dots (snd (Kernel.paint (c + 1) k))
        = if Kernel.showDot cfg then 1 else 0)%nat.
Proof.
  intros k cfg c C W H G.
  assert (D : forall x : Z,
             KernelRun.dots (snd (Kernel.paint x k))
             = (if Kernel.showDot cfg && Z.even x then 1 else 0)%nat).
  { intros x. unfold Kernel.paint. kernel_unfold. rewrite C, G.
    destruct (Z.eqb_spec (Kernel.width (Kernel.st k)) 0); [contradiction|].
    destruct (Z.eqb_spec (Kernel.height (Kernel.st k)) 0); [contradiction|].
    cbn [negb orb].
    assert (P : (Z.rem (Z.abs x) 2 =? 0) = Z.even x).
    { rewrite Z.rem_mod_nonneg by (try apply Z.abs_nonneg; reflexivity).
      rewrite Zmod_even.
      replace (Z.even (Z.abs x)) with (Z.even x) by now destruct x.
      now destruct (Z.even x). }
    rewrite P.
    destruct (Kernel.showDot cfg); destruct (Z.even x); reflexivity. }
  split; [apply D|]. rewrite !D.
  replace (c + 1) with (Z.succ c) by reflexivity. rewrite Z.even_succ.
  rewrite <- Z.negb_even.
  destruct (Kernel.showDot cfg); destruct (Z.even c); reflexivity.
Qed.

(** X22 on the sample kernel, at the seconds 7 and 8. *)
Lemma X22_alive_dot_shows_every_other_second_witness :
  Kernel.ctx kernelReady = true
  /\ Kernel.width (Kernel.st kernelReady) <> 0
  /\ Kernel.height (Kernel.st kernelReady) <> 0
  /\ Kernel.config (Kernel.st kernelReady) = Some Kernel.DEFAULT_CONFIG
  /\ KernelRun.dots (snd (Kernel.paint 7 kernelReady)) = 0%nat
  /\ KernelRun.dots (snd (Kernel.paint 8 kernelReady)) = 1%nat
  /\ (KernelRun.dots (snd (Kernel.paint 7 kernelReady))
      + KernelRun.dots (snd (Kernel.paint (7 + 1) kernelReady)) = 1)%nat.
Proof.
  assert (W : Kernel.width (Kernel.st kernelReady) <> 0) by discriminate.
  assert (H : Kernel.height (Kernel.st kernelReady) <> 0) by discriminate.
  destruct (X22_alive_dot_shows_every_other_second kernelReady
              Kernel.DEFAULT_CONFIG 7 eq_refl W H eq_refl) as [_ S].
  repeat (split; [assumption || reflexivity|]). exact S.
Defined.

(* ------------------------------------------------------------------ *)
(** * Further properties of the store and its worker *)
(* ------------------------------------------------------------------ *)

(** X11.  The listeners form a set.  In every store that a hook can
    reach, one step calls each subscribed listener once for the snapshot
    it replaces, if it replaces one, and calls nobody else, however often
    a listener was added. *)
Theorem X11_each_listener_is_called_once_per_change :
  forall (initialSeconds : Z) (es : list Store.event) (e : Store.event)
         (l : nat),
    let s := fst (Store.run es (Store.create initialSeconds)) in
    let fx := snd (Store.step e s) in
    (List.length (Store.replacements fx) <= 1)%nat
    /\ count_occ Nat.eq_dec (Store.notifications fx) l
       = if existsb (Nat.eqb l) (Store.listeners s)
         then List.length (Store.replacements fx)
         else 0%nat.
Proof.
  intros n es e l s fx.
  assert (N : NoDup (Store.listeners s)).
  { apply run_NoDup. constructor. }
  assert (C : count_occ Nat.eq_dec (Store.listeners s) l
              = if existsb (Nat.eqb l) (Store.listeners s)
                then 1%nat else 0%nat).
  { destruct (existsb (Nat.eqb l) (Store.listeners s)) eqn:E.
    - apply existsb_exists in E. destruct E as (x & Hx & Ex).
      apply Nat.eqb_eq in Ex. subst x.
      apply NoDup_count_occ' with (decA := Nat.eq_dec) in Hx; assumption.
    - apply count_occ_not_In. intros Hl.
      assert (X : existsb (Nat.eqb l) (Store.listeners s) = true).
      { apply existsb_exists. exists l. split; [exact Hl|apply Nat.eqb_refl]. }
      rewrite X in E. discriminate E. }
  subst fx.
  destruct (step_report e s) as [(R & Q & _)|(now & s1 & R & Q & _)];
    rewrite R, Q; cbn [List.length].
  - split; [apply Nat.le_0_l|]. cbn. now destruct (existsb _ _).
  - split; [apply Nat.le_refl | exact C].
Qed.

(** X12.  The function [subscribe] returns does its work: a listener
    that was removed is not called again for as long as it is not added
    anew, whatever else happens to the store. *)
Theorem X12_removed_listener_is_not_called :
  forall (l : nat) (es : list Store.event) (s : Store.store),
    existsb (StoreRun.subscribes l) es = false ->
    ~ In l (Store.notifications
              (snd (Store.run es (Store.unsubscribe l s)))).
Proof.
  intros l es s W.
  assert (G : forall s0 : Store.store,
             ~ In l (Store.listeners s0) ->
             ~ In l (Store.notifications (snd (Store.run es s0)))).
  { induction es as [|e es IH]; intros s0 H; [intros []|].
    cbn [existsb] in W. apply orb_false_elim in W. destruct W as [We Wes].
    rewrite store_run_cons. cbn [snd]. rewrite notifications_app.
    intros I. apply in_app_or in I. destruct I as [I|I].
    - destruct (step_report e s0) as [(_ & Q & _)|(now & s1 & _ & Q & _)];
        rewrite Q in I; [destruct I | exact (H I)].
    - revert I. apply (IH Wes). intros L.
      apply step_listener in L. destruct L as [L|L]; [exact (H L)|].
      subst e. cbn [StoreRun.subscribes] in We.
      rewrite Nat.eqb_refl in We. discriminate We. }
  apply G. cbn [Store.unsubscribe Store.listeners Store.setListeners].
  intros I. apply filter_In in I. destruct I as [_ I].
  rewrite Nat.eqb_refl in I. discriminate I.
Qed.

(** X12 on the sample store, from which its listener 1 is removed. *)
Lemma X12_removed_listener_is_not_called_witness :
  existsb (StoreRun.subscribes 1) eventsWithoutListener1 = false
  /\ Store.notifications (snd (Store.run eventsWithoutListener1 storeReady))
     = [1; 1; 1; 2; 1; 2; 1; 2]%nat
  /\ ~ In 1%nat
       (Store.notifications
          (snd (Store.run eventsWithoutListener1
                  (Store.unsubscribe 1 storeReady)))).
Proof.
  split; [reflexivity|]. split; [reflexivity|].
  apply (X12_removed_listener_is_not_called 1 eventsWithoutListener1
           storeReady).
  reflexivity.
Defined.

(** X13.  What [getSnapshot] returns.  After any events on a fresh
    store the snapshot is the one written last, or the initial one when
    none was written; its display string is the format of its seconds and
    its flag is the store's; and every snapshot written has seconds that
    are not negative and a display string that is their format. *)
Theorem X13_snapshot_is_the_last_one_written :
  forall (initialSeconds : Z) (es : list Store.event),
    let s := fst (Store.run es (Store.create initialSeconds)) in
    let fx := snd (Store.run es (Store.create initialSeconds)) in
    Store.getSnapshot s
    = last (Store.replacements fx)
        (Store.snapshot (Store.create initialSeconds))
    /\ Store.Snapshot.displayTime (Store.getSnapshot s)
       = formatTime (Store.Snapshot.totalSeconds (Store.getSnapshot s))
    /\ Store.Snapshot.isRunning (Store.getSnapshot s) = Store.isRunning s
    /\ Forall (fun sn =>
                 0 <= Store.Snapshot.totalSeconds sn
                 /\ Store.Snapshot.displayTime sn
                    = formatTime (Store.Snapshot.totalSeconds sn))
         (Store.replacements fx).
Proof.
  intros n es s fx. unfold Store.getSnapshot.
  destruct (run_report es (Store.create n)) as [L F]. fold s fx in L, F.
  split; [exact L|].
  split; [now apply run_coherent|].
  split; [now apply (run_synced es (Store.create n))|].
  apply Forall_impl with (2 := F).
  intros sn (now & s1 & ->). split; [|reflexivity].
  rewrite calculateState_totalSeconds. apply Z.le_max_l.
Qed.

(** X14.  Ticks carry no time.  On every store a hook can reach, after
    any ticks whatever, the snapshot left by a tick at [t] is the one
    [calculateState] computes at [t] from the fields the store had before
    the first of them, and those fields are unchanged: ticks that come
    late, double or not at all cost nothing once one arrives. *)
Theorem X14_ticks_carry_no_time :
  forall (initialSeconds : Z) (es : list Store.event) (ts : list Z) (t : Z),
    let s := fst (Store.run es (Store.create initialSeconds)) in
    let s' := fst (Store.run (map Store.Tick (ts ++ [t])) s) in
    Store.getSnapshot s' = Store.calculateState t s
    /\ Store.baseDurationMs s' = Store.baseDurationMs s
    /\ Store.startTimeMs s' = Store.startTimeMs s
    /\ Store.isRunning s' = Store.isRunning s.
Proof.
  intros n es ts t s s'.
  destruct (ticks_state (ts ++ [t]) s) as (B & A & R). fold s' in B, A, R.
  split; [|now repeat split].
  subst s'. rewrite map_app, run_app_store. cbn [fst map].
  set (s1 := fst (Store.run (map Store.Tick ts) s)).
  rewrite store_run_cons. cbn [Store.run fst]. rewrite step_Tick.
  unfold Store.getSnapshot. rewrite emitChange_snapshot.
  - destruct (ticks_state ts s) as (B1 & A1 & R1). fold s1 in B1, A1, R1.
    unfold Store.calculateState. now rewrite B1, A1, R1.
  - apply run_synced. now apply (run_synced es (Store.create n)).
  - apply run_coherent. now apply run_coherent.
Qed.

(** X15.  The messages the store posts to its worker take turns: from
    any store and under any events, START and STOP alternate, beginning
    with START when the store was stopped and with STOP when it was
    running.  The worker is never asked to start twice in a row. *)
Theorem X15_worker_messages_alternate :
  forall (es : list Store.event) (s : Store.store),
    StoreRun.alternating (Store.isRunning s)
      (Store.posted (snd (Store.run es s))) = true.
Proof.
  intros es s. destruct (Store.worker s) as [w|] eqn:W.
  - apply run_alternating. rewrite W. discriminate.
  - destruct (run_without_worker es s W) as (_ & _ & ->).
    now destruct (Store.isRunning s).
Qed.

(** X16.  What the cleanup releases.  After the effect has run on any
    store and whatever happened to the store since, the cleanup
    terminates the worker the store holds (the one the effect
    constructed, or, when the effect failed, the one an earlier run had
    left there, if any) and revokes the object URL exactly when
    [createObjectURL] returned one that is not the empty string, also
    when the [Worker] constructor threw after that.  On a store that
    held no worker before the effect, the worker is terminated exactly
    when it was constructed. *)
Theorem X16_cleanup_releases_what_was_acquired :
  forall (h : Store.host) (s0 : Store.store) (es : list Store.event),
    let s := fst (fst (Store.mount h s0)) in
    let workerUrl := snd (fst (Store.mount h s0)) in
    let revoked (url : string) :=
      match url with
      | EmptyString => []
      | String _ _ => [Store.RevokeObjectURL url]
      end in
    let terminated :=
      match Store.worker s0 with
      | Some _ => [Store.Terminate]
      | None => []
      end in
    Store.unmount workerUrl (fst (Store.run es s))
    = match h with
      | Store.WorkerConstructs url => Store.Terminate :: revoked url
      | Store.WorkerThrows url => terminated ++ revoked url
      | Store.CreateObjectURLThrows | Store.BlobThrows => terminated
      end.
Proof.
  intros h s0 es s workerUrl revoked terminated. unfold Store.unmount.
  rewrite run_worker. subst s workerUrl revoked terminated.
  destruct h as [| |url|url]; cbn;
    try (destruct url); destruct (Store.worker s0);
    rewrite ?app_nil_r; reflexivity.
Qed.

(** X17.  The tick worker never leaks an interval.  After any messages
    to the script as loaded, the only interval that is set is the one
    whose handle the script remembers, so that each period brings one
    TICK when the last of the START and STOP messages was a START and
    none otherwise, however often START was repeated. *)
Theorem X17_tick_worker_keeps_one_interval :
  forall types : list string,
    let w := TimerWorker.run types TimerWorker.initial in
    TimerWorker.active w
    = match TimerWorker.intervalId w with
      | Some id => [id]
      | None => []
      end
    /\ TimerWorker.elapse w
       = if TimerWorker.started false types
         then [TimerWorker.PostMessage "TICK"]
         else [].
Proof.
  intros types w. split; [apply run_active | apply run_elapse].
Qed.

(** X18.  The store and its worker stay in step.  When the worker is fed
    the messages that a mounted store posts under any events, it ticks
    exactly while the store is running. *)
Theorem X18_worker_ticks_while_the_store_runs :
  forall (initialSeconds : Z) (url : string) (es : list Store.event),
    let s := fst (Store.run es (StoreRun.mounted initialSeconds url)) in
    let fx := snd (Store.run es (StoreRun.mounted initialSeconds url)) in
    TimerWorker.elapse
      (TimerWorker.run (Store.posted fx) TimerWorker.initial)
    = if Store.isRunning s then [TimerWorker.PostMessage "TICK"] else [].
Proof.
  intros n url es s fx. rewrite run_elapse.
  assert (W : Store.worker (StoreRun.mounted n url) <> None) by discriminate.
  destruct (run_alternating es _ W) as [_ T].
  change (Store.isRunning (StoreRun.mounted n url)) with false in T.
  fold s fx in T. now rewrite T.
Qed.

(* ------------------------------------------------------------------ *)
(** * The clocks of the page side by side *)
(* ------------------------------------------------------------------ *)

(** X19.  The three formatters agree where they can.  For a time of
    less than sixty hours either way the string the kernel composes from
    its lookup table is the string [NaiveClock] formats, sign included;
    and on every value that is not negative, however large, [NaiveClock]
    formats as the store does. *)
Theorem X19_formatters_agree_below_sixty_hours :
  (forall s : Z,
      Z.abs s < 216000 -> Kernel.timeText s = NaiveClock.formatTime s)
  /\ (forall n : Z, 0 <= n -> NaiveClock.formatTime n = formatTime n).
Proof.
  split.
  - intros s B.
    unfold Kernel.timeText, NaiveClock.formatTime. cbv zeta.
    change (Z.rem (Z.abs s) 3600 / 60) with (Kernel.minutesIndex s).
    change (Z.rem (Z.abs s) 60) with (Kernel.secondsIndex s).
    assert (H : Kernel.hoursIndex s = Z.abs s / 3600).
    { unfold Kernel.hoursIndex. apply Z.rem_small.
      pose proof (Z.abs_nonneg s) as N. split.
      - now apply Z.div_pos.
      - apply Z.div_lt_upper_bound; [reflexivity | exact B]. }
    rewrite !DIGITS_index;
      [ now rewrite H
      | apply secondsIndex_spec | apply minutesIndex_spec
      | apply hoursIndex_spec ].
  - intros n N. unfold NaiveClock.formatTime, formatTime. cbv zeta.
    rewrite (Z.abs_eq n N).
    destruct (Z.ltb_spec n 0) as [L|_]; [lia | reflexivity].
Qed.

(** X19 at an hour, two minutes and five seconds before zero, and at a
    hundred hours. *)
Lemma X19_formatters_agree_below_sixty_hours_witness :
  Z.abs (-3725) < 216000
  /\ Kernel.timeText (-3725) = "-01:02:05"%string
  /\ Kernel.timeText (-3725) = NaiveClock.formatTime (-3725)
  /\ 0 <= 360000
  /\ NaiveClock.formatTime 360000 = formatTime 360000.
Proof.
  destruct X19_formatters_agree_below_sixty_hours as [K N].
  split; [reflexivity|]. split; [reflexivity|].
  split; [apply K; reflexivity|].
  split; [discriminate|]. apply N. discriminate.
Defined.

(** X20.  The two clocks of the page keep the same time.  When the ref
    of [NaiveClock] holds the base and the anchor of the kernel, and its
    handle was made by a render that saw the kernel's running flag, then
    the same method called on both at the same clock reading leaves them
    with the same base and anchor again, asks React for the flag the
    kernel ends with, and displays what the kernel paints; and from then
    on the interval callback of [NaiveClock] displays at every reading the
    second the kernel's loop computes there. *)
Theorem X20_naive_clock_follows_the_kernel :
  forall (c : method) (now : Z) (k : Kernel.kernel) (r : NaiveClock.ref),
    NaiveClock.baseTime r = Kernel.baseTimeMs (Kernel.st k) ->
    NaiveClock.startTime r = Kernel.startTimeMs (Kernel.st k) ->
    let out :=
      Kernel.handle
        (Kernel.onmessage now (MissionClock.post (MissionClock.Called c))) k in
    let r' := fst (NaiveClock.handle (Kernel.isRunning (Kernel.st k)) now c r) in
    let reqs :=
      snd (NaiveClock.handle (Kernel.isRunning (Kernel.st k)) now c r) in
    NaiveClock.baseTime r' = Kernel.baseTimeMs (Kernel.st (fst out))
    /\ NaiveClock.startTime r' = Kernel.startTimeMs (Kernel.st (fst out))
    /\ last (NaiveClock.flags reqs) (Kernel.isRunning (Kernel.st k))
       = Kernel.isRunning (Kernel.st (fst out))
    /\ NaiveClock.displayed reqs
       = map NaiveClock.formatTime (Kernel.paintCalls (snd out))
    /\ forall t : Z,
         NaiveClock.displayed (NaiveClock.tick t r')
         = [NaiveClock.formatTime (KernelRun.secondAt t (fst out))].
Proof.
  intros c now k r B A out r' reqs.
  cut (NaiveClock.baseTime r' = Kernel.baseTimeMs (Kernel.st (fst out))
       /\ NaiveClock.startTime r' = Kernel.startTimeMs (Kernel.st (fst out))
       /\ last (NaiveClock.flags reqs) (Kernel.isRunning (Kernel.st k))
          = Kernel.isRunning (Kernel.st (fst out))
       /\ NaiveClock.displayed reqs
          = map NaiveClock.formatTime (Kernel.paintCalls (snd out))).
  { intros (B' & A' & F & D). repeat (split; [assumption|]).
    intros t. unfold NaiveClock.tick, KernelRun.secondAt. cbn.
    now rewrite B', A'. }
  subst out r' reqs. rewrite handle_settle.
  destruct c as [| |s|delta]; cbn [MissionClock.post NaiveClock.handle].
  - rewrite onmessage_START.
    destruct (Kernel.isRunning (Kernel.st k)) eqn:R; cbn; rewrite ?R;
      now repeat split.
  - rewrite onmessage_PAUSE.
    destruct (Kernel.isRunning (Kernel.st k)) eqn:R; cbn; rewrite ?R;
      [|now repeat split].
    rewrite B, A. now destruct (Kernel.animationFrameId k).
  - rewrite onmessage_SET_TIME, settle_paint_calls, settle_paint_state.
    cbn [Kernel.seconds].
    destruct (Kernel.isRunning (Kernel.st k)) eqn:R; cbn; rewrite ?R;
      now repeat split.
  - rewrite onmessage_ADJUST_TIME. cbv zeta.
    rewrite settle_paint_calls, settle_paint_state.
    cbn [Kernel.deltaSeconds]. unfold Kernel.totalMs.
    destruct (Kernel.isRunning (Kernel.st k)) eqn:R; cbn;
      rewrite ?R, B, A, ?Z.add_0_r; now repeat split.
Qed.

(** X20 on the running sample kernel, a minute added at [t = 1500]. *)
Lemma X20_naive_clock_follows_the_kernel_witness :
  NaiveClock.baseTime {| NaiveClock.startTime := 100; NaiveClock.baseTime := 0 |}
  = Kernel.baseTimeMs (Kernel.st kernelRunning)
  /\ NaiveClock.startTime
       {| NaiveClock.startTime := 100; NaiveClock.baseTime := 0 |}
     = Kernel.startTimeMs (Kernel.st kernelRunning)
  /\ NaiveClock.displayed
       (snd (NaiveClock.handle (Kernel.isRunning (Kernel.st kernelRunning))
               1500 (adjustTime 60)
               {| NaiveClock.startTime := 100; NaiveClock.baseTime := 0 |}))
     = ["00:01:01"%string]
  /\ NaiveClock.displayed
       (snd (NaiveClock.handle (Kernel.isRunning (Kernel.st kernelRunning))
               1500 (adjustTime 60)
               {| NaiveClock.startTime := 100; NaiveClock.baseTime := 0 |}))
     = map NaiveClock.formatTime
         (Kernel.paintCalls
            (snd (Kernel.handle
                    (Kernel.onmessage 1500
                       (MissionClock.post
                          (MissionClock.Called (adjustTime 60))))
                    kernelRunning))).
Proof.
  split; [reflexivity|]. split; [reflexivity|]. split; [reflexivity|].
  apply (X20_naive_clock_follows_the_kernel (adjustTime 60) 1500
           kernelRunning
           {| NaiveClock.startTime := 100; NaiveClock.baseTime := 0 |}
           eq_refl eq_refl).
Defined.

(* ------------------------------------------------------------------ *)
(** * The component and its kernel *)
(* ------------------------------------------------------------------ *)

(** X21.  [MissionClock] never sends its kernel a message it cannot
    read.  Over the whole life of a mounted component, whatever the
    canvas, the props, the sizes the observer reports, the methods called
    on the controller and the animation frames in between, every message
    carries the payload its handler reads, no exception leaves a callback
    of the kernel, the kernel always has a configuration, and while the
    clock runs exactly one animation frame is requested. *)
Theorem X21_mission_clock_messages_are_well_formed :
  forall (canvas : Kernel.offscreen) (config : MissionClock.PartialConfig)
         (initialSeconds mountedAt : Z)
         (arrivals : list MissionClock.arrival),
    let es :=
      MissionClock.session canvas config initialSeconds mountedAt arrivals in
    let k := fst (Kernel.run es Kernel.initial) in
    forallb KernelRun.wellFormed es = true
    /\ KernelRun.uncaught (snd (Kernel.run es Kernel.initial)) = 0%nat
    /\ Kernel.config (Kernel.st k) <> None
    /\ Kernel.rafPending k
       = if Kernel.isRunning (Kernel.st k)
         then match Kernel.animationFrameId k with
              | Some id => [id]
              | None => []
              end
         else [].
Proof.
  intros canvas config initialSeconds mountedAt arrivals es k.
  assert (W : forallb KernelRun.wellFormed es = true).
  { subst es. unfold MissionClock.session. rewrite forallb_app.
    apply andb_true_intro. split; [reflexivity|].
    apply forallb_forall. intros e H. apply in_map_iff in H.
    destruct H as ([now [w h d|c|[| |s|delta]]|now] & <- & _); reflexivity. }
  split; [exact W|].
  assert (Q0 : KernelRun.frameQueueOk Kernel.initial) by exact I.
  assert (A0 : KernelRun.loopAlive Kernel.initial).
  { split; [discriminate|]. intros R. discriminate R. }
  destruct (run_alive es Kernel.initial W Q0 A0) as (Q & [C A] & U).
  fold k in Q, C, A.
  split; [exact U|]. split; [exact C|].
  destruct (Kernel.isRunning (Kernel.st k)) eqn:R.
  - destruct (A eq_refl) as [id E]. unfold KernelRun.frameQueueOk in Q.
    rewrite E in Q. destruct Q as [-> _]. exact E.
  - now apply frameQueueOk_stopped.
Qed.
